(** * Tachometer control panel: the bridge, the logger, the formatter and
      the panel

    A shallow embedding of [src/Log.py], of [src/BrazilianFormatter.py] and
    of [src/TachometerGUI.py] (serial worker, line decoder, command queue,
    chart history buffers, the timer that shows the decoded events and the
    configuration tab), with the properties of the specification, and
    further properties of the code, stated and proved over it.

    Conventions.
    - A Python [str] is a [string]: a sequence of code points below 256.
    - A computation that may raise is a [Py.result]; [Raise e] carries
      [str(e)].
    - [queue.Queue] is a list: [put] appends at the end, [get_nowait]
      takes the head.  The model is sequential: one method runs at a time.
    - Calls to [Log.trace], [Log.info], ... made by the GUI are journalled
      as [(level, message)] pairs in call order; what such a call prints
      is the business of [Log._log].
    - The numbers shown by the panel are [int] objects, as the decoder
      makes them; what the formatter does with a [float] is left to two
      functions of the surroundings. *)

From Stdlib Require Import List String Ascii ZArith Bool Lia.
From Stdlib Require DecimalString DecimalN DecimalFacts.
Import ListNotations.
Open Scope string_scope.
Open Scope list_scope.
Open Scope nat_scope.

Infix "+++" := String.append (right associativity, at level 60).

(* ================================================================== *)
(** * Python built-ins used by the sources *)
(* ================================================================== *)
Module Py.

Inductive result (A : Type) : Type :=
| Ok (a : A)
| Raise (e : string).
Arguments Ok {A} a.
Arguments Raise {A} e.

(** Methods mutate an object and may raise: a state transformer that
    returns the state as the exception left it. *)
Definition M (S A : Type) : Type := S -> S * result A.

Definition ret {S A : Type} (a : A) : M S A := fun s => (s, Ok a).

Definition bind {S A B : Type} (m : M S A) (k : A -> M S B) : M S B :=
  fun s =>
    match m s with
    | (s', Ok a) => k a s'
    | (s', Raise e) => (s', Raise e)
    end.

Definition raise {S A : Type} (e : string) : M S A := fun s => (s, Raise e).

Definition lift {S A : Type} (r : result A) : M S A := fun s => (s, r).

(** [try: body / except Exception as e: handler] *)
Definition try_except {S A : Type} (body : M S A) (handler : string -> M S A)
  : M S A :=
  fun s =>
    match body s with
    | (s', Ok a) => (s', Ok a)
    | (s', Raise e) => handler e s'
    end.

Definition get {S : Type} : M S S := fun s => (s, Ok s).

Definition modify {S : Type} (f : S -> S) : M S unit := fun s => (f s, Ok tt).

Definition when {S : Type} (b : bool) (m : M S unit) : M S unit :=
  if b then m else ret tt.

Declare Scope py_scope.
Delimit Scope py_scope with py.
Notation "x <- c ;; k" := (bind c (fun x => k))
  (at level 61, c at next level, right associativity) : py_scope.
Notation "c ;; k" := (bind c (fun _ => k))
  (at level 61, right associativity) : py_scope.

Definition nl : string := String (ascii_of_nat 10) EmptyString.

Definition code (c : ascii) : nat := nat_of_ascii c.

(** [s.startswith(p)] *)
Fixpoint startswith (s p : string) {struct p} : bool :=
  match p, s with
  | EmptyString, _ => true
  | String a p', String b s' => Ascii.eqb a b && startswith s' p'
  | String _ _, EmptyString => false
  end.

(** [s[n:]] for a non-negative literal [n] *)
Fixpoint slice_from (n : nat) (s : string) : string :=
  match n, s with
  | O, _ => s
  | S n', String _ r => slice_from n' r
  | S _, EmptyString => EmptyString
  end.

(** [s.split(sep)] for a one-character separator: never the empty list *)
Fixpoint split (sep : ascii) (s : string) : list string :=
  match s with
  | EmptyString => [EmptyString]
  | String c r =>
      if Ascii.eqb c sep then EmptyString :: split sep r
      else match split sep r with
           | h :: t => String c h :: t
           | [] => [String c EmptyString]
           end
  end.

(** [sep.join(l)] for a one-character separator *)
Fixpoint join (sep : ascii) (l : list string) : string :=
  match l with
  | [] => EmptyString
  | [x] => x
  | x :: rest => x +++ String sep (join sep rest)
  end.

(** White space as [int()] skips it: the C locale's [isspace] and the two
    non-ASCII spaces below 256 *)
Definition int_space (c : ascii) : bool :=
  let n := code c in
  ((9 <=? n) && (n <=? 13)) || (n =? 32) || (n =? 133) || (n =? 160).

(** [c.isspace()], the set [str.strip()] removes: it adds the four
    information separators 28..31 *)
Definition isspace (c : ascii) : bool :=
  let n := code c in
  int_space c || ((28 <=? n) && (n <=? 31)).

Fixpoint lstrip_with (sp : ascii -> bool) (s : string) : string :=
  match s with
  | EmptyString => EmptyString
  | String c r => if sp c then lstrip_with sp r else s
  end.

Fixpoint rstrip_with (sp : ascii -> bool) (s : string) : string :=
  match s with
  | EmptyString => EmptyString
  | String c r =>
      match rstrip_with sp r with
      | EmptyString => if sp c then EmptyString else String c EmptyString
      | r' => String c r'
      end
  end.

(** [s.strip()] *)
Definition strip (s : string) : string :=
  rstrip_with isspace (lstrip_with isspace s).

Fixpoint all_chars (p : ascii -> bool) (s : string) : bool :=
  match s with
  | EmptyString => true
  | String c r => p c && all_chars p r
  end.

(** The character [x] does not occur in [s] *)
Definition free_of (x : ascii) (s : string) : bool :=
  all_chars (fun c => negb (Ascii.eqb c x)) s.

Definition digit_value (c : ascii) : option Z :=
  let n := code c in
  if (48 <=? n) && (n <=? 57) then Some (Z.of_nat (n - 48)) else None.

Definition is_underscore (c : ascii) : bool := Ascii.eqb c "_"%char.

(** The digit scanner of [int()]: digits with single underscores between
    them.  [prev_us] says that the previous character was an underscore;
    the result is the value, the number of digits and the unread rest. *)
Fixpoint scan_digits (s : string) (prev_us : bool) (acc : Z) (n : nat)
  : option (Z * nat * string) :=
  match s with
  | EmptyString => if prev_us then None else Some (acc, n, EmptyString)
  | String c r =>
      if is_underscore c then
        if prev_us then None else scan_digits r true acc n
      else
        match digit_value c with
        | Some d => scan_digits r false (10 * acc + d)%Z (S n)
        | None => if prev_us then None else Some (acc, n, s)
        end
  end.

Section Int.

(** [sys.get_int_max_str_digits()]: 0 switches the limit off (as do the
    interpreters that have none) *)
Variable max_str_digits : nat.

Definition over_limit (ndigits : nat) : bool :=
  (0 <? max_str_digits) && (max_str_digits <? ndigits).

(** [int(s)] for a [str] argument, base 10; [None] is [ValueError]:
    leading white space, an optional sign, the digits, trailing white
    space, and nothing else *)
Definition parse_int (s : string) : option Z :=
  let t := lstrip_with int_space s in
  let neg := startswith t "-" in
  let body := if neg || startswith t "+" then slice_from 1 t else t in
  if startswith body "_" then None
  else
    match scan_digits body false 0%Z 0 with
    | Some (v, n, rest) =>
        if (n =? 0) || negb (all_chars int_space rest) || over_limit n
        then None
        else Some (if neg then (- v)%Z else v)
    | None => None
    end.

(** [str(e)] of the [ValueError] that [int(s)] raises *)
Variable int_error_text : string -> string.

Definition int (s : string) : result Z :=
  match parse_int s with
  | Some z => Ok z
  | None => Raise (int_error_text s)
  end.

End Int.

(** [bool(n)] for an [int] *)
Definition bool_of_int (z : Z) : bool := negb (z =? 0)%Z.

(** [collections.deque(maxlen=n)]: oldest element first *)
Record deque (A : Type) : Type := mkDeque {
  items : list A;
  maxlen : nat
}.
Arguments mkDeque {A} items maxlen.
Arguments items {A} d.
Arguments maxlen {A} d.

Definition deque_new {A : Type} (n : nat) : deque A := mkDeque [] n.

(** [d.append(x)]: insert on the right, then drop the leftmost element when
    the length exceeds [maxlen] *)
Definition deque_append {A : Type} (d : deque A) (x : A) : deque A :=
  let l := items d ++ [x] in
  mkDeque (if maxlen d <? List.length l then tl l else l) (maxlen d).

(** The last [n] elements of a list, in order *)
Definition last_n {A : Type} (n : nat) (l : list A) : list A :=
  skipn (List.length l - n) l.

(** The element an append pushes out, if any *)
Definition deque_evicted {A : Type} (d : deque A) (x : A) : option A :=
  let l := items d ++ [x] in
  if maxlen d <? List.length l then hd_error l else None.

End Py.

Import Py.
Local Open Scope py_scope.

(* ================================================================== *)
(** * Log.py *)
(* ================================================================== *)
Module Log.

Inductive LogLevel : Type :=
| TRACE | DEBUG | INFO | WARNING | ERROR | CRITICAL | NONE.

(** The [IntEnum] values *)
Definition value (l : LogLevel) : nat :=
  match l with
  | TRACE => 0 | DEBUG => 1 | INFO => 2 | WARNING => 3
  | ERROR => 4 | CRITICAL => 5 | NONE => 6
  end.

(** [level.name] *)
Definition name (l : LogLevel) : string :=
  match l with
  | TRACE => "TRACE" | DEBUG => "DEBUG" | INFO => "INFO"
  | WARNING => "WARNING" | ERROR => "ERROR" | CRITICAL => "CRITICAL"
  | NONE => "NONE"
  end.

(** [a >= b] and [a != b] on levels *)
Definition ge (a b : LogLevel) : bool := value b <=? value a.
Definition ne (a b : LogLevel) : bool := negb (value a =? value b).

(** An open file object, named by the order in which it was opened *)
Definition handle : Type := nat.

Inductive Stream : Type :=
| Stdout
| Stderr
| FileSink (h : handle).

(** What the logger does to the outside world, in order *)
Inductive Effect : Type :=
| EClose (h : handle)
| EOpen (path mode : string) (h : handle)
| EWrite (to : Stream) (text : string).

(** The class attributes of [Log] followed by the part of the operating
    system the class acts on: the file objects that are open, the next
    file object, and the journal of effects. *)
Record State : Type := mkState {
  _level : LogLevel;
  _log_file : option handle;
  _log_file_path : option string;
  _use_console : bool;
  os_open : list handle;
  os_fresh : handle;
  journal : list Effect
}.

Definition initial : State :=
  mkState DEBUG None None true [] 0 [].

Definition with_level (l : LogLevel) (s : State) : State :=
  mkState l (_log_file s) (_log_file_path s) (_use_console s)
          (os_open s) (os_fresh s) (journal s).
Definition with_log_file (f : option handle) (s : State) : State :=
  mkState (_level s) f (_log_file_path s) (_use_console s)
          (os_open s) (os_fresh s) (journal s).
Definition with_log_file_path (p : option string) (s : State) : State :=
  mkState (_level s) (_log_file s) p (_use_console s)
          (os_open s) (os_fresh s) (journal s).
Definition with_use_console (b : bool) (s : State) : State :=
  mkState (_level s) (_log_file s) (_log_file_path s) b
          (os_open s) (os_fresh s) (journal s).

Definition with_journal (j : list Effect) (s : State) : State :=
  mkState (_level s) (_log_file s) (_log_file_path s) (_use_console s)
          (os_open s) (os_fresh s) j.

(** [f.close()]: the file object is no longer open, also when the call
    raises ([outcome] is what the operating system answers to the final
    flush) *)
Definition close (h : handle) (outcome : result unit) : M State unit :=
  fun s =>
    (mkState (_level s) (_log_file s) (_log_file_path s) (_use_console s)
             (List.filter (fun k => negb (k =? h)) (os_open s)) (os_fresh s)
             (journal s ++ [EClose h]),
     outcome).

(** [os.path.dirname], [os.path.exists], [os.makedirs] and [open]: [os] is
    what the operating system answers to the whole sequence, [open] being
    its last step, so a failure opens nothing *)
Definition makedirs_and_open (file_path mode : string) (os : result unit)
  : M State handle :=
  match os with
  | Raise e => raise e
  | Ok _ =>
      fun s =>
        let h := os_fresh s in
        (mkState (_level s) (_log_file s) (_log_file_path s) (_use_console s)
                 (os_open s ++ [h]) (S h)
                 (journal s ++ [EOpen file_path mode h]),
         Ok h)
  end.

(** [stream.write(text)] on a console stream *)
Definition console_write (to : Stream) (text : string) : M State unit :=
  modify (fun s =>
    mkState (_level s) (_log_file s) (_log_file_path s) (_use_console s)
            (os_open s) (os_fresh s) (journal s ++ [EWrite to text])).

(** [print(text, file=to, flush=True)] *)
Definition print (text : string) (to : Stream) : M State unit :=
  console_write to (text +++ nl).

(** [f.write(text); f.flush()] on the file sink: [outcome] is what the
    operating system answers *)
Definition file_write (h : handle) (text : string) (outcome : result unit)
  : M State unit :=
  match outcome with
  | Raise e => raise e
  | Ok _ => console_write (FileSink h) text
  end.

Definition set_level (level : LogLevel) : M State unit :=
  modify (with_level level).

Definition set_log_file (file_path : string) (append : bool)
  (closing os : result unit) : M State bool :=
  s <- get ;;
  match _log_file s with
  | Some h =>
      try_except (close h closing) (fun _ => ret tt) ;;
      modify (with_log_file None)
  | None => ret tt
  end ;;
  try_except
    (let mode := if append then "a" else "w" in
     h <- makedirs_and_open file_path mode os ;;
     modify (with_log_file (Some h)) ;;
     modify (with_log_file_path (Some file_path)) ;;
     ret true)
    (fun e =>
       console_write Stderr
         ("Error opening log file " +++ file_path +++ ": " +++ e +++ nl) ;;
       modify (with_log_file None) ;;
       modify (with_log_file_path None) ;;
       ret false).

Definition get_log_file_path (s : State) : option string := _log_file_path s.

Definition close_log_file (closing : result unit) : M State unit :=
  s <- get ;;
  match _log_file s with
  | Some h =>
      try_except (close h closing) (fun _ => ret tt) ;;
      modify (with_log_file None) ;;
      modify (with_log_file_path None)
  | None => ret tt
  end.

Definition set_console_output (enabled : bool) : M State unit :=
  modify (with_use_console enabled).

(** What a call of [_log] reads from its surroundings *)
Record Env : Type := mkEnv {
  now : string;              (* the formatted clock reading *)
  thread_id : string;        (* [threading.get_ident()], formatted *)
  write_outcome : result unit (* the file sink accepts the line, or not *)
}.

(** ** Notions the properties are stated with *)

(** What a call added to the journal *)
Definition produced (before after : State) : list Effect :=
  skipn (List.length (journal before)) (journal after).

(** The level test at the head of [_log] *)
Definition passes (level : LogLevel) (s : State) : bool :=
  ge level (_level s) && ne (_level s) NONE.

(** Some destination is configured: the console or a file sink *)
Definition sink_active (s : State) : bool :=
  _use_console s || match _log_file s with Some _ => true | None => false end.

Definition console_stream (level : LogLevel) : Stream :=
  if ge level ERROR then Stderr else Stdout.

(** The writes one record causes, stated from the description of the
    logger: the console line when the console is enabled, then the file
    line when a sink is open, or, when the sink refuses it, a notice and
    the record on the error stream. *)
Definition sink_writes (s : State) (level : LogLevel) (entry : string)
  (outcome : result unit) : list Effect :=
  (if _use_console s then [EWrite (console_stream level) (entry +++ nl)]
   else [])
  ++
  match _log_file s with
  | None => []
  | Some h =>
      match outcome with
      | Ok _ => [EWrite (FileSink h) (entry +++ nl)]
      | Raise e =>
          [EWrite Stderr ("Error writing to log file: " +++ e +++ nl);
           EWrite Stderr (entry +++ nl)]
      end
  end.

(** The file objects a state may hold open: its sink, if any *)
Definition sink_handles (s : State) : list handle :=
  match _log_file s with Some h => [h] | None => [] end.

(** The invariant of the file sink: the file objects open are exactly the
    sink, and every one of them is older than the next to be opened. *)
Definition sink_invariant (s : State) : Prop :=
  os_open s = sink_handles s /\ forall h, In h (os_open s) -> h < os_fresh s.

(** Closing the sink that is open, as an effect *)
Definition closes (s : State) : list Effect :=
  match _log_file s with Some h => [EClose h] | None => [] end.

Section Formatting.

(** The arguments of a log call are arbitrary objects; [str_mod] is
    [message % args] and [tuple_repr] is the text of [args] in an
    f-string. *)
Variable PyObject : Type.
Variable str_mod : string -> list PyObject -> result string.
Variable tuple_repr : list PyObject -> string.

Definition format_error_text (message e : string) (args : list PyObject)
  : string :=
  message +++ " (Format error: " +++ e +++ ", Args: " +++ tuple_repr args
          +++ ")".

Definition log_entry_text (env : Env) (level : LogLevel) (message : string)
  : string :=
  now env +++ " [" +++ name level +++ "] [" +++ thread_id env +++ "] "
      +++ message.

Definition _log (level : LogLevel) (message : string)
  (args : list PyObject) (env : Env) : M State unit :=
  s <- get ;;
  if ge level (_level s) && ne (_level s) NONE then
    message <-
      match args with
      | [] => ret message
      | _ :: _ =>
          try_except (lift (str_mod message args))
            (fun e => ret (format_error_text message e args))
      end ;;
    let log_entry := log_entry_text env level message in
    s <- get ;;
    when (_use_console s)
      (let output := if ge level ERROR then Stderr else Stdout in
       print log_entry output) ;;
    match _log_file s with
    | Some h =>
        try_except
          (file_write h (log_entry +++ nl) (write_outcome env))
          (fun e =>
             print ("Error writing to log file: " +++ e) Stderr ;;
             print log_entry Stderr)
    | None => ret tt
    end
  else ret tt.

(** The message of the record a call builds: as given without arguments,
    formatted with them, or the fallback text when formatting raises *)
Definition record_message (message : string) (args : list PyObject)
  : string :=
  match args with
  | [] => message
  | _ :: _ =>
      match str_mod message args with
      | Ok m => m
      | Raise e => format_error_text message e args
      end
  end.

Definition trace := _log TRACE.
Definition debug := _log DEBUG.
Definition info := _log INFO.
Definition warning := _log WARNING.
Definition error := _log ERROR.
Definition critical := _log CRITICAL.

(** A call of the public interface, with what the surroundings answer *)
Inductive Call : Type :=
| CallSetLevel (level : LogLevel)
| CallSetLogFile (file_path : string) (append : bool)
                 (closing os : result unit)
| CallCloseLogFile (closing : result unit)
| CallSetConsoleOutput (enabled : bool)
| CallLog (level : LogLevel) (message : string) (args : list PyObject)
          (env : Env).

Definition exec (c : Call) (s : State) : State :=
  match c with
  | CallSetLevel l => fst (set_level l s)
  | CallSetLogFile p a closing os => fst (set_log_file p a closing os s)
  | CallCloseLogFile closing => fst (close_log_file closing s)
  | CallSetConsoleOutput b => fst (set_console_output b s)
  | CallLog l m a env => fst (_log l m a env s)
  end.

(** The state after a history of calls, from process start *)
Definition run (cs : list Call) : State := fold_left (fun s c => exec c s) cs initial.

End Formatting.

End Log.

(* ================================================================== *)
(** * TachometerGUI.py: the bridge *)
(* ================================================================== *)
Module TachometerGUI.

Import Log.

(** The dict stored in [self.current_data] and queued with a ['DATA'] tag *)
Record Measurement : Type := mkMeasurement {
  frequency : Z;
  rpm : Z;
  filtered_freq : Z;
  filtered_rpm : Z;
  total_revs : Z;
  raw_pulses : Z;
  pulse_interval : Z;
  timestamp : Z
}.

(** The dict stored in [self.config] and queued with a ['CONFIG'] tag *)
Record Config : Type := mkConfig {
  ir_pin : Z;
  sample_period : Z;
  debounce_time : Z;
  pulses_per_rev : Z;
  timer_number : Z;
  filtering_enabled : bool;
  filter_alpha : Z;
  window_size : Z
}.

(** The tagged tuples put on [self.data_queue] *)
Inductive Event : Type :=
| DATA (m : Measurement)
| CONFIG (c : Config)
| RESPONSE (text : string)
| SYSTEM (text : string)
| RAW (text : string).

(** What the worker does to the serial port, in order *)
Inductive SerialOp : Type :=
| Write (data : string)
| Flush
| ReadLine (data : string).

(** The serial port: [rx] holds what the next calls of [readline] return,
    [wire] is the journal of operations, and [budget] is the number of
    operations the port still completes before every further one raises
    ([None]: the port never fails). *)
Record Serial : Type := mkSerial {
  rx : list string;
  wire : list SerialOp;
  budget : option nat
}.

(** The attributes of the [TachometerGUI] object the bridge touches, then
    the journals of what it asks of its collaborators: the calls of the
    [Log] class, the lines added to the log panel (message, tag) and the
    message boxes shown (title, text). *)
Record Gui : Type := mkGui {
  serial_port : Serial;
  data_queue : list Event;
  command_queue : list string;
  is_connected : bool;
  stop_threads : bool;
  time_data : deque Z;
  rpm_data : deque Z;
  filtered_rpm_data : deque Z;
  frequency_data : deque Z;
  current_data : Measurement;
  config : Config;
  log_calls : list (LogLevel * string);
  log_text : list (string * string);
  dialogs : list (string * string)
}.

Definition with_serial_port (x : Serial) (g : Gui) : Gui :=
  mkGui x (data_queue g) (command_queue g) (is_connected g) (stop_threads g)
        (time_data g) (rpm_data g) (filtered_rpm_data g) (frequency_data g)
        (current_data g) (config g) (log_calls g) (log_text g) (dialogs g).
Definition with_data_queue (x : list Event) (g : Gui) : Gui :=
  mkGui (serial_port g) x (command_queue g) (is_connected g) (stop_threads g)
        (time_data g) (rpm_data g) (filtered_rpm_data g) (frequency_data g)
        (current_data g) (config g) (log_calls g) (log_text g) (dialogs g).
Definition with_command_queue (x : list string) (g : Gui) : Gui :=
  mkGui (serial_port g) (data_queue g) x (is_connected g) (stop_threads g)
        (time_data g) (rpm_data g) (filtered_rpm_data g) (frequency_data g)
        (current_data g) (config g) (log_calls g) (log_text g) (dialogs g).
Definition with_plot_data (t r f q : deque Z) (g : Gui) : Gui :=
  mkGui (serial_port g) (data_queue g) (command_queue g) (is_connected g)
        (stop_threads g) t r f q
        (current_data g) (config g) (log_calls g) (log_text g) (dialogs g).
Definition with_current_data (x : Measurement) (g : Gui) : Gui :=
  mkGui (serial_port g) (data_queue g) (command_queue g) (is_connected g)
        (stop_threads g)
        (time_data g) (rpm_data g) (filtered_rpm_data g) (frequency_data g)
        x (config g) (log_calls g) (log_text g) (dialogs g).
Definition with_config (x : Config) (g : Gui) : Gui :=
  mkGui (serial_port g) (data_queue g) (command_queue g) (is_connected g)
        (stop_threads g)
        (time_data g) (rpm_data g) (filtered_rpm_data g) (frequency_data g)
        (current_data g) x (log_calls g) (log_text g) (dialogs g).
Definition with_log_calls (x : list (LogLevel * string)) (g : Gui) : Gui :=
  mkGui (serial_port g) (data_queue g) (command_queue g) (is_connected g)
        (stop_threads g)
        (time_data g) (rpm_data g) (filtered_rpm_data g) (frequency_data g)
        (current_data g) (config g) x (log_text g) (dialogs g).
Definition with_log_text (x : list (string * string)) (g : Gui) : Gui :=
  mkGui (serial_port g) (data_queue g) (command_queue g) (is_connected g)
        (stop_threads g)
        (time_data g) (rpm_data g) (filtered_rpm_data g) (frequency_data g)
        (current_data g) (config g) (log_calls g) x (dialogs g).
Definition with_dialogs (x : list (string * string)) (g : Gui) : Gui :=
  mkGui (serial_port g) (data_queue g) (command_queue g) (is_connected g)
        (stop_threads g)
        (time_data g) (rpm_data g) (filtered_rpm_data g) (frequency_data g)
        (current_data g) (config g) (log_calls g) (log_text g) x.

(** The attributes as [__init__] sets them, on a given port *)
Definition max_data_points : nat := 100.

Definition init (port : Serial) : Gui :=
  mkGui port [] [] false false
        (deque_new max_data_points) (deque_new max_data_points)
        (deque_new max_data_points) (deque_new max_data_points)
        (mkMeasurement 0 0 0 0 0 0 0 0)
        (mkConfig 2 1000 100 1 1 true 800 5)
        [] [] [].

(** ** Collaborators *)

(** [Log.trace(m)], [Log.debug(m)], ...: one journalled call *)
Definition Log_call (level : LogLevel) (message : string) : M Gui unit :=
  modify (fun g => with_log_calls (log_calls g ++ [(level, message)]) g).

(** [self.log_message(message, level)]: the widget calls are taken to
    succeed *)
Definition log_message (message level : string) : M Gui unit :=
  modify (fun g => with_log_text (log_text g ++ [(message, level)]) g) ;;
  Log_call TRACE
    ("TachometerGUI.log_message(): GUI log message added: " +++ message).

(** [messagebox.showwarning(title, text)] *)
Definition showwarning (title text : string) : M Gui unit :=
  modify (fun g => with_dialogs (dialogs g ++ [(title, text)]) g).

(** [queue.put(x)] on the two queues *)
Definition data_queue_put (e : Event) : M Gui unit :=
  modify (fun g => with_data_queue (data_queue g ++ [e]) g).
Definition command_queue_put (c : string) : M Gui unit :=
  modify (fun g => with_command_queue (command_queue g ++ [c]) g).

(** [values[i]] *)
Definition getitem (values : list string) (i : nat) : M Gui string :=
  match nth_error values i with
  | Some v => ret v
  | None => raise "list index out of range"
  end.

(** ** The serial port *)

(** Every operation on the port first spends one unit of its budget *)
Definition spend : M Gui unit :=
  g <- get ;;
  let p := serial_port g in
  match budget p with
  | None => ret tt
  | Some (S n) =>
      modify (with_serial_port (mkSerial (rx p) (wire p) (Some n)))
  | Some O => raise "serial port failure"
  end.

Definition record_op (op : SerialOp) (rx' : list string) : M Gui unit :=
  modify (fun g =>
    let p := serial_port g in
    with_serial_port (mkSerial rx' (wire p ++ [op]) (budget p)) g).

Definition serial_write (data : string) : M Gui unit :=
  spend ;; g <- get ;; record_op (Write data) (rx (serial_port g)).

Definition serial_flush : M Gui unit :=
  spend ;; g <- get ;; record_op Flush (rx (serial_port g)).

(** [serial_port.in_waiting]: the number of characters received *)
Definition serial_in_waiting : M Gui nat :=
  spend ;; g <- get ;;
  ret (String.length (String.concat "" (rx (serial_port g)))).

(** [serial_port.readline().decode()]: the empty text when the read times
    out; the bytes received are taken to be valid text *)
Definition serial_readline : M Gui string :=
  spend ;; g <- get ;;
  match rx (serial_port g) with
  | [] => record_op (ReadLine "") [] ;; ret ""
  | l :: rest => record_op (ReadLine l) rest ;; ret l
  end.

Section Methods.

Variable max_str_digits : nat.
Variable int_error_text : string -> string.

Definition int_of (s : string) : M Gui Z :=
  lift (int max_str_digits int_error_text s).

(** ** [process_incoming_data] *)

Definition process_header : string := "TachometerGUI.process_incoming_data()".

Definition parse_data (values : list string) : M Gui Measurement :=
  s0 <- getitem values 0 ;; v0 <- int_of s0 ;;
  s1 <- getitem values 1 ;; v1 <- int_of s1 ;;
  s2 <- getitem values 2 ;; v2 <- int_of s2 ;;
  s3 <- getitem values 3 ;; v3 <- int_of s3 ;;
  s4 <- getitem values 4 ;; v4 <- int_of s4 ;;
  s5 <- getitem values 5 ;; v5 <- int_of s5 ;;
  s6 <- getitem values 6 ;; v6 <- int_of s6 ;;
  s7 <- getitem values 7 ;; v7 <- int_of s7 ;;
  ret (mkMeasurement v0 v1 v2 v3 v4 v5 v6 v7).

Definition parse_config (values : list string) : M Gui Config :=
  s0 <- getitem values 0 ;; v0 <- int_of s0 ;;
  s1 <- getitem values 1 ;; v1 <- int_of s1 ;;
  s2 <- getitem values 2 ;; v2 <- int_of s2 ;;
  s3 <- getitem values 3 ;; v3 <- int_of s3 ;;
  s4 <- getitem values 4 ;; v4 <- int_of s4 ;;
  s5 <- getitem values 5 ;; v5 <- int_of s5 ;;
  s6 <- getitem values 6 ;; v6 <- int_of s6 ;;
  s7 <- getitem values 7 ;; v7 <- int_of s7 ;;
  ret (mkConfig v0 v1 v2 v3 v4 (bool_of_int v5) v6 v7).

Definition process_incoming_data (line : string) : M Gui unit :=
  let header := process_header in
  try_except
    (if startswith line "DATA:" then
       let data_str := slice_from 5 line in
       let values := split "," data_str in
       if 8 <=? List.length values then
         m <- parse_data values ;;
         modify (with_current_data m) ;;
         g <- get ;;
         data_queue_put (DATA (current_data g)) ;;
         Log_call TRACE (header +++ ": Parsed measurement data successfully")
       else ret tt
     else if startswith line "CONFIG:" then
       let config_str := slice_from 7 line in
       let values := split "," config_str in
       if 8 <=? List.length values then
         c <- parse_config values ;;
         modify (with_config c) ;;
         g <- get ;;
         data_queue_put (CONFIG (config g)) ;;
         Log_call DEBUG (header +++ ": Configuration data received and parsed")
       else ret tt
     else if startswith line "RESP:" then
       let response := slice_from 5 line in
       data_queue_put (RESPONSE response) ;;
       Log_call DEBUG (header +++ ": Command response received: " +++ response)
     else if startswith line "TACH:" then
       let message := slice_from 5 line in
       data_queue_put (SYSTEM message) ;;
       Log_call DEBUG (header +++ ": System message received: " +++ message)
     else
       data_queue_put (RAW line) ;;
       Log_call WARNING (header +++ ": Unknown message format: " +++ line))
    (fun e =>
       Log_call ERROR
         (header +++ ": Error parsing data '" +++ line +++ "' - " +++ e) ;;
       log_message ("Data parsing error: " +++ e) "ERROR").

(** ** [serial_communication_thread] *)

Definition thread_header : string :=
  "TachometerGUI.serial_communication_thread()".

(** [while not self.command_queue.empty(): ...]: with no other thread
    running, the loop ends after as many rounds as the queue holds
    commands, which is the fuel [send_pending] gives it *)
Fixpoint send_pending_loop (fuel : nat) : M Gui unit :=
  match fuel with
  | O => ret tt
  | S fuel' =>
      g <- get ;;
      match command_queue g with
      | [] => ret tt
      | command :: rest =>
          modify (with_command_queue rest) ;;
          serial_write ("CMD:" +++ command +++ nl) ;;
          serial_flush ;;
          Log_call TRACE (thread_header +++ ": Sent command: " +++ command) ;;
          send_pending_loop fuel'
      end
  end.

Definition send_pending : M Gui unit :=
  g <- get ;; send_pending_loop (List.length (command_queue g)).

Definition read_incoming : M Gui unit :=
  n <- serial_in_waiting ;;
  when (0 <? n)
    (raw <- serial_readline ;;
     let line := strip raw in
     when (negb (String.eqb line ""))
       (Log_call TRACE (thread_header +++ ": Received: " +++ line) ;;
        process_incoming_data line)).

(** The body of the [try] inside the loop: one iteration *)
Definition worker_iteration : M Gui unit :=
  send_pending ;;
  read_incoming.

(** The loop test, the iteration and its [except] clause; the answer says
    whether the loop goes on *)
Definition worker_cycle : M Gui bool :=
  g <- get ;;
  if negb (stop_threads g) && is_connected g then
    try_except
      (worker_iteration ;; ret true)
      (fun e =>
         Log_call ERROR (thread_header +++ ": Communication error - " +++ e) ;;
         log_message ("Communication error: " +++ e) "ERROR" ;;
         ret false)
  else ret false.

(** The [while] loop, followed for at most [cycles] rounds: the flags it
    tests are set by the other thread, which the sequential model leaves
    out *)
Fixpoint worker_cycles (cycles : nat) : M Gui unit :=
  match cycles with
  | O => ret tt
  | S n => go_on <- worker_cycle ;; if go_on then worker_cycles n else ret tt
  end.

Definition serial_communication_thread (cycles : nat) : M Gui unit :=
  Log_call TRACE (thread_header +++ ": Starting serial communication thread") ;;
  worker_cycles cycles ;;
  Log_call DEBUG (thread_header +++ ": Serial communication thread stopped").

(** ** [send_command] *)

Definition send_command (command : string) : M Gui unit :=
  let header := "TachometerGUI.send_command(command=" +++ command +++ ")" in
  Log_call TRACE (header +++ ": Sending command to Arduino") ;;
  g <- get ;;
  if is_connected g then
    command_queue_put command ;;
    Log_call INFO (header +++ ": Command queued: " +++ command) ;;
    log_message ("Command sent: " +++ command) "INFO"
  else
    Log_call WARNING (header +++ ": Cannot send command - not connected") ;;
    log_message "Cannot send command: Not connected" "WARNING" ;;
    showwarning "Warning" "Not connected to Arduino".

(** ** [add_data_to_plot] *)

(** [current_time] is the reading of [time.time()] *)
Definition add_data_to_plot (data : Measurement) (current_time : Z)
  : M Gui unit :=
  let header := "TachometerGUI.add_data_to_plot()" in
  try_except
    (modify (fun g =>
       with_plot_data (deque_append (time_data g) current_time)
                      (rpm_data g) (filtered_rpm_data g) (frequency_data g) g) ;;
     modify (fun g =>
       with_plot_data (time_data g)
                      (deque_append (rpm_data g) (rpm data))
                      (filtered_rpm_data g) (frequency_data g) g) ;;
     modify (fun g =>
       with_plot_data (time_data g) (rpm_data g)
                      (deque_append (filtered_rpm_data g) (filtered_rpm data))
                      (frequency_data g) g) ;;
     modify (fun g =>
       with_plot_data (time_data g) (rpm_data g) (filtered_rpm_data g)
                      (deque_append (frequency_data g) (frequency data)) g) ;;
     Log_call TRACE (header +++ ": Plot data point added successfully"))
    (fun e =>
       Log_call ERROR (header +++ ": Error adding plot data - " +++ e)).

(** The codec as a function of the line: the events that decoding it
    queues, on an object whose queue is empty *)
Definition decode (line : string) : list Event :=
  data_queue
    (fst (process_incoming_data line (init (mkSerial [] [] None)))).

(** Feeding a series of measurements, each with its clock reading, to the
    plot *)
Definition plot_all (ms : list (Measurement * Z)) (g : Gui) : Gui :=
  fold_left (fun g mt => fst (add_data_to_plot (fst mt) (snd mt) g)) ms g.

End Methods.

(** ** Notions the properties are stated with *)

(** The tag of a line [<TAG>:<payload>]: the text before its first colon *)
Fixpoint tag_of (line : string) : option string :=
  match line with
  | EmptyString => None
  | String c r =>
      if Ascii.eqb c ":"%char then Some EmptyString
      else option_map (String c) (tag_of r)
  end.

Definition colon_free (t : string) : bool := free_of ":" t.

(** The serial operations that send the commands [q], in order *)
Definition sent (q : list string) : list SerialOp :=
  flat_map (fun c => [Write ("CMD:" +++ c +++ nl); Flush]) q.

(** Two objects with the same port and the same pending commands: what
    the worker does to the port depends on these alone *)
Definition same_traffic (g1 g2 : Gui) : Prop :=
  serial_port g1 = serial_port g2 /\ command_queue g1 = command_queue g2.

Definition is_warning (c : LogLevel * string) : bool :=
  match fst c with WARNING => true | _ => false end.

Definition is_payload_event (e : Event) : bool :=
  match e with DATA _ | CONFIG _ | RAW _ => true | _ => false end.

End TachometerGUI.

(* ================================================================== *)
(** * Sample surroundings, for the worked examples *)
(* ================================================================== *)
Module Sample.

Import Log TachometerGUI.

(** The [%s] and [%%] fragment of [message % args] over [str] arguments.
    A format with another conversion lies outside the fragment: it is
    answered with [Raise] and a placeholder text, and no example below
    uses one. *)
Fixpoint percent_s (fmt : string) (args : list string) : result string :=
  match fmt with
  | EmptyString =>
      match args with
      | [] => Ok EmptyString
      | _ :: _ => Raise "not all arguments converted during string formatting"
      end
  | String "%"%char EmptyString => Raise "incomplete format"
  | String "%"%char (String "%"%char rest) =>
      match percent_s rest args with
      | Ok t => Ok (String "%"%char t)
      | Raise e => Raise e
      end
  | String "%"%char (String "s"%char rest) =>
      match args with
      | [] => Raise "not enough arguments for format string"
      | a :: args' =>
          match percent_s rest args' with
          | Ok t => Ok (a +++ t)
          | Raise e => Raise e
          end
      end
  | String "%"%char (String _ _) => Raise "conversion outside the fragment"
  | String c rest =>
      match percent_s rest args with
      | Ok t => Ok (String c t)
      | Raise e => Raise e
      end
  end.

(** The text of a tuple of [str] objects free of quotes, backslashes and
    control characters *)
Definition quoted (a : string) : string := "'" +++ a +++ "'".

Definition tuple_text (args : list string) : string :=
  match args with
  | [a] => "(" +++ quoted a +++ ",)"
  | _ => "(" +++ String.concat ", " (map quoted args) +++ ")"
  end.

(** The default digit limit of the interpreter, and the text of the error
    of [int] on a short literal free of quotes, backslashes and control
    characters *)
Definition digits_limit : nat := 4300.

Definition invalid_literal (s : string) : string :=
  "invalid literal for int() with base 10: " +++ quoted s.

Definition port (incoming : list string) : Serial := mkSerial incoming [] None.

Definition clock : Env := mkEnv "2025-06-28 10:00:00.000" "140001" (Ok tt).

(** A connected panel with one system line waiting on the port, and the
    same after three calls of [send_command] *)
Definition connected : Gui :=
  mkGui (port ["TACH:INIT_OK" +++ nl]) [] [] true false
        (deque_new 100) (deque_new 100) (deque_new 100) (deque_new 100)
        (mkMeasurement 0 0 0 0 0 0 0 0)
        (mkConfig 2 1000 100 1 1 true 800 5) [] [] [].

Definition three_queued : Gui :=
  fst (send_command "RESET_ALL"
         (fst (send_command "SET_ALPHA:800"
                 (fst (send_command "GET_CONFIG" connected))))).

End Sample.

(* ================================================================== *)
(** * More built-ins: the text of numbers *)
(* ================================================================== *)
Module PyText.

(** The decimal digits of [abs(z)], most significant first *)
Definition digits_of (z : Z) : string :=
  DecimalString.NilEmpty.string_of_uint (N.to_uint (Z.abs_N z)).

(** The decimal text of [z]: a minus sign for a negative number, then the
    digits *)
Definition int_text (z : Z) : string :=
  if (z <? 0)%Z then String "-" (digits_of z) else digits_of z.

(** The number has no more digits than the limit allows *)
Definition within_limit (max_str_digits : nat) (z : Z) : bool :=
  negb (over_limit max_str_digits (String.length (digits_of z))).

Section Str.

(** [sys.get_int_max_str_digits()] again, and [str(e)] of the [ValueError]
    that [str(z)] raises past it *)
Variable max_str_digits : nat.
Variable str_error_text : Z -> string.

(** [str(z)] for an [int], also what an f-string makes of it *)
Definition str_int (z : Z) : result string :=
  if over_limit max_str_digits (String.length (digits_of z))
  then Raise (str_error_text z)
  else Ok (int_text z).

End Str.

(** [str(b)] for a [bool] *)
Definition str_bool (b : bool) : string := if b then "True" else "False".

(** [s[::-1]] *)
Fixpoint reversed (s : string) : string :=
  match s with
  | EmptyString => EmptyString
  | String c r => reversed r +++ String c EmptyString
  end.

(** [s[:n]] and [s[i:j]] for non-negative [n], [i] and [j] *)
Fixpoint take (n : nat) (s : string) : string :=
  match n, s with
  | S n', String c r => String c (take n' r)
  | _, _ => EmptyString
  end.

Definition slice (i j : nat) (s : string) : string :=
  take (j - i) (slice_from i s).

(** [list(range(start, stop, step))] for non-negative arguments and a
    positive step *)
Definition range_step (start stop step : nat) : list nat :=
  map (fun k => start + k * step)
      (seq 0 ((stop - start + (step - 1)) / step)).

(** [s.replace(a, "")] and [s.replace(a, b)] for one-character [a], [b] *)
Fixpoint remove_char (a : ascii) (s : string) : string :=
  match s with
  | EmptyString => EmptyString
  | String c r =>
      if Ascii.eqb c a then remove_char a r else String c (remove_char a r)
  end.

Fixpoint replace_char (a b : ascii) (s : string) : string :=
  match s with
  | EmptyString => EmptyString
  | String c r =>
      String (if Ascii.eqb c a then b else c) (replace_char a b r)
  end.

Definition is_digit (c : ascii) : bool :=
  match digit_value c with Some _ => true | None => false end.

End PyText.

(* ================================================================== *)
(** * BrazilianFormatter.py *)
(* ================================================================== *)
Module BrazilianFormatter.

Import PyText.

(** The methods print on the standard output: the state is the list of
    the lines printed.  Numbers are [int] objects, as the panel passes
    them. *)
Definition Out : Type := list string.

Definition print (text : string) : M Out unit :=
  modify (fun out => out ++ [text]).

(** The micro sign, code point 181 *)
Definition micro : string := String (ascii_of_nat 181) EmptyString.

(** [for i in range(0, len(reversed_str), 3):
       groups.append(reversed_str[i:i+3])] *)
Definition groups_of (reversed_str : string) : list string :=
  map (fun i => slice i (i + 3) reversed_str)
      (range_step 0 (String.length reversed_str) 3).

Section Formatter.

Variable max_str_digits : nat.
Variable str_error_text : Z -> string.

(** [locale.format_string("%.0f", number, grouping=True)] under the locale
    that [setup_locale] installed, and the text of
    [f"{num / den:.{decimals}f}"] *)
Variable locale_format : Z -> result string.
Variable fixed : Z -> Z -> nat -> result string.

Definition str (z : Z) : M Out string :=
  lift (str_int max_str_digits str_error_text z).

(** [locale_ok] says which names [locale.setlocale] accepts; the answer is
    [self.locale_set] *)
Fixpoint try_locales (locale_ok : string -> bool) (br_locales : list string)
  : M Out bool :=
  match br_locales with
  | [] => ret false
  | loc :: rest =>
      if locale_ok loc then
        print ("BrazilianFormatter.setup_locale(): Brazilian locale set to '"
               +++ loc +++ "'") ;;
        ret true
      else try_locales locale_ok rest
  end.

Definition setup_locale (locale_ok : string -> bool) : M Out bool :=
  let header := "BrazilianFormatter.setup_locale()" in
  let br_locales :=
    ["pt_BR.UTF-8"; "pt_BR"; "Portuguese_Brazil.1252"; "Portuguese_Brazil";
     "pt-BR"; "C"] in
  locale_set <- try_locales locale_ok br_locales ;;
  when (negb locale_set)
    (print (header
            +++ ": Could not set Brazilian locale, using manual formatting")) ;;
  ret locale_set.

Definition manual_format_integer (number : Z) : M Out string :=
  try_except
    (num_str <- str (Z.abs number) ;;
     let reversed_str := reversed num_str in
     let groups := groups_of reversed_str in
     let formatted := reversed (join "." groups) in
     ret (if (number <? 0)%Z then "-" +++ formatted else formatted))
    (fun e =>
       print ("Error in manual_format_integer: " +++ e) ;;
       str number).

Definition format_integer (locale_set : bool) (number : Z) : M Out string :=
  try_except
    (if locale_set then lift (locale_format number)
     else manual_format_integer number)
    (fun _ => manual_format_integer number).

Definition format_rpm (locale_set : bool) (rpm : Z) : M Out string :=
  if (rpm =? 0)%Z then ret "0 rpm"
  else if (rpm <? 1000)%Z then
    t <- str rpm ;; ret (t +++ " rpm")
  else
    t <- format_integer locale_set rpm ;; ret (t +++ " rpm").

Definition format_frequency (locale_set : bool) (frequency : Z)
  : M Out string :=
  if (frequency =? 0)%Z then ret "0 Hz"
  else if (frequency <? 1000)%Z then
    t <- lift (fixed frequency 1 1) ;;
    ret (replace_char "." "," (t +++ " Hz"))
  else
    t <- format_integer locale_set frequency ;; ret (t +++ " Hz").

Definition format_time_microseconds (microseconds : Z) : M Out string :=
  if (microseconds =? 0)%Z then ret ("0 " +++ micro +++ "s")
  else if (microseconds <? 1000)%Z then
    t <- str microseconds ;; ret (t +++ " " +++ micro +++ "s")
  else if (microseconds <? 1000000)%Z then
    t <- lift (fixed microseconds 1000 1) ;;
    ret (replace_char "." "," (t +++ " ms"))
  else
    t <- lift (fixed microseconds 1000000 2) ;;
    ret (replace_char "." "," (t +++ " s")).

Definition format_revolutions (locale_set : bool) (revolutions : Z)
  : M Out string :=
  if (revolutions =? 0)%Z then ret "0 rev"
  else t <- format_integer locale_set revolutions ;; ret (t +++ " rev").

End Formatter.

(** ** Notions the properties are stated with *)

(** A text grouped in the Brazilian way: groups of digits, the first of one
    to three digits and every other of exactly three *)
Definition grouped (groups : list string) : Prop :=
  match groups with
  | [] => False
  | first :: others =>
      1 <= String.length first <= 3
      /\ Forall (fun g => String.length g = 3) others
      /\ Forall (fun g => all_chars is_digit g = true) groups
  end.

End BrazilianFormatter.

(* ================================================================== *)
(** * TachometerGUI.py: the panel and its timer *)
(* ================================================================== *)
Module Panel.

Import Log TachometerGUI PyText BrazilianFormatter.

(** A [tk.IntVar]: what [get()] answers now.  [set(z)] makes it [Ok z]; a
    text typed in the spin box that is no integer makes it [Raise]. *)
Definition IntVar : Type := result Z.

(** The widgets the methods below write: the six [StringVar]s of the
    monitor tab, the text of the configuration tab, the four [IntVar]s of
    the controls and the two labels beside the scales. *)
Record Display : Type := mkDisplay {
  rpm_var : string;
  filtered_rpm_var : string;
  frequency_var : string;
  filtered_freq_var : string;
  total_revs_var : string;
  pulse_interval_var : string;
  config_text : string;
  alpha_var : IntVar;
  window_var : IntVar;
  debounce_var : IntVar;
  period_var : IntVar;
  alpha_label : string;
  window_label : string
}.

Definition set_rpm_var (x : string) (d : Display) : Display :=
  mkDisplay x (filtered_rpm_var d) (frequency_var d) (filtered_freq_var d)
    (total_revs_var d) (pulse_interval_var d) (config_text d) (alpha_var d)
    (window_var d) (debounce_var d) (period_var d) (alpha_label d)
    (window_label d).
Definition set_filtered_rpm_var (x : string) (d : Display) : Display :=
  mkDisplay (rpm_var d) x (frequency_var d) (filtered_freq_var d)
    (total_revs_var d) (pulse_interval_var d) (config_text d) (alpha_var d)
    (window_var d) (debounce_var d) (period_var d) (alpha_label d)
    (window_label d).
Definition set_frequency_var (x : string) (d : Display) : Display :=
  mkDisplay (rpm_var d) (filtered_rpm_var d) x (filtered_freq_var d)
    (total_revs_var d) (pulse_interval_var d) (config_text d) (alpha_var d)
    (window_var d) (debounce_var d) (period_var d) (alpha_label d)
    (window_label d).
Definition set_filtered_freq_var (x : string) (d : Display) : Display :=
  mkDisplay (rpm_var d) (filtered_rpm_var d) (frequency_var d) x
    (total_revs_var d) (pulse_interval_var d) (config_text d) (alpha_var d)
    (window_var d) (debounce_var d) (period_var d) (alpha_label d)
    (window_label d).
Definition set_total_revs_var (x : string) (d : Display) : Display :=
  mkDisplay (rpm_var d) (filtered_rpm_var d) (frequency_var d)
    (filtered_freq_var d) x (pulse_interval_var d) (config_text d)
    (alpha_var d) (window_var d) (debounce_var d) (period_var d)
    (alpha_label d) (window_label d).
Definition set_pulse_interval_var (x : string) (d : Display) : Display :=
  mkDisplay (rpm_var d) (filtered_rpm_var d) (frequency_var d)
    (filtered_freq_var d) (total_revs_var d) x (config_text d) (alpha_var d)
    (window_var d) (debounce_var d) (period_var d) (alpha_label d)
    (window_label d).
Definition set_config_text (x : string) (d : Display) : Display :=
  mkDisplay (rpm_var d) (filtered_rpm_var d) (frequency_var d)
    (filtered_freq_var d) (total_revs_var d) (pulse_interval_var d) x
    (alpha_var d) (window_var d) (debounce_var d) (period_var d)
    (alpha_label d) (window_label d).
Definition set_alpha_var (x : IntVar) (d : Display) : Display :=
  mkDisplay (rpm_var d) (filtered_rpm_var d) (frequency_var d)
    (filtered_freq_var d) (total_revs_var d) (pulse_interval_var d)
    (config_text d) x (window_var d) (debounce_var d) (period_var d)
    (alpha_label d) (window_label d).
Definition set_window_var (x : IntVar) (d : Display) : Display :=
  mkDisplay (rpm_var d) (filtered_rpm_var d) (frequency_var d)
    (filtered_freq_var d) (total_revs_var d) (pulse_interval_var d)
    (config_text d) (alpha_var d) x (debounce_var d) (period_var d)
    (alpha_label d) (window_label d).
Definition set_debounce_var (x : IntVar) (d : Display) : Display :=
  mkDisplay (rpm_var d) (filtered_rpm_var d) (frequency_var d)
    (filtered_freq_var d) (total_revs_var d) (pulse_interval_var d)
    (config_text d) (alpha_var d) (window_var d) x (period_var d)
    (alpha_label d) (window_label d).
Definition set_period_var (x : IntVar) (d : Display) : Display :=
  mkDisplay (rpm_var d) (filtered_rpm_var d) (frequency_var d)
    (filtered_freq_var d) (total_revs_var d) (pulse_interval_var d)
    (config_text d) (alpha_var d) (window_var d) (debounce_var d) x
    (alpha_label d) (window_label d).
Definition set_alpha_label (x : string) (d : Display) : Display :=
  mkDisplay (rpm_var d) (filtered_rpm_var d) (frequency_var d)
    (filtered_freq_var d) (total_revs_var d) (pulse_interval_var d)
    (config_text d) (alpha_var d) (window_var d) (debounce_var d)
    (period_var d) x (window_label d).
Definition set_window_label (x : string) (d : Display) : Display :=
  mkDisplay (rpm_var d) (filtered_rpm_var d) (frequency_var d)
    (filtered_freq_var d) (total_revs_var d) (pulse_interval_var d)
    (config_text d) (alpha_var d) (window_var d) (debounce_var d)
    (period_var d) (alpha_label d) x.

(** The panel: the attributes of the bridge, the widgets, the lines that the
    formatter printed, the number of clock readings taken so far and the
    delays of the calls [root.after(ms, self.update_gui_timer)]. *)
Record Ui : Type := mkUi {
  gui : Gui;
  display : Display;
  stdout : Out;
  clock_reads : nat;
  after_calls : list nat
}.

Definition with_gui (x : Gui) (u : Ui) : Ui :=
  mkUi x (display u) (stdout u) (clock_reads u) (after_calls u).
Definition with_display (x : Display) (u : Ui) : Ui :=
  mkUi (gui u) x (stdout u) (clock_reads u) (after_calls u).
Definition with_stdout (x : Out) (u : Ui) : Ui :=
  mkUi (gui u) (display u) x (clock_reads u) (after_calls u).
Definition with_clock_reads (x : nat) (u : Ui) : Ui :=
  mkUi (gui u) (display u) (stdout u) x (after_calls u).
Definition with_after_calls (x : list nat) (u : Ui) : Ui :=
  mkUi (gui u) (display u) (stdout u) (clock_reads u) x.

(** The widgets as the [create_...] methods leave them *)
Definition display_init : Display :=
  mkDisplay "0" "0" "0" "0" "0" "0" EmptyString
            (Ok 800%Z) (Ok 5%Z) (Ok 100%Z) (Ok 1000%Z) "800" "5".

Definition init (port : Serial) : Ui :=
  mkUi (TachometerGUI.init port) display_init [] 0 [].

(** Running a method of the bridge, or of the formatter, on its part of the
    panel *)
Definition on_gui {A : Type} (c : M Gui A) : M Ui A :=
  fun u => (with_gui (fst (c (gui u))) u, snd (c (gui u))).

Definition on_stdout {A : Type} (c : M Out A) : M Ui A :=
  fun u => (with_stdout (fst (c (stdout u))) u, snd (c (stdout u))).

(** A write to a widget: the widget calls are taken to succeed, and setting
    a Tk variable runs no method of the panel *)
Definition widget (f : Display -> Display) : M Ui unit :=
  modify (fun u => with_display (f (display u)) u).

(** [var.get()] *)
Definition intvar_get (var : Display -> IntVar) : M Ui Z :=
  u <- get ;; lift (var (display u)).

(** [s * n] *)
Fixpoint times (s : string) (n : nat) : string :=
  match n with
  | O => EmptyString
  | S n' => s +++ times s n'
  end.

Section Methods.

Variable max_str_digits : nat.
Variable str_error_text : Z -> string.

(** The formatter of the module [BrazilianFormatter]: the outcome of its
    [setup_locale] and the two library functions it relies on *)
Variable locale_set : bool.
Variable locale_format : Z -> result string.
Variable fixed : Z -> Z -> nat -> result string.

(** The readings of [time.time()] and the texts of
    [datetime.now().strftime('%Y-%m-%d %H:%M:%S')], by the number of the
    reading *)
Variable clock : nat -> Z.
Variable now_text : nat -> string.

Definition str (z : Z) : M Ui string :=
  lift (str_int max_str_digits str_error_text z).

Definition time_time : M Ui Z :=
  u <- get ;;
  modify (with_clock_reads (S (clock_reads u))) ;;
  ret (clock (clock_reads u)).

Definition datetime_now : M Ui string :=
  u <- get ;;
  modify (with_clock_reads (S (clock_reads u))) ;;
  ret (now_text (clock_reads u)).

Definition format_rpm_br (rpm : Z) : M Ui string :=
  on_stdout (format_rpm max_str_digits str_error_text locale_format
               locale_set rpm).
Definition format_frequency_br (frequency : Z) : M Ui string :=
  on_stdout (format_frequency max_str_digits str_error_text locale_format
               fixed locale_set frequency).
Definition format_time_br (microseconds : Z) : M Ui string :=
  on_stdout (format_time_microseconds max_str_digits str_error_text fixed
               microseconds).
Definition format_revolutions_br (revolutions : Z) : M Ui string :=
  on_stdout (format_revolutions max_str_digits str_error_text locale_format
               locale_set revolutions).

(** ** [update_measurements] *)

Definition update_measurements (data : Measurement) : M Ui unit :=
  let header := "TachometerGUI.update_measurements()" in
  try_except
    (t <- format_rpm_br (rpm data) ;; widget (set_rpm_var t) ;;
     t <- format_rpm_br (filtered_rpm data) ;;
     widget (set_filtered_rpm_var t) ;;
     t <- format_frequency_br (frequency data) ;;
     widget (set_frequency_var t) ;;
     t <- format_frequency_br (filtered_freq data) ;;
     widget (set_filtered_freq_var t) ;;
     t <- format_revolutions_br (total_revs data) ;;
     widget (set_total_revs_var t) ;;
     t <- format_time_br (pulse_interval data) ;;
     widget (set_pulse_interval_var t) ;;
     on_gui (Log_call TRACE
               (header +++ ": Measurement displays updated successfully")))
    (fun e =>
       on_gui (Log_call ERROR
                 (header +++ ": Error updating measurements - " +++ e))).

(** ** [add_data_to_plot], with its reading of the clock *)

Definition add_data_to_plot (data : Measurement) : M Ui unit :=
  current_time <- time_time ;;
  on_gui (TachometerGUI.add_data_to_plot data current_time).

(** ** [handle_command_response] and [handle_system_message] *)

Definition handle_command_response (response : string) : M Ui unit :=
  let header := "TachometerGUI.handle_command_response()" in
  on_gui (Log_call TRACE
            (header +++ ": Processing command response: " +++ response)) ;;
  on_gui (log_message ("Response: " +++ response) "SUCCESS").

Definition handle_system_message (message : string) : M Ui unit :=
  let header := "TachometerGUI.handle_system_message()" in
  on_gui (Log_call TRACE
            (header +++ ": Processing system message: " +++ message)) ;;
  if String.eqb message "STARTUP" then
    on_gui (Log_call INFO (header +++ ": Arduino system starting up")) ;;
    on_gui (log_message "Arduino system starting up" "INFO")
  else if String.eqb message "INIT_OK" then
    on_gui (Log_call INFO (header +++ ": Arduino initialization successful")) ;;
    on_gui (log_message "Arduino initialization successful" "SUCCESS")
  else if String.eqb message "INIT_ERROR" then
    on_gui (Log_call ERROR (header +++ ": Arduino initialization failed")) ;;
    on_gui (log_message "Arduino initialization failed" "ERROR")
  else
    on_gui (Log_call INFO (header +++ ": System message: " +++ message)) ;;
    on_gui (log_message ("System: " +++ message) "INFO").

(** ** [update_configuration_display] *)

Definition update_configuration_display (config : Config) : M Ui unit :=
  let header := "TachometerGUI.update_configuration_display()" in
  on_gui (Log_call TRACE (header +++ ": Updating configuration display")) ;;
  try_except
    (let config_text := "Current System Configuration:" +++ nl in
     let config_text := config_text +++ times "=" 40 +++ nl in
     t <- str (ir_pin config) ;;
     let config_text := config_text +++ "IR Sensor Pin: " +++ t +++ nl in
     t <- str (sample_period config) ;;
     let config_text :=
       config_text +++ "Sample Period: " +++ t +++ " ms" +++ nl in
     t <- str (debounce_time config) ;;
     let config_text :=
       config_text +++ "Debounce Time: " +++ t +++ " " +++ micro +++ "s"
       +++ nl in
     t <- str (pulses_per_rev config) ;;
     let config_text :=
       config_text +++ "Pulses per Revolution: " +++ t +++ nl in
     t <- str (timer_number config) ;;
     let config_text := config_text +++ "Timer Number: " +++ t +++ nl in
     let config_text :=
       config_text +++ "Filtering Enabled: "
       +++ str_bool (filtering_enabled config) +++ nl in
     t <- str (filter_alpha config) ;;
     let config_text := config_text +++ "Filter Alpha: " +++ t +++ nl in
     t <- str (window_size config) ;;
     let config_text := config_text +++ "Window Size: " +++ t +++ nl in
     t <- datetime_now ;;
     let config_text := config_text +++ "Last Updated: " +++ t +++ nl in
     widget (set_config_text EmptyString) ;;
     widget (fun d => set_config_text (config_text +++ Panel.config_text d) d) ;;
     widget (set_alpha_var (Ok (filter_alpha config))) ;;
     widget (set_window_var (Ok (window_size config))) ;;
     widget (set_debounce_var (Ok (debounce_time config))) ;;
     widget (set_period_var (Ok (sample_period config))) ;;
     t <- str (filter_alpha config) ;;
     widget (set_alpha_label t) ;;
     t <- str (window_size config) ;;
     widget (set_window_label t) ;;
     on_gui (Log_call DEBUG
               (header +++ ": Configuration display updated successfully")))
    (fun e =>
       on_gui (Log_call ERROR
                 (header +++ ": Error updating configuration display - "
                  +++ e))).

(** ** [update_gui_timer] *)

Definition dispatch (e : Event) : M Ui unit :=
  match e with
  | DATA data => update_measurements data ;; add_data_to_plot data
  | CONFIG config => update_configuration_display config
  | RESPONSE response => handle_command_response response
  | SYSTEM message => handle_system_message message
  | RAW data => on_gui (log_message ("Raw: " +++ data) "INFO")
  end.

(** [while not self.data_queue.empty(): ...]: with no other thread running,
    the loop ends after as many rounds as the queue holds events, which is
    the fuel [update_gui_timer] gives it *)
Fixpoint pump (fuel : nat) : M Ui unit :=
  match fuel with
  | O => ret tt
  | S fuel' =>
      u <- get ;;
      match data_queue (gui u) with
      | [] => ret tt
      | e :: rest =>
          on_gui (modify (with_data_queue rest)) ;;
          dispatch e ;;
          pump fuel'
      end
  end.

Definition update_gui_timer : M Ui unit :=
  try_except
    (u <- get ;; pump (List.length (data_queue (gui u))))
    (fun e => on_gui (Log_call ERROR ("GUI update error: " +++ e))) ;;
  modify (fun u => with_after_calls (after_calls u ++ [50]) u).

(** One round of the loop: the event at the head of the queue is taken
    off and handled *)
Definition pop (u : Ui) : Ui :=
  with_gui (with_data_queue (tl (data_queue (gui u))) (gui u)) u.

Definition turn (u : Ui) (e : Event) : Ui := fst (dispatch e (pop u)).

(** The six calls of the formatter that [update_measurements] makes *)
Definition readout_calls (data : Measurement) : list (M Out string) :=
  [format_rpm max_str_digits str_error_text locale_format locale_set
     (rpm data);
   format_rpm max_str_digits str_error_text locale_format locale_set
     (filtered_rpm data);
   format_frequency max_str_digits str_error_text locale_format fixed
     locale_set (frequency data);
   format_frequency max_str_digits str_error_text locale_format fixed
     locale_set (filtered_freq data);
   format_revolutions max_str_digits str_error_text locale_format locale_set
     (total_revs data);
   format_time_microseconds max_str_digits str_error_text fixed
     (pulse_interval data)].

(** ** The spin boxes and the button of the configuration tab *)

Definition on_debounce_change : M Ui unit :=
  let header := "TachometerGUI.on_debounce_change()" in
  on_gui (Log_call TRACE (header +++ ": Processing debounce change event")) ;;
  debounce_val <- intvar_get debounce_var ;;
  t <- str debounce_val ;;
  on_gui (send_command ("SET_DEBOUNCE:" +++ t)) ;;
  t <- str debounce_val ;;
  on_gui (Log_call DEBUG
            (header +++ ": Debounce time changed to " +++ t +++ " "
             +++ micro +++ "s")).

Definition on_period_change : M Ui unit :=
  let header := "TachometerGUI.on_period_change()" in
  on_gui (Log_call TRACE
            (header +++ ": Processing sample period change event")) ;;
  period_val <- intvar_get period_var ;;
  t <- str period_val ;;
  on_gui (send_command ("SET_PERIOD:" +++ t)) ;;
  t <- str period_val ;;
  on_gui (Log_call DEBUG
            (header +++ ": Sample period changed to " +++ t +++ " ms")).

Definition apply_config_changes : M Ui unit :=
  let header := "TachometerGUI.apply_config_changes()" in
  on_gui (Log_call TRACE (header +++ ": Applying configuration changes")) ;;
  try_except
    (debounce_val <- intvar_get debounce_var ;;
     period_val <- intvar_get period_var ;;
     t <- str debounce_val ;;
     on_gui (send_command ("SET_DEBOUNCE:" +++ t)) ;;
     t <- str period_val ;;
     on_gui (send_command ("SET_PERIOD:" +++ t)) ;;
     on_gui (Log_call INFO
               (header +++ ": Configuration changes applied successfully")) ;;
     on_gui (log_message "Configuration changes applied" "SUCCESS"))
    (fun e =>
       on_gui (Log_call ERROR
                 (header +++ ": Error applying changes - " +++ e)) ;;
       on_gui (log_message ("Error applying changes: " +++ e) "ERROR")).

End Methods.

(** ** Notions the properties are stated with *)

(** The line that an event adds to the log panel: message and tag *)
Definition panel_line (e : Event) : list (string * string) :=
  match e with
  | DATA _ | CONFIG _ => []
  | RESPONSE response => [("Response: " +++ response, "SUCCESS")]
  | SYSTEM message =>
      if String.eqb message "STARTUP" then
        [("Arduino system starting up", "INFO")]
      else if String.eqb message "INIT_OK" then
        [("Arduino initialization successful", "SUCCESS")]
      else if String.eqb message "INIT_ERROR" then
        [("Arduino initialization failed", "ERROR")]
      else [("System: " +++ message, "INFO")]
  | RAW data => [("Raw: " +++ data, "INFO")]
  end.

(** The measurements among the events, in order *)
Definition measurements (events : list Event) : list Measurement :=
  flat_map (fun e => match e with DATA m => [m] | _ => [] end) events.

Definition is_data (e : Event) : bool :=
  match e with DATA _ => true | _ => false end.

Definition is_config (e : Event) : bool :=
  match e with CONFIG _ => true | _ => false end.

(** A method leaves a part of its state as it was, and a method returns
    normally *)
Definition preserves {S X A : Type} (part : S -> X) (c : M S A) : Prop :=
  forall s, part (fst (c s)) = part s.

Definition returns {S A : Type} (c : M S A) : Prop :=
  forall s, exists a, snd (c s) = Ok a.

(** A method of the formatter only adds lines to the standard output, and
    its answer does not depend on what was printed before *)
Definition prints_only {A : Type} (c : M Out A) : Prop :=
  forall out, c out = (out ++ fst (c []), snd (c [])).

(** What the worker and the decoder own: the port, the pending commands,
    the two flags, the two snapshots and the message boxes *)
Definition bridge_side (g : Gui)
  : Serial * list string * bool * bool * Measurement * Config
    * list (string * string) :=
  (serial_port g, command_queue g, is_connected g, stop_threads g,
   current_data g, config g, dialogs g).

(** The configuration text that [update_configuration_display] writes *)
Definition configuration_text (c : Config) (stamp : string) : string :=
  "Current System Configuration:" +++ nl
  +++ times "=" 40 +++ nl
  +++ "IR Sensor Pin: " +++ int_text (ir_pin c) +++ nl
  +++ "Sample Period: " +++ int_text (sample_period c) +++ " ms" +++ nl
  +++ "Debounce Time: " +++ int_text (debounce_time c) +++ " " +++ micro
  +++ "s" +++ nl
  +++ "Pulses per Revolution: " +++ int_text (pulses_per_rev c) +++ nl
  +++ "Timer Number: " +++ int_text (timer_number c) +++ nl
  +++ "Filtering Enabled: " +++ str_bool (filtering_enabled c) +++ nl
  +++ "Filter Alpha: " +++ int_text (filter_alpha c) +++ nl
  +++ "Window Size: " +++ int_text (window_size c) +++ nl
  +++ "Last Updated: " +++ stamp +++ nl.

(** The numbers of a configuration that its display renders with [str] *)
Definition rendered (c : Config) : list Z :=
  [ir_pin c; sample_period c; debounce_time c; pulses_per_rev c;
   timer_number c; filter_alpha c; window_size c].

(** The four series of the plot hold [n] points each, in deques of
    capacity [cap] *)
Definition aligned (n cap : nat) (g : Gui) : Prop :=
  Forall (fun d => List.length (items d) = n /\ maxlen d = cap)
         [time_data g; rpm_data g; filtered_rpm_data g; frequency_data g].

(** The six displays of the monitor tab *)
Definition readouts (d : Display) : list string :=
  [rpm_var d; filtered_rpm_var d; frequency_var d; filtered_freq_var d;
   total_revs_var d; pulse_interval_var d].

(** The controls of the two other tabs *)
Definition controls (d : Display) : list IntVar * (string * string) :=
  ([alpha_var d; window_var d; debounce_var d; period_var d],
   (alpha_label d, window_label d)).

End Panel.

(* ================================================================== *)
(** * Sample surroundings for the formatter and the panel *)
(* ================================================================== *)
Module PanelSample.

Import Log TachometerGUI Sample PyText BrazilianFormatter Panel.

(** The text of the error of [str] past the digit limit, and the smallest
    limit that the interpreter accepts *)
Definition exceeds_limit (z : Z) : string :=
  "Exceeds the limit for integer string conversion".

Definition least_limit : nat := 640.

(** A platform without any locale but "C", and one where
    [locale.format_string] always fails *)
Definition only_c (name : string) : bool := String.eqb name "C".

Definition no_locale (z : Z) : result string :=
  Raise "unsupported locale setting".

(** Float formatting lies outside the samples: none of them reaches it *)
Definition no_fixed (num den : Z) (decimals : nat) : result string :=
  Raise "float formatting is not part of the sample".

Definition wall_clock (n : nat) : Z := (1751104800 + Z.of_nat n)%Z.

Definition wall_text (n : nat) : string := "2025-06-28 10:00:00".

(** A connected panel whose port completes three more operations, with
    three commands pending *)
Definition failing_port : Gui :=
  with_serial_port (mkSerial ["TACH:INIT_OK" +++ nl] [] (Some 3)) three_queued.

(** A logger with a file sink, and surroundings where the disk is full *)
Definition with_sink : State :=
  fst (set_log_file "tachometer_gui.log" true (Ok tt) (Ok tt) initial).

Definition disk_full : Env :=
  mkEnv "2025-06-28 10:00:00.000" "140001"
        (Raise "No space left on device").

(** Two measurements, and a panel whose queue holds them among other
    events *)
Definition slow : Measurement := mkMeasurement 5 300 5 295 120 10 200000 1.

Definition fast : Measurement :=
  mkMeasurement 1200 72000 1180 70800 123456 10 833 2.

Definition busy : Ui :=
  with_gui
    (with_data_queue
       [DATA slow; RESPONSE "OK"; DATA fast; SYSTEM "INIT_OK"]
       (TachometerGUI.init (port [])))
    (Panel.init (port [])).

(** A panel where the text of the debounce box is no integer *)
Definition mistyped : Ui :=
  with_display
    (set_debounce_var (Raise "expected integer but got abc") display_init)
    (Panel.init (port [])).

End PanelSample.

(* ================================================================== *)
(** * More notions about the bridge *)
(* ================================================================== *)
Module BridgeNotions.

Import Log TachometerGUI PyText.

(** The canonical text of a payload: the numbers in decimal, joined by
    commas *)
Definition payload_text (zs : list Z) : string := join "," (map int_text zs).

(** The last Measurement, and the last ConfigSnapshot, among some events *)
Fixpoint last_measurement (q : list Event) (default : Measurement)
  : Measurement :=
  match q with
  | [] => default
  | DATA m :: rest => last_measurement rest m
  | _ :: rest => last_measurement rest default
  end.

Fixpoint last_config (q : list Event) (default : Config) : Config :=
  match q with
  | [] => default
  | CONFIG c :: rest => last_config rest c
  | _ :: rest => last_config rest default
  end.

(** Decoding a series of lines, one call of [process_incoming_data] each *)
Definition feed (max_str_digits : nat) (int_error_text : string -> string)
  (lines : list string) (g : Gui) : Gui :=
  fold_left
    (fun g line =>
       fst (process_incoming_data max_str_digits int_error_text line g))
    lines g.

(** Some field fails to parse *)
Definition some_unparsed (max_str_digits : nat) (fields : list string) : bool :=
  existsb (fun f => match parse_int max_str_digits f with
                    | Some _ => false | None => true end) fields.

Definition is_error (c : LogLevel * string) : bool :=
  match fst c with ERROR => true | _ => false end.

Definition is_write (op : SerialOp) : bool :=
  match op with Write _ => true | _ => false end.

Definition is_read (op : SerialOp) : bool :=
  match op with ReadLine _ => true | _ => false end.

(** The texts written for the commands [q], in order *)
Definition frames (q : list string) : list SerialOp :=
  map (fun c => Write ("CMD:" +++ c +++ nl)) q.

End BridgeNotions.

(* ================================================================== *)
(** * More notions about the logger *)
(* ================================================================== *)
Module LogNotions.

Import Log.

(** Following a journal of effects with the list of the file objects that
    are open: a file is opened only when none is open, closed only when it
    is open, and written only when it is open; [None] when the journal
    breaks one of these rules, else the files left open. *)
Fixpoint follow_files (open : list handle) (j : list Effect)
  : option (list handle) :=
  match j with
  | [] => Some open
  | EOpen _ _ h :: rest =>
      match open with
      | [] => follow_files [h] rest
      | _ :: _ => None
      end
  | EClose h :: rest =>
      if existsb (Nat.eqb h) open
      then follow_files (List.filter (fun k => negb (k =? h)) open) rest
      else None
  | EWrite (FileSink h) _ :: rest =>
      if existsb (Nat.eqb h) open then follow_files open rest else None
  | EWrite _ _ :: rest => follow_files open rest
  end.

(** The journal of a state follows the rules and leaves open the files
    the state holds open *)
Definition files_in_order (s : State) : Prop :=
  follow_files [] (journal s) = Some (os_open s).

(** A path is recorded exactly when a sink is configured *)
Definition path_follows_sink (s : State) : Prop :=
  _log_file s = None <-> _log_file_path s = None.

Section Startup.

Variable PyObject : Type.

(** The configuration calls of [main()] and of [TachometerGUI.__init__],
    in order; [os] is what the operating system answers when the log file
    is opened *)
Definition startup_calls (os : result unit) : list (Call PyObject) :=
  [CallSetLevel PyObject INFO;
   CallSetConsoleOutput PyObject true;
   CallSetLevel PyObject DEBUG;
   CallSetLogFile PyObject "tachometer_gui.log" true (Ok tt) os;
   CallSetConsoleOutput PyObject true].

End Startup.

End LogNotions.

(* ================================================================== *)
(** * Properties of the built-ins *)
(* ================================================================== *)
Module PyProperties.

Lemma bind_run {S A B : Type} (m : M S A) (k : A -> M S B) (s : S) :
  bind m k s =
  match m s with
  | (s', Ok a) => k a s'
  | (s', Raise e) => (s', Raise e)
  end.
Proof. reflexivity. Qed.

Lemma skipn_past {A : Type} (l extra : list A) :
  skipn (List.length l) (l ++ extra) = extra.
Proof. induction l as [|x l IH]; [reflexivity | exact IH]. Qed.

(** ** Splitting and joining *)

Lemma free_of_cons (x c : ascii) (s : string) :
  free_of x (String c s) = true <->
  Ascii.eqb c x = false /\ free_of x s = true.
Proof.
  unfold free_of. cbn [all_chars].
  rewrite andb_true_iff, negb_true_iff. reflexivity.
Qed.

Lemma split_free (sep : ascii) (s : string) :
  free_of sep s = true -> split sep s = [s].
Proof.
  induction s as [|c s IH]; intros H; [reflexivity|].
  apply free_of_cons in H. destruct H as [Hc Hs].
  cbn [split]. rewrite Hc, (IH Hs). reflexivity.
Qed.

Lemma split_sep (sep : ascii) (a b : string) :
  free_of sep a = true ->
  split sep (a +++ String sep b) = a :: split sep b.
Proof.
  induction a as [|c a IH]; intros H.
  - cbn [String.append split]. rewrite Ascii.eqb_refl. reflexivity.
  - apply free_of_cons in H. destruct H as [Hc Ha].
    cbn [String.append split]. rewrite Hc, (IH Ha). reflexivity.
Qed.

(** Splitting undoes joining, for fields free of the separator. *)
Lemma split_join (sep : ascii) (fields : list string) :
  fields <> [] ->
  Forall (fun f => free_of sep f = true) fields ->
  split sep (join sep fields) = fields.
Proof.
  induction fields as [|x rest IH]; intros Hne Hfree; [contradiction Hne; reflexivity|].
  inversion Hfree as [|? ? Hx Hrest]; subst.
  destruct rest as [|y rest].
  - cbn [join]. apply split_free. exact Hx.
  - change (join sep (x :: y :: rest))
      with (x +++ String sep (join sep (y :: rest))).
    rewrite (split_sep sep x _ Hx), IH; [reflexivity | discriminate | exact Hrest].
Qed.

(** ** What [int] accepts holds no comma *)

Lemma all_chars_impl (p q : ascii -> bool) (s : string) :
  (forall c, p c = true -> q c = true) ->
  all_chars p s = true -> all_chars q s = true.
Proof.
  intros Hpq. induction s as [|c s IH]; intros H; [reflexivity|].
  cbn [all_chars] in *. apply andb_true_iff in H. destruct H as [Hc Hs].
  rewrite (Hpq c Hc), (IH Hs). reflexivity.
Qed.

Lemma other_than (x : ascii) (p : ascii -> bool) (c : ascii) :
  p x = false -> p c = true -> Ascii.eqb c x = false.
Proof.
  intros Hx Hc. destruct (Ascii.eqb_spec c x) as [->|_]; [|reflexivity].
  rewrite Hx in Hc. discriminate Hc.
Qed.

Lemma free_lstrip (x : ascii) (sp : ascii -> bool) (s : string) :
  sp x = false ->
  free_of x (lstrip_with sp s) = true -> free_of x s = true.
Proof.
  intros Hx. induction s as [|c s IH]; intros H; [reflexivity|].
  cbn [lstrip_with] in H. destruct (sp c) eqn:Hc; [|exact H].
  apply free_of_cons. split; [exact (other_than x sp c Hx Hc) | exact (IH H)].
Qed.

Lemma free_scan (s : string) (prev_us : bool) (acc : Z) (n : nat)
  (v : Z) (m : nat) (rest : string) :
  scan_digits s prev_us acc n = Some (v, m, rest) ->
  free_of "," rest = true -> free_of "," s = true.
Proof.
  revert prev_us acc n.
  induction s as [|c s IH]; intros prev_us acc n H Hrest; [reflexivity|].
  cbn [scan_digits] in H.
  destruct (is_underscore c) eqn:Hu.
  - destruct prev_us; [discriminate H|].
    apply free_of_cons. split; [|exact (IH _ _ _ H Hrest)].
    exact (other_than "," is_underscore c eq_refl Hu).
  - destruct (digit_value c) as [d|] eqn:Hd.
    + apply free_of_cons. split; [|exact (IH _ _ _ H Hrest)].
      apply (other_than "," (fun a => match digit_value a with
                                      | Some _ => true | None => false end));
        [reflexivity | rewrite Hd; reflexivity].
    + destruct prev_us; [discriminate H|].
      injection H as _ _ <-. exact Hrest.
Qed.

Lemma free_after_sign (sign : string) (t : string) :
  free_of "," sign = true ->
  startswith t sign = true ->
  free_of "," (slice_from (String.length sign) t) = true ->
  free_of "," t = true.
Proof.
  revert t. induction sign as [|a sign IH]; intros t Hsign Hstart H;
    [exact H|].
  destruct t as [|c t]; [reflexivity|].
  apply free_of_cons in Hsign. destruct Hsign as [Ha Hsign].
  cbn [startswith] in Hstart. apply andb_true_iff in Hstart.
  destruct Hstart as [E Hstart]. apply Ascii.eqb_eq in E. subst c.
  apply free_of_cons. split; [exact Ha|].
  exact (IH t Hsign Hstart H).
Qed.

Lemma parse_int_free (max_str_digits : nat) (s : string) (z : Z) :
  parse_int max_str_digits s = Some z -> free_of "," s = true.
Proof.
  unfold parse_int. intros H.
  apply (free_lstrip "," int_space s eq_refl).
  set (t := lstrip_with int_space s) in *.
  destruct (startswith _ "_"); [discriminate H|].
  destruct (scan_digits _ false 0%Z 0) as [[[v n] rest]|] eqn:Hscan;
    [|discriminate H].
  destruct (all_chars int_space rest) eqn:Hrest;
    [|rewrite orb_true_r in H; discriminate H].
  assert (Hfree : free_of "," rest = true).
  { apply (all_chars_impl int_space _ rest); [|exact Hrest].
    intros c Hc. apply negb_true_iff.
    exact (other_than "," int_space c eq_refl Hc). }
  apply free_scan in Hscan; [|exact Hfree].
  destruct (startswith t "-") eqn:Hminus; cbn [orb] in Hscan.
  - exact (free_after_sign "-" t eq_refl Hminus Hscan).
  - destruct (startswith t "+") eqn:Hplus.
    + exact (free_after_sign "+" t eq_refl Hplus Hscan).
    + exact Hscan.
Qed.

End PyProperties.

(* ================================================================== *)
(** * Properties of the logger *)
(* ================================================================== *)
Module LogProperties.

Import Log PyProperties.

Section Facts.

Variable PyObject : Type.
Variable str_mod : string -> list PyObject -> result string.
Variable tuple_repr : list PyObject -> string.

Local Abbreviation _log := (Log._log PyObject str_mod tuple_repr).
Local Abbreviation record_message := (Log.record_message PyObject str_mod tuple_repr).
Local Abbreviation run := (Log.run PyObject str_mod tuple_repr).
Local Abbreviation exec := (Log.exec PyObject str_mod tuple_repr).

(** A call of [_log] returns normally, and what it does is to add the
    writes of one record to the journal when the level test passes. *)
Lemma log_runs (level : LogLevel) (message : string) (args : list PyObject)
  (env : Env) (s : State) :
  _log level message args env s =
  (if passes level s
   then with_journal
          (journal s ++
           sink_writes s level
             (log_entry_text env level (record_message message args))
             (write_outcome env)) s
   else s, Ok tt).
Proof.
  unfold Log._log, passes, bind, get.
  destruct (ge level (_level s) && ne (_level s) NONE); [|reflexivity].
  unfold Log.record_message, sink_writes, with_journal, when, try_except,
    lift, ret, print, file_write, console_write, console_stream, modify.
  destruct s as [lv f pth con op fr j]; cbn [_use_console _log_file journal
    _level _log_file_path os_open os_fresh].
  destruct args as [|a args]; [|destruct (str_mod message (a :: args))];
    destruct con, f as [h|]; try destruct (write_outcome env);
    cbn; rewrite <- ?app_assoc, ?app_nil_r; reflexivity.
Qed.

Lemma produced_by_log (level : LogLevel) (message : string)
  (args : list PyObject) (env : Env) (s : State) :
  produced s (fst (_log level message args env s)) =
  if passes level s
  then sink_writes s level
         (log_entry_text env level (record_message message args))
         (write_outcome env)
  else [].
Proof.
  rewrite log_runs. unfold produced. destruct (passes level s); cbn.
  - apply skipn_past.
  - rewrite <- (app_nil_r (journal s)) at 2. apply skipn_past.
Qed.

Lemma sink_writes_nil (s : State) (level : LogLevel) (entry : string)
  (outcome : result unit) :
  sink_writes s level entry outcome = [] <-> sink_active s = false.
Proof.
  unfold sink_writes, sink_active.
  destruct (_use_console s), (_log_file s), outcome; cbn;
    split; intros H; try reflexivity; discriminate H.
Qed.

Lemma passes_iff (level : LogLevel) (s : State) :
  passes level s = true <->
  value (_level s) <= value level /\ _level s <> NONE.
Proof.
  unfold passes, ge, ne. rewrite andb_true_iff, Nat.leb_le, negb_true_iff,
    Nat.eqb_neq.
  split; intros [H1 H2]; split; try assumption.
  - intros E. apply H2. rewrite E. reflexivity.
  - intros E. apply H2. destruct (_level s); cbn in E; try discriminate E.
    reflexivity.
Qed.

(** C4 (as amended): a log call produces output if and only if its level is
    greater than or equal to the current threshold, the threshold is not
    NONE, and a destination is configured (the console is enabled or a file
    sink is open).  So with threshold WARNING and a destination, TRACE,
    DEBUG and INFO are silent and WARNING, ERROR and CRITICAL are printed;
    with threshold NONE every level is silent. *)
Theorem log_output_iff (level : LogLevel) (message : string)
  (args : list PyObject) (env : Env) (s : State) :
  produced s (fst (_log level message args env s)) <> [] <->
  (value (_level s) <= value level /\ _level s <> NONE /\
   sink_active s = true).
Proof.
  rewrite produced_by_log. split.
  - intros H. destruct (passes level s) eqn:P; [|contradiction H; reflexivity].
    apply passes_iff in P. destruct P as [P1 P2].
    repeat split; try assumption.
    destruct (sink_active s) eqn:A; [reflexivity|].
    contradiction H. apply sink_writes_nil. exact A.
  - intros (P1 & P2 & A).
    assert (P : passes level s = true) by (apply passes_iff; split; assumption).
    rewrite P. intros E. apply sink_writes_nil in E. congruence.
Qed.

(** A call of [_log] never raises, whatever formatting does. *)
Lemma log_never_raises (level : LogLevel) (message : string)
  (args : list PyObject) (env : Env) (s : State) :
  snd (_log level message args env s) = Ok tt.
Proof. rewrite log_runs. reflexivity. Qed.

(** C5: when the message of a log call fails to format with its arguments,
    the call does not raise: it returns normally, and the record it emits
    is the time, level and thread tag followed by the original, unformatted
    message, the text of the formatting error and the arguments.  The
    record goes to every configured destination: the console when enabled,
    the file sink when open (or, when the sink refuses the line, the error
    stream). *)
Theorem format_failure_is_logged (level : LogLevel) (message : string)
  (args : list PyObject) (env : Env) (s : State) (e : string) :
  args <> [] ->
  passes level s = true ->
  str_mod message args = Raise e ->
  let entry :=
    now env +++ " [" +++ name level +++ "] [" +++ thread_id env +++ "] "
        +++ message +++ " (Format error: " +++ e +++ ", Args: "
        +++ tuple_repr args +++ ")" in
  exists s',
    _log level message args env s = (s', Ok tt)
    /\ produced s s' = sink_writes s level entry (write_outcome env)
    /\ (_use_console s = true ->
        In (EWrite (console_stream level) (entry +++ nl)) (produced s s'))
    /\ (forall h, _log_file s = Some h ->
        In (EWrite (FileSink h) (entry +++ nl)) (produced s s')
        \/ In (EWrite Stderr (entry +++ nl)) (produced s s')).
Proof.
  intros Hargs Hpass Hfail entry.
  assert (Hmsg : log_entry_text env level (record_message message args) = entry).
  { unfold log_entry_text, Log.record_message, format_error_text, entry.
    destruct args as [|a args]; [contradiction Hargs; reflexivity|].
    rewrite Hfail. reflexivity. }
  pose proof (produced_by_log level message args env s) as Hp.
  rewrite Hpass, Hmsg in Hp.
  exists (fst (_log level message args env s)).
  split; [|split; [exact Hp|split]].
  - rewrite log_runs. reflexivity.
  - intros Hc. rewrite Hp. unfold sink_writes. rewrite Hc.
    left. reflexivity.
  - intros h Hf. rewrite Hp. unfold sink_writes. rewrite Hf.
    destruct (write_outcome env).
    + left. apply in_or_app. right. left. reflexivity.
    + right. apply in_or_app. right. right. left. reflexivity.
Qed.

(** ** The file sink *)

Lemma set_log_file_runs (file_path : string) (append : bool)
  (closing os : result unit) (s : State) :
  sink_invariant s ->
  set_log_file file_path append closing os s =
  match os with
  | Ok _ =>
      (mkState (_level s) (Some (os_fresh s)) (Some file_path)
               (_use_console s) [os_fresh s] (S (os_fresh s))
               (journal s ++ closes s ++
                [EOpen file_path (if append then "a" else "w") (os_fresh s)]),
       Ok true)
  | Raise e =>
      (mkState (_level s) None None (_use_console s) [] (os_fresh s)
               (journal s ++ closes s ++
                [EWrite Stderr ("Error opening log file " +++ file_path
                                +++ ": " +++ e +++ nl)]),
       Ok false)
  end.
Proof.
  intros [Hopen _]. destruct s as [lv f pth con op fr j].
  unfold sink_handles in Hopen. cbn in Hopen. subst op.
  unfold set_log_file, closes, bind, get, try_except, close, modify, ret,
    makedirs_and_open, console_write, raise, with_log_file,
    with_log_file_path.
  destruct f as [h|], closing as [[]|ce], os as [[]|e]; cbn;
    rewrite ?Nat.eqb_refl; cbn; rewrite <- ?app_assoc; reflexivity.
Qed.

Lemma close_log_file_runs (closing : result unit) (s : State) :
  sink_invariant s ->
  close_log_file closing s =
  (match _log_file s with
   | Some h =>
       mkState (_level s) None None (_use_console s) [] (os_fresh s)
               (journal s ++ [EClose h])
   | None => s
   end, Ok tt).
Proof.
  intros [Hopen _]. destruct s as [lv f pth con op fr j].
  unfold sink_handles in Hopen. cbn in Hopen. subst op.
  unfold close_log_file, bind, get, try_except, close, modify, ret,
    with_log_file, with_log_file_path.
  destruct f as [h|], closing as [[]|ce]; cbn; rewrite ?Nat.eqb_refl;
    reflexivity.
Qed.

Lemma sink_invariant_exec (c : Call PyObject) (s : State) :
  sink_invariant s -> sink_invariant (exec c s).
Proof.
  intros Inv. destruct c as [l|p a cl os|cl|b|l m a env]; cbn [Log.exec].
  - exact Inv.
  - rewrite (set_log_file_runs p a cl os s Inv).
    destruct os as [[]|e]; split; cbn; try reflexivity.
    + intros h [<-|[]]. lia.
    + intros h [].
  - rewrite (close_log_file_runs cl s Inv).
    destruct Inv as [I1 I2]. destruct (_log_file s) eqn:F; cbn.
    + split; [reflexivity | intros k []].
    + split; assumption.
  - exact Inv.
  - rewrite log_runs. cbn. destruct (passes l s); exact Inv.
Qed.

Lemma run_snoc (cs : list (Call PyObject)) (c : Call PyObject) :
  run (cs ++ [c]) = exec c (run cs).
Proof. unfold Log.run. rewrite fold_left_app. reflexivity. Qed.

Lemma sink_invariant_run (cs : list (Call PyObject)) :
  sink_invariant (run cs).
Proof.
  induction cs as [|c cs IH] using rev_ind.
  - split; [reflexivity | intros h []].
  - rewrite run_snoc. apply sink_invariant_exec. exact IH.
Qed.

(** C6: at any point of a history of calls of the logger, at most one file
    object is open, and a call of [set_log_file] first closes the sink that
    is open, before it opens anything.  When opening the target fails, the
    call returns False and leaves no sink and no recorded path; when it
    succeeds, the call returns True, the new file object is the sink and
    the only file open, and [get_log_file_path] returns the path. *)
Theorem set_log_file_contract (history : list (Call PyObject))
  (file_path : string) (append : bool) (closing os : result unit) :
  List.length (os_open (run history)) <= 1
  /\ let s := run history in
     let s' := fst (set_log_file file_path append closing os s) in
     let answer := snd (set_log_file file_path append closing os s) in
     List.length (os_open s') <= 1
     /\ (exists rest, produced s s' = closes s ++ rest
         /\ forall h, In (EClose h) rest -> False)
     /\ (forall h, _log_file s = Some h -> ~ In h (os_open s'))
     /\ match os with
        | Raise _ =>
            answer = Ok false /\ _log_file s' = None
            /\ get_log_file_path s' = None /\ os_open s' = []
        | Ok _ =>
            answer = Ok true /\ get_log_file_path s' = Some file_path
            /\ _log_file s' = Some (os_fresh s)
            /\ os_open s' = [os_fresh s]
            /\ In (EOpen file_path (if append then "a" else "w") (os_fresh s))
                  (produced s s')
        end.
Proof.
  pose proof (sink_invariant_run history) as Inv.
  split.
  { destruct Inv as [I1 _]. rewrite I1. unfold sink_handles.
    destruct (_log_file (run history)); cbn; lia. }
  cbv zeta.
  rewrite (set_log_file_runs file_path append closing os _ Inv).
  destruct Inv as [I1 I2].
  assert (Hold : forall h, _log_file (run history) = Some h ->
                           h < os_fresh (run history)).
  { intros h F. apply I2. rewrite I1. unfold sink_handles. rewrite F.
    left. reflexivity. }
  unfold produced, get_log_file_path.
  destruct os as [[]|e]; cbn [fst snd journal os_open _log_file
    _log_file_path]; rewrite skipn_past.
  - split; [cbn; lia|]. split.
    { eexists. split; [reflexivity|]. intros h [H|[]]. discriminate H. }
    split.
    { intros h F [H|[]]. apply Hold in F. lia. }
    repeat split. apply in_or_app. right. left. reflexivity.
  - split; [cbn; lia|]. split.
    { eexists. split; [reflexivity|]. intros h [H|[]]. discriminate H. }
    split.
    { intros h F []. }
    repeat split.
Qed.

End Facts.

End LogProperties.

(* ================================================================== *)
(** * Properties of the bridge *)
(* ================================================================== *)
Module BridgeProperties.

Import Log TachometerGUI PyProperties.

(** Running the plumbing of a method: the monad, the collaborators and the
    attribute updates, but neither the decoder nor the texts *)
Ltac run_method_in H :=
  cbv [bind get modify ret raise lift when try_except
       Log_call log_message showwarning command_queue_put data_queue_put
       spend record_op serial_write serial_flush serial_in_waiting
       serial_readline
       with_serial_port with_data_queue with_command_queue with_plot_data
       with_current_data with_config with_log_calls with_log_text
       with_dialogs] in H;
  cbn [serial_port data_queue command_queue is_connected stop_threads
       time_data rpm_data filtered_rpm_data frequency_data current_data
       config log_calls log_text dialogs rx wire budget fst snd] in H.

Ltac run_method :=
  cbv [bind get modify ret raise lift when try_except
       Log_call log_message showwarning command_queue_put data_queue_put
       spend record_op serial_write serial_flush serial_in_waiting
       serial_readline
       with_serial_port with_data_queue with_command_queue with_plot_data
       with_current_data with_config with_log_calls with_log_text
       with_dialogs];
  cbn [serial_port data_queue command_queue is_connected stop_threads
       time_data rpm_data filtered_rpm_data frequency_data current_data
       config log_calls log_text dialogs rx wire budget fst snd].

Section Facts.

Variable max_str_digits : nat.
Variable int_error_text : string -> string.

Local Abbreviation int_of := (TachometerGUI.int_of max_str_digits int_error_text).
Local Abbreviation parse_data := (TachometerGUI.parse_data max_str_digits int_error_text).
Local Abbreviation parse_config := (TachometerGUI.parse_config max_str_digits int_error_text).
Local Abbreviation process_incoming_data :=
  (TachometerGUI.process_incoming_data max_str_digits int_error_text).
Local Abbreviation read_incoming :=
  (TachometerGUI.read_incoming max_str_digits int_error_text).
Local Abbreviation worker_iteration :=
  (TachometerGUI.worker_iteration max_str_digits int_error_text).
Local Abbreviation worker_cycle :=
  (TachometerGUI.worker_cycle max_str_digits int_error_text).
Local Abbreviation parse_int := (Py.parse_int max_str_digits).

(** ** Decoding a line *)

Ltac run_field :=
  match goal with
  | H : parse_int ?s = Some ?z |- context [Py.parse_int _ ?s] => rewrite H
  end.

Lemma parse_data_ok (values : list string) (z0 z1 z2 z3 z4 z5 z6 z7 : Z)
  (g : Gui) :
  map parse_int (firstn 8 values) = map Some [z0; z1; z2; z3; z4; z5; z6; z7] ->
  parse_data values g = (g, Ok (mkMeasurement z0 z1 z2 z3 z4 z5 z6 z7)).
Proof.
  intros H.
  do 8 (destruct values as [|? values]; [discriminate H|]).
  cbn in H. injection H as H0 H1 H2 H3 H4 H5 H6 H7.
  unfold TachometerGUI.parse_data, TachometerGUI.int_of, getitem, bind, lift,
    ret, int; cbn.
  repeat run_field. reflexivity.
Qed.

Lemma parse_config_ok (values : list string) (z0 z1 z2 z3 z4 z5 z6 z7 : Z)
  (g : Gui) :
  map parse_int (firstn 8 values) = map Some [z0; z1; z2; z3; z4; z5; z6; z7] ->
  parse_config values g =
  (g, Ok (mkConfig z0 z1 z2 z3 z4 (bool_of_int z5) z6 z7)).
Proof.
  intros H.
  do 8 (destruct values as [|? values]; [discriminate H|]).
  cbn in H. injection H as H0 H1 H2 H3 H4 H5 H6 H7.
  unfold TachometerGUI.parse_config, TachometerGUI.int_of, getitem, bind,
    lift, ret, int; cbn.
  repeat run_field. reflexivity.
Qed.

(** A [DATA] line with at least 8 fields, the first 8 of them integers *)
Lemma data_frame_ok (payload : string) (z0 z1 z2 z3 z4 z5 z6 z7 : Z)
  (g : Gui) :
  8 <= List.length (split "," payload) ->
  map parse_int (firstn 8 (split "," payload))
    = map Some [z0; z1; z2; z3; z4; z5; z6; z7] ->
  process_incoming_data ("DATA:" +++ payload) g =
  (with_log_calls
     (log_calls g ++
      [(TRACE, process_header +++ ": Parsed measurement data successfully")])
     (with_data_queue
        (data_queue g ++ [DATA (mkMeasurement z0 z1 z2 z3 z4 z5 z6 z7)])
        (with_current_data (mkMeasurement z0 z1 z2 z3 z4 z5 z6 z7) g)),
   Ok tt).
Proof.
  intros Hlen H.
  unfold TachometerGUI.process_incoming_data, try_except.
  change (startswith ("DATA:" +++ payload) "DATA:") with true.
  change (slice_from 5 ("DATA:" +++ payload)) with payload.
  apply Nat.leb_le in Hlen. rewrite Hlen.
  cbv iota. unfold bind at 1. rewrite (parse_data_ok _ _ _ _ _ _ _ _ _ g H).
  reflexivity.
Qed.

(** A [CONFIG] line with at least 8 fields, the first 8 of them integers *)
Lemma config_frame_ok (payload : string) (z0 z1 z2 z3 z4 z5 z6 z7 : Z)
  (g : Gui) :
  8 <= List.length (split "," payload) ->
  map parse_int (firstn 8 (split "," payload))
    = map Some [z0; z1; z2; z3; z4; z5; z6; z7] ->
  process_incoming_data ("CONFIG:" +++ payload) g =
  (with_log_calls
     (log_calls g ++
      [(DEBUG, process_header +++ ": Configuration data received and parsed")])
     (with_data_queue
        (data_queue g ++
         [CONFIG (mkConfig z0 z1 z2 z3 z4 (bool_of_int z5) z6 z7)])
        (with_config (mkConfig z0 z1 z2 z3 z4 (bool_of_int z5) z6 z7) g)),
   Ok tt).
Proof.
  intros Hlen H.
  unfold TachometerGUI.process_incoming_data, try_except.
  change (startswith ("CONFIG:" +++ payload) "DATA:") with false.
  change (startswith ("CONFIG:" +++ payload) "CONFIG:") with true.
  change (slice_from 7 ("CONFIG:" +++ payload)) with payload.
  apply Nat.leb_le in Hlen. rewrite Hlen.
  cbv iota. unfold bind at 1. rewrite (parse_config_ok _ _ _ _ _ _ _ _ _ g H).
  reflexivity.
Qed.

Lemma map_length_eq {A B C : Type} (f : A -> C) (h : B -> C)
  (l : list A) (l' : list B) :
  map f l = map h l' -> List.length l = List.length l'.
Proof.
  intros H. rewrite <- (length_map f l), H. apply length_map.
Qed.

(** C1: a line [DATA:<payload>] whose payload is 8 comma-separated integers
    decodes to one Measurement event, its 8 fields (frequency, rpm,
    filtered frequency, filtered rpm, total revolutions, raw pulse count,
    pulse interval, timestamp) being the integers in positional order; that
    event is the only one queued for the line. *)
Theorem data_line_decodes (payload : string)
  (z0 z1 z2 z3 z4 z5 z6 z7 : Z) (g : Gui) :
  map parse_int (split "," payload)
    = map Some [z0; z1; z2; z3; z4; z5; z6; z7] ->
  let m := mkMeasurement z0 z1 z2 z3 z4 z5 z6 z7 in
  snd (process_incoming_data ("DATA:" +++ payload) g) = Ok tt
  /\ data_queue (fst (process_incoming_data ("DATA:" +++ payload) g))
     = data_queue g ++ [DATA m]
  /\ frequency m = z0 /\ rpm m = z1 /\ filtered_freq m = z2
  /\ filtered_rpm m = z3 /\ total_revs m = z4 /\ raw_pulses m = z5
  /\ pulse_interval m = z6 /\ timestamp m = z7.
Proof.
  intros H m.
  pose proof (map_length_eq _ _ _ _ H) as Hlen. cbn in Hlen.
  rewrite (data_frame_ok payload z0 z1 z2 z3 z4 z5 z6 z7 g).
  - repeat split.
  - rewrite Hlen. apply Nat.le_refl.
  - rewrite firstn_all2 by (rewrite Hlen; apply Nat.le_refl). exact H.
Qed.

(** The same for a payload written out as 8 literals that [int] accepts,
    joined by commas: such a payload splits back into the 8 literals. *)
Lemma data_line_of_literals (s0 s1 s2 s3 s4 s5 s6 s7 : string)
  (z0 z1 z2 z3 z4 z5 z6 z7 : Z) (g : Gui) :
  parse_int s0 = Some z0 -> parse_int s1 = Some z1 ->
  parse_int s2 = Some z2 -> parse_int s3 = Some z3 ->
  parse_int s4 = Some z4 -> parse_int s5 = Some z5 ->
  parse_int s6 = Some z6 -> parse_int s7 = Some z7 ->
  split "," (join "," [s0; s1; s2; s3; s4; s5; s6; s7])
    = [s0; s1; s2; s3; s4; s5; s6; s7]
  /\ data_queue
       (fst (process_incoming_data
               ("DATA:" +++ join "," [s0; s1; s2; s3; s4; s5; s6; s7]) g))
     = data_queue g ++ [DATA (mkMeasurement z0 z1 z2 z3 z4 z5 z6 z7)].
Proof.
  intros H0 H1 H2 H3 H4 H5 H6 H7.
  assert (E : split "," (join "," [s0; s1; s2; s3; s4; s5; s6; s7])
              = [s0; s1; s2; s3; s4; s5; s6; s7]).
  { apply split_join; [discriminate|].
    repeat (apply Forall_cons;
            [eapply parse_int_free; eassumption|]).
    apply Forall_nil. }
  split; [exact E|].
  rewrite (data_frame_ok _ z0 z1 z2 z3 z4 z5 z6 z7 g).
  - reflexivity.
  - rewrite E. cbn. lia.
  - rewrite E. cbn [firstn map]. rewrite H0, H1, H2, H3, H4, H5, H6, H7.
    reflexivity.
Qed.

(** C9: a [DATA] or [CONFIG] line whose payload has more than 8
    comma-separated fields, the first 8 of them integers, still yields the
    Measurement or ConfigSnapshot event built from the first 8 fields; the
    extra fields are ignored without a warning or an error (the only log
    call is the one that reports success). *)
Theorem extra_fields_are_ignored (payload : string)
  (z0 z1 z2 z3 z4 z5 z6 z7 : Z) (g : Gui) :
  8 < List.length (split "," payload) ->
  map parse_int (firstn 8 (split "," payload))
    = map Some [z0; z1; z2; z3; z4; z5; z6; z7] ->
  let data := fst (process_incoming_data ("DATA:" +++ payload) g) in
  let conf := fst (process_incoming_data ("CONFIG:" +++ payload) g) in
  (data_queue data
     = data_queue g ++ [DATA (mkMeasurement z0 z1 z2 z3 z4 z5 z6 z7)]
   /\ log_calls data
     = log_calls g ++
       [(TRACE, process_header +++ ": Parsed measurement data successfully")]
   /\ log_text data = log_text g)
  /\
  (data_queue conf
     = data_queue g ++
       [CONFIG (mkConfig z0 z1 z2 z3 z4 (bool_of_int z5) z6 z7)]
   /\ log_calls conf
     = log_calls g ++
       [(DEBUG, process_header +++ ": Configuration data received and parsed")]
   /\ log_text conf = log_text g).
Proof.
  intros Hlen H data conf. subst data conf.
  rewrite (data_frame_ok payload z0 z1 z2 z3 z4 z5 z6 z7 g) by (lia || exact H).
  rewrite (config_frame_ok payload z0 z1 z2 z3 z4 z5 z6 z7 g) by (lia || exact H).
  repeat split.
Qed.

(** C2 (as amended): a [DATA] or [CONFIG] line whose payload has fewer than
    8 comma-separated fields is dropped in silence: the call returns
    normally and leaves the object as it was, so no event of any kind is
    queued (no Measurement, no ConfigSnapshot, no RawLine) and no log
    record is made at any level. *)
Theorem short_frame_is_dropped_silently (payload : string) (g : Gui) :
  List.length (split "," payload) < 8 ->
  process_incoming_data ("DATA:" +++ payload) g = (g, Ok tt)
  /\ process_incoming_data ("CONFIG:" +++ payload) g = (g, Ok tt).
Proof.
  intros Hlen.
  assert (E : (8 <=? List.length (split "," payload)) = false)
    by (apply Nat.leb_gt; exact Hlen).
  unfold TachometerGUI.process_incoming_data, try_except.
  change (startswith ("DATA:" +++ payload) "DATA:") with true.
  change (slice_from 5 ("DATA:" +++ payload)) with payload.
  change (startswith ("CONFIG:" +++ payload) "DATA:") with false.
  change (startswith ("CONFIG:" +++ payload) "CONFIG:") with true.
  change (slice_from 7 ("CONFIG:" +++ payload)) with payload.
  rewrite E. split; reflexivity.
Qed.

(** Parsing the fields reads the object without changing it, and its
    outcome depends on the fields alone. *)
Ltac step_parse :=
  match goal with
  | |- context [nth_error ?l ?n] => destruct (nth_error l n)
  | |- context [int ?a ?b ?s] => destruct (int a b s)
  end; cbn [fst snd]; try reflexivity.

Lemma parse_data_runs (values : list string) (g g0 : Gui) :
  parse_data values g = (g, snd (parse_data values g0)).
Proof.
  unfold TachometerGUI.parse_data, TachometerGUI.int_of, getitem, bind, lift,
    ret, raise.
  repeat step_parse.
Qed.

Lemma parse_config_runs (values : list string) (g g0 : Gui) :
  parse_config values g = (g, snd (parse_config values g0)).
Proof.
  unfold TachometerGUI.parse_config, TachometerGUI.int_of, getitem, bind,
    lift, ret, raise.
  repeat step_parse.
Qed.

Local Abbreviation decode := (TachometerGUI.decode max_str_digits int_error_text).
Local Abbreviation blank := (init (mkSerial [] [] None)).

(** Decoding a line returns normally, leaves the port and the command queue
    alone and queues the events of the line, of which there is at most
    one. *)
Lemma process_footprint (line : string) (g : Gui) :
  exists g',
    process_incoming_data line g = (g', Ok tt)
    /\ serial_port g' = serial_port g
    /\ command_queue g' = command_queue g
    /\ data_queue g' = data_queue g ++ decode line
    /\ List.length (decode line) <= 1.
Proof.
  unfold TachometerGUI.decode, TachometerGUI.process_incoming_data, try_except.
  destruct (startswith line "DATA:").
  { destruct (8 <=? _).
    - rewrite (bind_run (parse_data _) _ g), (bind_run (parse_data _) _ blank).
      rewrite (parse_data_runs _ g blank), (parse_data_runs _ blank blank).
      cbn [snd]. destruct (snd (parse_data _ blank)) as [m|e].
      + eexists. split; [reflexivity|]. cbn. repeat split. lia.
      + eexists. split; [reflexivity|]. cbn. rewrite app_nil_r.
        repeat split. lia.
    - exists g. cbn. rewrite app_nil_r. repeat split. lia. }
  destruct (startswith line "CONFIG:").
  { destruct (8 <=? _).
    - rewrite (bind_run (parse_config _) _ g),
        (bind_run (parse_config _) _ blank).
      rewrite (parse_config_runs _ g blank), (parse_config_runs _ blank blank).
      cbn [snd]. destruct (snd (parse_config _ blank)) as [c|e].
      + eexists. split; [reflexivity|]. cbn. repeat split. lia.
      + eexists. split; [reflexivity|]. cbn. rewrite app_nil_r.
        repeat split. lia.
    - exists g. cbn. rewrite app_nil_r. repeat split. lia. }
  destruct (startswith line "RESP:").
  { eexists. split; [reflexivity|]. cbn. repeat split. lia. }
  destruct (startswith line "TACH:").
  { eexists. split; [reflexivity|]. cbn. repeat split. lia. }
  eexists. split; [reflexivity|]. cbn. repeat split. lia.
Qed.

Lemma process_returns (line : string) (g : Gui) :
  process_incoming_data line g = (fst (process_incoming_data line g), Ok tt).
Proof.
  destruct (process_footprint line g) as (g' & E & _).
  rewrite E. reflexivity.
Qed.

Lemma startswith_tag (t line : string) :
  colon_free t = true ->
  startswith line (t +++ ":") = true ->
  tag_of line = Some t.
Proof.
  revert line. induction t as [|a t IH]; intros line Hfree Hstart.
  - destruct line as [|b r]; [discriminate Hstart|].
    cbn [startswith String.append] in Hstart.
    apply andb_true_iff in Hstart. destruct Hstart as [E _].
    apply Ascii.eqb_eq in E. subst b. reflexivity.
  - destruct line as [|b r]; [discriminate Hstart|].
    cbn [startswith String.append] in Hstart.
    apply andb_true_iff in Hstart. destruct Hstart as [E Hs].
    apply Ascii.eqb_eq in E. subst b.
    unfold colon_free, free_of in Hfree. cbn [all_chars] in Hfree.
    apply andb_true_iff in Hfree. destruct Hfree as [Ha Hfree].
    apply negb_true_iff in Ha.
    cbn [tag_of]. rewrite Ha. rewrite (IH r Hfree Hs). reflexivity.
Qed.

(** C7: a line whose tag is none of DATA, CONFIG, RESP and TACH (a line
    without a colon has no tag) decodes to exactly one RawLine event that
    carries the whole line, and the line is reported by one call of
    [Log.warning]; nothing else changes. *)
Theorem unknown_tag_is_raw (line : string) (g : Gui) :
  tag_of line <> Some "DATA" ->
  tag_of line <> Some "CONFIG" ->
  tag_of line <> Some "RESP" ->
  tag_of line <> Some "TACH" ->
  process_incoming_data line g =
  (with_log_calls
     (log_calls g ++
      [(WARNING, process_header +++ ": Unknown message format: " +++ line)])
     (with_data_queue (data_queue g ++ [RAW line]) g),
   Ok tt).
Proof.
  intros HD HC HR HT.
  unfold TachometerGUI.process_incoming_data, try_except.
  destruct (startswith line "DATA:") eqn:ED.
  { contradiction HD. apply startswith_tag; [reflexivity | exact ED]. }
  destruct (startswith line "CONFIG:") eqn:EC.
  { contradiction HC. apply startswith_tag; [reflexivity | exact EC]. }
  destruct (startswith line "RESP:") eqn:ER.
  { contradiction HR. apply startswith_tag; [reflexivity | exact ER]. }
  destruct (startswith line "TACH:") eqn:ET.
  { contradiction HT. apply startswith_tag; [reflexivity | exact ET]. }
  reflexivity.
Qed.

(** ** The worker *)

Lemma send_pending_loop_done (q : list string) (g g1 : Gui) :
  command_queue g = q ->
  send_pending_loop (List.length q) g = (g1, Ok tt) ->
  command_queue g1 = []
  /\ wire (serial_port g1) = wire (serial_port g) ++ sent q
  /\ rx (serial_port g1) = rx (serial_port g)
  /\ data_queue g1 = data_queue g.
Proof.
  revert g. induction q as [|c rest IH]; intros g Hq Hrun.
  - cbn in Hrun. injection Hrun as <-. rewrite Hq. cbn. rewrite app_nil_r.
    repeat split.
  - destruct g as [[r w b] dq cq ic st t1 t2 t3 t4 cd cf lc lt dl].
    cbn in Hq. subst cq. cbn [List.length send_pending_loop] in Hrun.
    destruct b as [[|[|n]]|]; run_method_in Hrun; try discriminate Hrun.
    + apply IH in Hrun; [|reflexivity].
      destruct Hrun as (H1 & H2 & H3 & H4).
      cbn [serial_port wire rx data_queue] in H2, H3, H4 |- *.
      split; [exact H1|]. split; [|split; assumption].
      rewrite H2, <- !app_assoc. reflexivity.
    + apply IH in Hrun; [|reflexivity].
      destruct Hrun as (H1 & H2 & H3 & H4).
      cbn [serial_port wire rx data_queue] in H2, H3, H4 |- *.
      split; [exact H1|]. split; [|split; assumption].
      rewrite H2, <- !app_assoc. reflexivity.
Qed.

Lemma send_pending_loop_returns (q : list string) (g : Gui) :
  command_queue g = q ->
  budget (serial_port g) = None ->
  exists g1,
    send_pending_loop (List.length q) g = (g1, Ok tt)
    /\ budget (serial_port g1) = None.
Proof.
  revert g. induction q as [|c rest IH]; intros g Hq Hb.
  - exists g. split; [reflexivity | exact Hb].
  - destruct g as [[r w b] dq cq ic st t1 t2 t3 t4 cd cf lc lt dl].
    cbn in Hq, Hb. subst cq b. cbn [List.length send_pending_loop].
    run_method. apply IH; reflexivity.
Qed.

Lemma read_incoming_done (g g' : Gui) :
  read_incoming g = (g', Ok tt) ->
  command_queue g' = command_queue g
  /\ exists reads,
       wire (serial_port g') = wire (serial_port g) ++ reads
       /\ (reads = []
           /\ rx (serial_port g') = rx (serial_port g)
           /\ data_queue g' = data_queue g
           \/
           reads = [ReadLine (hd "" (rx (serial_port g)))]
           /\ rx (serial_port g') = tl (rx (serial_port g))
           /\ data_queue g'
              = data_queue g ++
                (if String.eqb (strip (hd "" (rx (serial_port g)))) ""
                 then [] else decode (strip (hd "" (rx (serial_port g)))))).
Proof.
  intros Hrun.
  destruct g as [[r w b] dq cq ic st t1 t2 t3 t4 cd cf lc lt dl].
  unfold TachometerGUI.read_incoming in Hrun.
  assert (Hidle :
    (dq, cq, w, r) = (data_queue g', command_queue g',
                      wire (serial_port g'), rx (serial_port g')) ->
    command_queue g' = cq
    /\ exists reads,
         wire (serial_port g') = w ++ reads
         /\ (reads = [] /\ rx (serial_port g') = r /\ data_queue g' = dq
             \/
             reads = [ReadLine (hd "" r)]
             /\ rx (serial_port g') = tl r
             /\ data_queue g'
                = dq ++ (if String.eqb (strip (hd "" r)) "" then []
                         else decode (strip (hd "" r))))).
  { intros E. injection E as E1 E2 E3 E4. split; [symmetry; exact E2|].
    exists []. rewrite app_nil_r. split; [symmetry; exact E3|].
    left. repeat split; symmetry; assumption. }
  assert (Hread : forall b',
    (if negb (String.eqb (strip (hd "" r)) "")
     then
       fun s =>
         process_incoming_data (strip (hd "" r))
           (with_log_calls
              (log_calls s ++
               [(TRACE, thread_header +++ ": Received: "
                                      +++ strip (hd "" r))]) s)
     else fun s => (s, Ok tt))
      (mkGui (mkSerial (tl r) (w ++ [ReadLine (hd "" r)]) b')
             dq cq ic st t1 t2 t3 t4 cd cf lc lt dl)
    = (g', Ok tt) ->
    command_queue g' = cq
    /\ exists reads,
         wire (serial_port g') = w ++ reads
         /\ (reads = [] /\ rx (serial_port g') = r /\ data_queue g' = dq
             \/
             reads = [ReadLine (hd "" r)]
             /\ rx (serial_port g') = tl r
             /\ data_queue g'
                = dq ++ (if String.eqb (strip (hd "" r)) "" then []
                         else decode (strip (hd "" r))))).
  { intros b' E.
    destruct (String.eqb (strip (hd "" r)) ""); cbn [negb] in E;
      cbv beta in E.
    - injection E as <-. cbn. split; [reflexivity|].
      eexists. split; [reflexivity|]. right. rewrite app_nil_r. repeat split.
    - match type of E with
      | process_incoming_data ?line ?gm = _ =>
          destruct (process_footprint line gm) as (g2 & E2 & Hp & Hq & Hd & _)
      end.
      rewrite E2 in E. injection E as <-.
      rewrite Hp, Hq, Hd. cbn. split; [reflexivity|].
      eexists. split; [reflexivity|]. right. repeat split. }
  cbn [serial_port rx wire data_queue command_queue].
  destruct b as [[|[|n]]|]; run_method_in Hrun; try discriminate Hrun;
    destruct (0 <? String.length (String.concat "" r));
    try discriminate Hrun;
    try (apply Hidle; injection Hrun as <-; reflexivity);
    destruct r as [|l rest]; cbn [hd tl] in Hread;
    try (eapply Hread; exact Hrun).
Qed.

Lemma read_incoming_returns (g : Gui) :
  budget (serial_port g) = None ->
  snd (read_incoming g) = Ok tt.
Proof.
  intros Hb.
  destruct g as [[r w b] dq cq ic st t1 t2 t3 t4 cd cf lc lt dl].
  cbn in Hb. subst b. unfold TachometerGUI.read_incoming. run_method.
  destruct (0 <? String.length (String.concat "" r)); run_method;
    [|reflexivity].
  destruct r as [|l rest]; run_method;
    (destruct (negb _); run_method; [|reflexivity]);
    rewrite process_returns; reflexivity.
Qed.

(** C3: an iteration of the running loop on a port that does not fail
    returns normally; and in every iteration that returns normally the
    worker first empties the command queue, writing each command [c] as the
    frame [CMD:c] followed by a newline, in the order in which the commands
    were queued, and only then reads at most one line, which, unless blank,
    is decoded and whose event (if the decoder produces one) is put on the
    event queue. *)
Theorem worker_iteration_drains_then_reads (g : Gui) :
  (budget (serial_port g) = None -> snd (worker_iteration g) = Ok tt)
  /\
  (forall g',
     worker_iteration g = (g', Ok tt) ->
     command_queue g' = []
     /\ (exists reads,
           wire (serial_port g')
             = wire (serial_port g) ++ sent (command_queue g) ++ reads
           /\ (reads = []
               /\ rx (serial_port g') = rx (serial_port g)
               /\ data_queue g' = data_queue g
               \/
               reads = [ReadLine (hd "" (rx (serial_port g)))]
               /\ rx (serial_port g') = tl (rx (serial_port g))
               /\ data_queue g'
                  = data_queue g ++
                    (if String.eqb (strip (hd "" (rx (serial_port g)))) ""
                     then []
                     else decode (strip (hd "" (rx (serial_port g)))))))
     /\ List.length (data_queue g') <= List.length (data_queue g) + 1).
Proof.
  split.
  - intros Hb. unfold TachometerGUI.worker_iteration, send_pending.
    rewrite bind_run. rewrite bind_run. unfold get at 1.
    destruct (send_pending_loop_returns (command_queue g) g eq_refl Hb)
      as (g1 & E & Hb1).
    rewrite E. apply read_incoming_returns. exact Hb1.
  - intros g' Hrun.
    unfold TachometerGUI.worker_iteration, send_pending in Hrun.
    rewrite bind_run in Hrun. rewrite bind_run in Hrun. unfold get at 1 in Hrun.
    destruct (send_pending_loop _ g) as [g1 [[]|e]] eqn:E;
      [|discriminate Hrun].
    apply (send_pending_loop_done _ g g1 eq_refl) in E.
    destruct E as (Q1 & W1 & R1 & D1).
    apply read_incoming_done in Hrun.
    destruct Hrun as (Q2 & reads & W2 & Hcase).
    rewrite R1, D1 in Hcase.
    split; [rewrite Q2; exact Q1|].
    split.
    + exists reads. split; [rewrite W2, W1, app_assoc; reflexivity|].
      exact Hcase.
    + destruct (process_footprint (strip (hd "" (rx (serial_port g)))) g)
        as (_ & _ & _ & _ & _ & Hone).
      destruct Hcase as [(_ & _ & ->)|(_ & _ & ->)]; [lia|].
      rewrite length_app.
      destruct (String.eqb _ ""); cbn [List.length]; lia.
Qed.

(** ** Sending a command *)

Lemma send_pending_loop_frame (fuel : nat) (g1 g2 : Gui) :
  same_traffic g1 g2 ->
  same_traffic (fst (send_pending_loop fuel g1))
               (fst (send_pending_loop fuel g2))
  /\ snd (send_pending_loop fuel g1) = snd (send_pending_loop fuel g2).
Proof.
  revert g1 g2. induction fuel as [|fuel IH]; intros g1 g2 [Hp Hq].
  - cbn. repeat split; assumption.
  - destruct g1 as [[r w b] dq cq ic st t1 t2 t3 t4 cd cf lc lt dl].
    destruct g2 as [p' dq' cq' ic' st' t1' t2' t3' t4' cd' cf' lc' lt' dl'].
    cbn in Hp, Hq. subst p' cq'. cbn [send_pending_loop].
    destruct cq as [|c rest]; [run_method; repeat split|].
    destruct b as [[|[|n]]|]; run_method; try (repeat split; fail);
      apply IH; split; reflexivity.
Qed.

Lemma read_incoming_frame (g1 g2 : Gui) :
  same_traffic g1 g2 ->
  serial_port (fst (read_incoming g1)) = serial_port (fst (read_incoming g2)).
Proof.
  intros [Hp Hq].
  destruct g1 as [[r w b] dq cq ic st t1 t2 t3 t4 cd cf lc lt dl].
  destruct g2 as [p' dq' cq' ic' st' t1' t2' t3' t4' cd' cf' lc' lt' dl'].
  cbn in Hp, Hq. subst p' cq'. unfold TachometerGUI.read_incoming.
  destruct b as [[|[|n]]|]; run_method; try reflexivity;
    (destruct (0 <? String.length (String.concat "" r)); run_method;
     [|reflexivity]);
    try reflexivity;
    destruct r as [|l rest]; run_method;
    (destruct (negb _); run_method; [|reflexivity]);
    repeat match goal with
    | |- context [process_incoming_data ?line ?gm] =>
        let g2 := fresh "g" in
        let E := fresh "E" in
        let Hp := fresh "Hp" in
        destruct (process_footprint line gm) as (g2 & E & Hp & _);
        rewrite E; cbn [fst]; rewrite Hp; clear E Hp
    end; reflexivity.
Qed.

Lemma worker_iteration_frame (g1 g2 : Gui) :
  same_traffic g1 g2 ->
  serial_port (fst (worker_iteration g1))
  = serial_port (fst (worker_iteration g2)).
Proof.
  intros H. unfold TachometerGUI.worker_iteration, send_pending.
  rewrite !bind_run. unfold get.
  replace (List.length (command_queue g2))
    with (List.length (command_queue g1)) by (destruct H as [_ ->]; reflexivity).
  destruct (send_pending_loop_frame (List.length (command_queue g1)) g1 g2 H)
    as [Hs Hr].
  destruct (send_pending_loop _ g1) as [a1 r1], (send_pending_loop _ g2) as [a2 r2].
  cbn [fst snd] in Hs, Hr. subst r2. destruct r1 as [[]|e].
  - apply read_incoming_frame. exact Hs.
  - destruct Hs as [Hs _]. exact Hs.
Qed.

(** C10: a call of [send_command] while the connection flag is false leaves
    the command queue and the serial port as they were, so that nothing is
    transmitted for it: the loop test of the worker fails on the object,
    and an iteration of the worker would do to the port what it would have
    done without the call.  The command is dropped, with one warning
    logged, one warning line on the log panel and one message box.  The
    command is put on the queue if and only if the flag is true at the time
    of the call. *)
Theorem send_command_needs_connection (command : string) (g : Gui) :
  snd (send_command command g) = Ok tt
  /\ serial_port (fst (send_command command g)) = serial_port g
  /\ command_queue (fst (send_command command g))
     = (if is_connected g then command_queue g ++ [command]
        else command_queue g)
  /\ (command_queue (fst (send_command command g))
       = command_queue g ++ [command]
     <-> is_connected g = true)
  /\ (is_connected g = false ->
      command_queue (fst (send_command command g)) = command_queue g
      /\ worker_cycle (fst (send_command command g))
         = (fst (send_command command g), Ok false)
      /\ serial_port (fst (worker_iteration (fst (send_command command g))))
         = serial_port (fst (worker_iteration g))
      /\ filter is_warning (skipn (List.length (log_calls g))
                              (log_calls (fst (send_command command g))))
         = [(WARNING,
             ("TachometerGUI.send_command(command=" +++ command +++ ")")
             +++ ": Cannot send command - not connected")]
      /\ log_text (fst (send_command command g))
         = log_text g ++ [("Cannot send command: Not connected", "WARNING")]
      /\ dialogs (fst (send_command command g))
         = dialogs g ++ [("Warning", "Not connected to Arduino")]).
Proof.
  assert (Hframe : is_connected g = false ->
            same_traffic (fst (send_command command g)) g).
  { intros Hc. destruct g as [p dq cq ic st t1 t2 t3 t4 cd cf lc lt dl].
    cbn in Hc. subst ic. unfold send_command. run_method.
    split; reflexivity. }
  split; [|split; [|split; [|split]]].
  5:{ intros Hc. split; [apply (Hframe Hc)|].
      split; [|split; [apply worker_iteration_frame, Hframe, Hc|]];
        destruct g as [p dq cq ic st t1 t2 t3 t4 cd cf lc lt dl];
        cbn in Hc; subst ic; unfold send_command; run_method.
      { unfold TachometerGUI.worker_cycle. run_method.
        rewrite andb_false_r. reflexivity. }
      split; [|split; reflexivity].
      rewrite <- !app_assoc. rewrite (skipn_past lc).
      reflexivity. }
  all: destruct g as [p dq cq ic st t1 t2 t3 t4 cd cf lc lt dl];
    unfold send_command; destruct ic; run_method; try reflexivity.
  - split; intros; reflexivity.
  - split; [|intros H; discriminate H].
    intros H. exfalso. apply (f_equal (@List.length string)) in H.
    rewrite length_app in H. cbn in H. lia.
Qed.

End Facts.

(** ** The chart history buffers *)

Lemma tl_skipn_snoc {A : Type} (l : list A) (x : A) (k : nat) :
  k <= List.length l ->
  tl (skipn k l ++ [x]) = skipn (S k) (l ++ [x]).
Proof.
  revert k. induction l as [|a l IH]; intros k Hk.
  - cbn in Hk. assert (k = 0) by lia. subst k. reflexivity.
  - destruct k as [|k]; [reflexivity|].
    cbn in Hk. cbn [skipn app]. apply IH. lia.
Qed.

Lemma length_last_n {A : Type} (n : nat) (l : list A) :
  List.length (last_n n l) = Nat.min n (List.length l).
Proof. unfold last_n. rewrite length_skipn. lia. Qed.

Lemma deque_append_last {A : Type} (n : nat) (l : list A) (x : A) :
  deque_append (mkDeque (last_n n l) n) x = mkDeque (last_n n (l ++ [x])) n.
Proof.
  unfold deque_append. cbn [items maxlen]. f_equal.
  rewrite length_app, length_last_n. cbn [List.length].
  unfold last_n. rewrite length_app. cbn [List.length].
  destruct (Nat.ltb_spec n (Nat.min n (List.length l) + 1)) as [H|H].
  - replace (List.length l + 1 - n) with (S (List.length l - n)) by lia.
    apply tl_skipn_snoc. lia.
  - replace (List.length l - n) with 0 by lia.
    replace (List.length l + 1 - n) with 0 by lia. reflexivity.
Qed.

Lemma fold_append_from {A : Type} (n : nat) (xs l : list A) :
  fold_left deque_append xs (mkDeque (last_n n l) n)
  = mkDeque (last_n n (l ++ xs)) n.
Proof.
  revert l. induction xs as [|x xs IH]; intros l.
  - rewrite app_nil_r. reflexivity.
  - cbn [fold_left]. rewrite deque_append_last, IH, <- app_assoc. reflexivity.
Qed.

Lemma fold_append_new {A : Type} (n : nat) (xs : list A) :
  fold_left deque_append xs (deque_new n) = mkDeque (last_n n xs) n.
Proof. exact (fold_append_from n xs []). Qed.

Lemma add_data_to_plot_runs (data : Measurement) (current_time : Z)
  (g : Gui) :
  add_data_to_plot data current_time g =
  (with_log_calls
     (log_calls g ++
      [(TRACE,
        "TachometerGUI.add_data_to_plot()"
          +++ ": Plot data point added successfully")])
     (with_plot_data
        (deque_append (time_data g) current_time)
        (deque_append (rpm_data g) (rpm data))
        (deque_append (filtered_rpm_data g) (filtered_rpm data))
        (deque_append (frequency_data g) (frequency data)) g),
   Ok tt).
Proof.
  destruct g as [p dq cq ic st t1 t2 t3 t4 cd cf lc lt dl].
  unfold add_data_to_plot. run_method. reflexivity.
Qed.

Lemma plot_all_series (ms : list (Measurement * Z)) (g : Gui) :
  time_data (plot_all ms g)
    = fold_left deque_append (map snd ms) (time_data g)
  /\ rpm_data (plot_all ms g)
    = fold_left deque_append (map (fun mt => rpm (fst mt)) ms) (rpm_data g)
  /\ filtered_rpm_data (plot_all ms g)
    = fold_left deque_append (map (fun mt => filtered_rpm (fst mt)) ms)
        (filtered_rpm_data g)
  /\ frequency_data (plot_all ms g)
    = fold_left deque_append (map (fun mt => frequency (fst mt)) ms)
        (frequency_data g).
Proof.
  revert g. induction ms as [|[m t] ms IH]; intros g.
  - repeat split.
  - change (plot_all ((m, t) :: ms) g)
      with (plot_all ms (fst (add_data_to_plot m t g))).
    rewrite add_data_to_plot_runs. cbn [fst map fold_left snd].
    match goal with |- context [plot_all ms ?g'] => exact (IH g') end.
Qed.

(** C8 (as amended): the history buffers have capacity 100.  An append to a
    full buffer pushes out exactly its oldest element and keeps the length;
    an append to a buffer that is not full pushes out nothing.  So after any
    series of appends a buffer holds the last 100 values in insertion
    order, and so do the four chart series after any series of
    measurements.  Appending the values 1 to 150 leaves 51 to 150: the 1st
    value is pushed out by the 101st append, and the 150th append pushes
    out the 50th value. *)
Theorem ring_buffer_keeps_last_100 :
  (forall (d : deque Z) (x : Z),
      maxlen d = 100 -> List.length (items d) = 100 ->
      items (deque_append d x) = tl (items d) ++ [x]
      /\ deque_evicted d x = hd_error (items d)
      /\ List.length (items (deque_append d x)) = 100)
  /\ (forall (d : deque Z) (x : Z),
      maxlen d = 100 -> List.length (items d) < 100 ->
      items (deque_append d x) = items d ++ [x]
      /\ deque_evicted d x = None)
  /\ (forall xs : list Z,
      items (fold_left deque_append xs (deque_new 100)) = last_n 100 xs)
  /\ (forall (ms : list (Measurement * Z)) (port : Serial),
      items (time_data (plot_all ms (init port)))
        = last_n 100 (map snd ms)
      /\ items (rpm_data (plot_all ms (init port)))
        = last_n 100 (map (fun mt => rpm (fst mt)) ms)
      /\ items (filtered_rpm_data (plot_all ms (init port)))
        = last_n 100 (map (fun mt => filtered_rpm (fst mt)) ms)
      /\ items (frequency_data (plot_all ms (init port)))
        = last_n 100 (map (fun mt => frequency (fst mt)) ms))
  /\ items (fold_left deque_append (map Z.of_nat (seq 1 150)) (deque_new 100))
     = map Z.of_nat (seq 51 100)
  /\ deque_evicted
       (fold_left deque_append (map Z.of_nat (seq 1 100)) (deque_new 100))
       101%Z = Some 1%Z
  /\ deque_evicted
       (fold_left deque_append (map Z.of_nat (seq 1 149)) (deque_new 100))
       150%Z = Some 50%Z.
Proof.
  split.
  { intros [l n] x Hn Hl. cbn in Hn, Hl. subst n.
    unfold deque_append, deque_evicted. cbn [items maxlen].
    rewrite length_app, Hl. cbn [List.length Nat.add Nat.ltb Nat.leb].
    destruct l as [|a l]; [discriminate Hl|]. cbn in Hl.
    cbn [app tl hd_error List.length]. rewrite length_app. cbn.
    repeat split. lia. }
  split.
  { intros [l n] x Hn Hl. cbn in Hn, Hl. subst n.
    unfold deque_append, deque_evicted. cbn [items maxlen].
    assert (E : (100 <? List.length (l ++ [x])) = false).
    { apply Nat.ltb_ge. rewrite length_app. cbn. lia. }
    rewrite E. split; reflexivity. }
  split.
  { intros xs. rewrite fold_append_new. reflexivity. }
  split.
  { intros ms port.
    destruct (plot_all_series ms (init port)) as (H1 & H2 & H3 & H4).
    rewrite H1, H2, H3, H4. cbn [init time_data rpm_data filtered_rpm_data
      frequency_data]. unfold max_data_points.
    rewrite !fold_append_new. repeat split. }
  repeat split; vm_compute; reflexivity.
Qed.

End BridgeProperties.

(* ================================================================== *)
(** * Worked examples *)
(* ================================================================== *)
Module Examples.

Import Log TachometerGUI Sample.

(** The example of the specification: one well-formed [DATA] line *)
Lemma data_line_decodes_example :
  map (parse_int digits_limit) (split "," "50,300,48,295,120,4800,2000,123456")
    = map Some [50; 300; 48; 295; 120; 4800; 2000; 123456]%Z
  /\ data_queue
       (fst (process_incoming_data digits_limit invalid_literal
               "DATA:50,300,48,295,120,4800,2000,123456" (init (port []))))
     = [DATA (mkMeasurement 50 300 48 295 120 4800 2000 123456)].
Proof.
  split; [reflexivity|].
  exact (proj1 (proj2
    (BridgeProperties.data_line_decodes digits_limit invalid_literal
       "50,300,48,295,120,4800,2000,123456"
       50 300 48 295 120 4800 2000 123456 (init (port [])) eq_refl))).
Defined.

(** A [CONFIG] line with two fields too many, the last not a number *)
Lemma extra_fields_example :
  8 < List.length (split "," "2,1000,100,1,1,1,800,5,9,zz")
  /\ data_queue
       (fst (process_incoming_data digits_limit invalid_literal
               "CONFIG:2,1000,100,1,1,1,800,5,9,zz" (init (port []))))
     = [CONFIG (mkConfig 2 1000 100 1 1 true 800 5)].
Proof.
  split; [cbn; lia|].
  refine (proj1 (proj2
    (BridgeProperties.extra_fields_are_ignored digits_limit invalid_literal
       "2,1000,100,1,1,1,800,5,9,zz"
       2 1000 100 1 1 1 800 5 (init (port [])) _ eq_refl))).
  cbn; lia.
Defined.

(** A [DATA] line with three fields *)
Lemma short_frame_example :
  List.length (split "," "1,2,3") < 8
  /\ process_incoming_data digits_limit invalid_literal "DATA:1,2,3"
       (init (port []))
     = (init (port []), Ok tt).
Proof.
  assert (H : List.length (split "," "1,2,3") < 8) by (cbn; lia).
  split; [exact H|].
  exact (proj1
    (BridgeProperties.short_frame_is_dropped_silently digits_limit
       invalid_literal "1,2,3" (init (port [])) H)).
Defined.

(** C2, as stated, fails on the line [DATA:1,2,3]: it queues no event, but
    it is not true that exactly one warning is logged, for nothing is
    logged. *)
Lemma short_frame_counterexample :
  ~ (filter is_payload_event
       (data_queue
          (fst (process_incoming_data digits_limit invalid_literal
                  "DATA:1,2,3" (init (port []))))) = []
     /\ List.length
          (filter is_warning
             (log_calls
                (fst (process_incoming_data digits_limit invalid_literal
                        "DATA:1,2,3" (init (port [])))))) = 1).
Proof.
  intros [_ H]. vm_compute in H. discriminate H.
Qed.

(** The example of the specification: an unknown tag *)
Lemma unknown_tag_example :
  tag_of "FOO:bar" = Some "FOO"
  /\ data_queue
       (fst (process_incoming_data digits_limit invalid_literal "FOO:bar"
               (init (port []))))
     = [RAW "FOO:bar"].
Proof.
  split; [reflexivity|].
  refine (f_equal (fun r => data_queue (fst r))
    (BridgeProperties.unknown_tag_is_raw digits_limit invalid_literal
       "FOO:bar" (init (port [])) _ _ _ _));
    intros H; discriminate H.
Defined.

(** Three commands queued by a connected panel, one system line waiting *)
Lemma worker_iteration_example :
  budget (serial_port three_queued) = None
  /\ worker_iteration digits_limit invalid_literal three_queued
     = (fst (worker_iteration digits_limit invalid_literal three_queued),
        Ok tt)
  /\ command_queue
       (fst (worker_iteration digits_limit invalid_literal three_queued)) = []
  /\ wire (serial_port
             (fst (worker_iteration digits_limit invalid_literal
                     three_queued)))
     = [Write ("CMD:GET_CONFIG" +++ nl); Flush;
        Write ("CMD:SET_ALPHA:800" +++ nl); Flush;
        Write ("CMD:RESET_ALL" +++ nl); Flush;
        ReadLine ("TACH:INIT_OK" +++ nl)]
  /\ data_queue
       (fst (worker_iteration digits_limit invalid_literal three_queued))
     = [SYSTEM "INIT_OK"].
Proof.
  destruct (BridgeProperties.worker_iteration_drains_then_reads digits_limit
              invalid_literal three_queued) as [Hret Hdone].
  assert (Hrun :
    worker_iteration digits_limit invalid_literal three_queued
    = (fst (worker_iteration digits_limit invalid_literal three_queued),
       Ok tt)).
  { rewrite <- (Hret eq_refl). apply surjective_pairing. }
  destruct (Hdone _ Hrun) as (Hq & _ & _).
  split; [reflexivity|]. split; [exact Hrun|]. split; [exact Hq|].
  split; reflexivity.
Defined.

(** A format that asks for two arguments and gets one *)
Lemma format_failure_example :
  percent_s "%s of %s" ["rpm"] = Raise "not enough arguments for format string"
  /\ exists s',
       Log._log string percent_s tuple_text WARNING "%s of %s" ["rpm"] clock
         initial = (s', Ok tt)
       /\ produced initial s'
          = [EWrite Stdout
               ("2025-06-28 10:00:00.000 [WARNING] [140001] %s of %s"
                +++ " (Format error: not enough arguments for format string,"
                +++ " Args: ('rpm',))" +++ nl)].
Proof.
  split; [reflexivity|].
  destruct (LogProperties.format_failure_is_logged string percent_s tuple_text
              WARNING "%s of %s" ["rpm"] clock initial
              "not enough arguments for format string")
    as (s' & Hrun & Hout & _).
  - intros H; discriminate H.
  - reflexivity.
  - reflexivity.
  - exists s'. split; [exact Hrun|]. rewrite Hout. reflexivity.
Defined.

(** C4, as stated, fails once the console is disabled and no file sink is
    open: a CRITICAL call passes the threshold DEBUG and yet nothing is
    written. *)
Lemma disabled_console_counterexample :
  ~ (produced (fst (set_console_output false initial))
       (fst (Log._log string percent_s tuple_text CRITICAL "x" [] clock
               (fst (set_console_output false initial)))) <> []
     <-> value (_level (fst (set_console_output false initial)))
           <= value CRITICAL
         /\ _level (fst (set_console_output false initial)) <> NONE).
Proof.
  intros [_ H]. apply H; [|reflexivity].
  split; [cbn; lia | intros E; discriminate E].
Qed.

(** The thresholds of the specification, on the console: with WARNING the
    three lower levels are silent and the three upper ones are printed;
    with NONE every level is silent. *)
Lemma threshold_examples :
  map (fun level =>
         List.length
           (produced (fst (set_level WARNING initial))
              (fst (Log._log string percent_s tuple_text level "m" [] clock
                      (fst (set_level WARNING initial))))))
      [TRACE; DEBUG; INFO; WARNING; ERROR; CRITICAL]
    = [0; 0; 0; 1; 1; 1]
  /\ map (fun level =>
         List.length
           (produced (fst (set_level NONE initial))
              (fst (Log._log string percent_s tuple_text level "m" [] clock
                      (fst (set_level NONE initial))))))
      [TRACE; DEBUG; INFO; WARNING; ERROR; CRITICAL]
    = [0; 0; 0; 0; 0; 0].
Proof. split; reflexivity. Qed.

(** C8, as stated, fails at the 150th append: the value it pushes out is
    not the 1st value, which left the buffer at the 101st append. *)
Lemma ring_buffer_counterexample :
  deque_evicted
    (fold_left deque_append (map Z.of_nat (seq 1 149)) (deque_new 100))
    150%Z <> Some 1%Z.
Proof. vm_compute. intros H. discriminate H. Qed.

End Examples.

(* ================================================================== *)
(** * Properties of the text of numbers *)
(* ================================================================== *)
Module TextProperties.

Import PyText PyProperties.

Local Abbreviation string_of_uint := DecimalString.NilEmpty.string_of_uint.

Lemma uint_digits (d : Decimal.uint) :
  all_chars is_digit (string_of_uint d) = true.
Proof. induction d; cbn [DecimalString.NilEmpty.string_of_uint all_chars]; try rewrite IHd; reflexivity. Qed.

Lemma uint_length (d : Decimal.uint) :
  String.length (string_of_uint d) = Decimal.nb_digits d.
Proof. induction d; cbn; congruence. Qed.

Lemma to_uint_nonnil (n : N) : N.to_uint n <> Decimal.Nil.
Proof.
  intros E. apply (f_equal Decimal.nb_digits) in E.
  destruct n as [|p]; [discriminate E|].
  cbn in E. unfold Pos.to_uint in E. rewrite DecimalFacts.nb_digits_rev in E.
  revert E. clear. induction p; cbn.
  - destruct (Pos.to_little_uint p); cbn; try discriminate; exact IHp.
  - destruct (Pos.to_little_uint p); cbn; try discriminate; exact IHp.
  - discriminate.
Qed.

Lemma digits_of_shape (z : Z) :
  exists c r,
    digits_of z = String c r /\ is_digit c = true
    /\ all_chars is_digit r = true.
Proof.
  unfold digits_of. pose proof (to_uint_nonnil (Z.abs_N z)) as Hn.
  pose proof (uint_digits (N.to_uint (Z.abs_N z))) as Hd.
  destruct (N.to_uint (Z.abs_N z)) as [|d|d|d|d|d|d|d|d|d|d];
    [contradiction Hn; reflexivity|..];
    cbn [DecimalString.NilEmpty.string_of_uint all_chars] in Hd |- *;
    apply andb_true_iff in Hd; destruct Hd as [Hc Hr];
    eexists; eexists; (split; [reflexivity|]); split; assumption.
Qed.

(** Scanning the digits of a number: from a positive accumulator and from
    zero *)
Lemma scan_uint_pos (d : Decimal.uint) (p : positive) (n : nat) :
  scan_digits (string_of_uint d) false (Z.pos p) n
  = Some (Z.pos (Pos.of_uint_acc d p), n + Decimal.nb_digits d, EmptyString).
Proof.
  revert p n.
  induction d; intros p n;
    cbn [DecimalString.NilEmpty.string_of_uint scan_digits Decimal.nb_digits
         Pos.of_uint_acc];
    [rewrite Nat.add_0_r; reflexivity|..];
    match goal with
    | |- context [is_underscore ?c] =>
        change (is_underscore c) with false; cbv iota
    end;
    match goal with
    | |- context [digit_value ?c] =>
        let v := eval vm_compute in (digit_value c) in
        change (digit_value c) with v; cbv iota
    end;
    match goal with
    | |- scan_digits _ false ?a _ = Some (Z.pos (Pos.of_uint_acc _ ?q), _, _) =>
        replace a with (Z.pos q) by lia
    end;
    rewrite IHd, Nat.add_succ_comm; reflexivity.
Qed.

Lemma scan_uint_zero (d : Decimal.uint) (n : nat) :
  scan_digits (string_of_uint d) false 0%Z n
  = Some (Z.of_N (Pos.of_uint d), n + Decimal.nb_digits d, EmptyString).
Proof.
  revert n.
  induction d; intros n;
    cbn [DecimalString.NilEmpty.string_of_uint scan_digits Decimal.nb_digits
         Pos.of_uint];
    [rewrite Nat.add_0_r; reflexivity|..];
    match goal with
    | |- context [is_underscore ?c] =>
        change (is_underscore c) with false; cbv iota
    end;
    match goal with
    | |- context [digit_value ?c] =>
        let v := eval vm_compute in (digit_value c) in
        change (digit_value c) with v; cbv iota
    end;
    cbn [Z.mul Z.add];
    [rewrite IHd, Nat.add_succ_comm; reflexivity|..];
    match goal with
    | |- scan_digits _ false (Z.pos ?q) _ = _ =>
        rewrite (scan_uint_pos d q), Nat.add_succ_comm; reflexivity
    end.
Qed.

Lemma digit_is (p : ascii -> bool) (c : ascii) :
  (forall a, is_digit a = true -> p a = false) ->
  is_digit c = true -> p c = false.
Proof. intros H. apply H. Qed.

Lemma digit_cases (c : ascii) :
  is_digit c = true ->
  int_space c = false /\ is_underscore c = false
  /\ Ascii.eqb "-" c = false /\ Ascii.eqb "+" c = false
  /\ Ascii.eqb "_" c = false /\ Ascii.eqb c "," = false
  /\ Ascii.eqb c "." = false.
Proof.
  destruct c as [[] [] [] [] [] [] [] []]; intros H;
    try discriminate H; repeat split.
Qed.

(** [int(str(z))] is [z]: what [str] renders under a digit limit, [int]
    parses back under the same limit. *)
Lemma int_of_str (max_str_digits : nat) (str_error_text : Z -> string)
  (z : Z) (s : string) :
  str_int max_str_digits str_error_text z = Ok s ->
  parse_int max_str_digits s = Some z.
Proof.
  unfold str_int, int_text. destruct (over_limit _ _) eqn:Hlim; [discriminate|].
  intros E. injection E as <-.
  destruct (digits_of_shape z) as (c & r & Hds & Hc & Hr).
  destruct (digit_cases c Hc) as (Hsp & Hus & Hminus & Hplus & Hus' & _).
  assert (Hscan : scan_digits (digits_of z) false 0%Z 0
                  = Some (Z.of_N (Z.abs_N z),
                          String.length (digits_of z), EmptyString)).
  { unfold digits_of. rewrite scan_uint_zero, uint_length.
    change (Pos.of_uint (N.to_uint (Z.abs_N z)))
      with (N.of_uint (N.to_uint (Z.abs_N z))).
    rewrite DecimalN.Unsigned.of_to. reflexivity. }
  assert (Hlen : (String.length (digits_of z) =? 0) = false).
  { rewrite Hds. reflexivity. }
  assert (Hbody : startswith (digits_of z) "_" = false)
    by (rewrite Hds; cbn [startswith]; rewrite Hus'; reflexivity).
  assert (Hm : startswith (digits_of z) "-" = false)
    by (rewrite Hds; cbn [startswith]; rewrite Hminus; reflexivity).
  assert (Hp : startswith (digits_of z) "+" = false)
    by (rewrite Hds; cbn [startswith]; rewrite Hplus; reflexivity).
  assert (Hstrip : lstrip_with int_space (digits_of z) = digits_of z)
    by (rewrite Hds; cbn [lstrip_with]; rewrite Hsp; reflexivity).
  unfold parse_int.
  destruct (z <? 0)%Z eqn:Hneg.
  - cbn [lstrip_with]. change (int_space "-") with false. cbv iota.
    change (startswith (String "-" (digits_of z)) "-") with true.
    cbn [orb slice_from]. rewrite Hbody, Hscan, Hlen, Hlim. cbn.
    f_equal. apply Z.ltb_lt in Hneg. rewrite N2Z.inj_abs_N. lia.
  - rewrite Hstrip, Hm, Hp. cbn [orb]. rewrite Hbody, Hscan, Hlen, Hlim. cbn.
    f_equal. apply Z.ltb_ge in Hneg. rewrite N2Z.inj_abs_N. lia.
Qed.

Lemma int_of_text (max_str_digits : nat) (z : Z) :
  within_limit max_str_digits z = true ->
  parse_int max_str_digits (int_text z) = Some z.
Proof.
  intros H. apply negb_true_iff in H.
  apply (int_of_str max_str_digits (fun _ => EmptyString)).
  unfold str_int. rewrite H. reflexivity.
Qed.

End TextProperties.

(* ================================================================== *)
(** * More properties of the decoder *)
(* ================================================================== *)
Module DecoderProperties.

Import Log TachometerGUI PyText BridgeNotions PyProperties TextProperties
  BridgeProperties.

Section Facts.

Variable max_str_digits : nat.
Variable int_error_text : string -> string.

Local Abbreviation parse_data := (TachometerGUI.parse_data max_str_digits int_error_text).
Local Abbreviation parse_config := (TachometerGUI.parse_config max_str_digits int_error_text).
Local Abbreviation process_incoming_data :=
  (TachometerGUI.process_incoming_data max_str_digits int_error_text).
Local Abbreviation decode := (TachometerGUI.decode max_str_digits int_error_text).
Local Abbreviation parse_int := (Py.parse_int max_str_digits).
Local Abbreviation feed := (BridgeNotions.feed max_str_digits int_error_text).
Local Abbreviation blank := (init (mkSerial [] [] None)).

(** ** The canonical text of a frame decodes to its numbers *)

Lemma int_text_free (z : Z) : free_of "," (int_text z) = true.
Proof.
  assert (H : forall r, all_chars is_digit r = true -> free_of "," r = true).
  { intros r. apply all_chars_impl. intros c Hc. apply negb_true_iff.
    apply (digit_cases c Hc). }
  destruct (digits_of_shape z) as (c & r & Hds & Hc & Hr).
  assert (Hd : free_of "," (digits_of z) = true).
  { rewrite Hds. apply free_of_cons. split; [apply (digit_cases c Hc)|auto]. }
  unfold int_text. destruct (z <? 0)%Z; [|exact Hd].
  apply free_of_cons. split; [reflexivity | exact Hd].
Qed.

Lemma split_payload_text (zs : list Z) :
  zs <> [] -> split "," (payload_text zs) = map int_text zs.
Proof.
  intros Hne. unfold payload_text. apply split_join.
  - destruct zs; [contradiction Hne; reflexivity | discriminate].
  - apply Forall_forall. intros f Hf. apply in_map_iff in Hf.
    destruct Hf as (z & <- & _). apply int_text_free.
Qed.

Lemma parse_payload_text (zs : list Z) :
  forallb (within_limit max_str_digits) zs = true ->
  map parse_int (map int_text zs) = map Some zs.
Proof.
  induction zs as [|z zs IH]; intros H; [reflexivity|].
  cbn [forallb] in H. apply andb_true_iff in H. destruct H as [Hz H].
  cbn [map]. rewrite (int_of_text _ z Hz), (IH H). reflexivity.
Qed.

(** X1: round trip of the wire format.  For any 8 integers within the digit
    limit of the interpreter, the line made of [DATA:] (or [CONFIG:]) and
    their decimal texts joined by commas decodes to exactly one event whose
    fields are these integers in order, the sixth of a [CONFIG] line being
    read as a truth value (non-zero is True). *)
Theorem frame_round_trip (z0 z1 z2 z3 z4 z5 z6 z7 : Z) :
  forallb (within_limit max_str_digits) [z0; z1; z2; z3; z4; z5; z6; z7]
    = true ->
  decode ("DATA:" +++ payload_text [z0; z1; z2; z3; z4; z5; z6; z7])
    = [DATA (mkMeasurement z0 z1 z2 z3 z4 z5 z6 z7)]
  /\ decode ("CONFIG:" +++ payload_text [z0; z1; z2; z3; z4; z5; z6; z7])
    = [CONFIG (mkConfig z0 z1 z2 z3 z4 (negb (z5 =? 0)%Z) z6 z7)].
Proof.
  intros Hlim.
  pose proof (split_payload_text [z0; z1; z2; z3; z4; z5; z6; z7]) as Hs.
  specialize (Hs ltac:(discriminate)).
  pose proof (parse_payload_text _ Hlim) as Hp.
  unfold TachometerGUI.decode. split.
  - rewrite (data_frame_ok max_str_digits int_error_text _
               z0 z1 z2 z3 z4 z5 z6 z7 blank).
    + reflexivity.
    + rewrite Hs. cbn. lia.
    + rewrite Hs. exact Hp.
  - rewrite (config_frame_ok max_str_digits int_error_text _
               z0 z1 z2 z3 z4 z5 z6 z7 blank).
    + reflexivity.
    + rewrite Hs. cbn. lia.
    + rewrite Hs. exact Hp.
Qed.

(** ** A field that is not a number *)

Lemma parse_data_all (values : list string) (g : Gui) (m : Measurement) :
  snd (parse_data values g) = Ok m ->
  some_unparsed max_str_digits (firstn 8 values) = false.
Proof.
  unfold TachometerGUI.parse_data, TachometerGUI.int_of, getitem, bind, lift,
    ret, raise, int, some_unparsed.
  destruct values as [|s0 [|s1 [|s2 [|s3 [|s4 [|s5 [|s6 [|s7 rest]]]]]]]];
    cbn [nth_error firstn existsb]; cbv beta iota;
    repeat match goal with
    | |- context [Py.parse_int max_str_digits ?f] =>
        destruct (Py.parse_int max_str_digits f);
          [cbv beta iota
          |cbv beta iota; cbn [snd]; intros H; discriminate H]
    end;
    cbn [snd]; try (intros H; discriminate H); reflexivity.
Qed.

Lemma parse_config_all (values : list string) (g : Gui) (c : Config) :
  snd (parse_config values g) = Ok c ->
  some_unparsed max_str_digits (firstn 8 values) = false.
Proof.
  unfold TachometerGUI.parse_config, TachometerGUI.int_of, getitem, bind,
    lift, ret, raise, int, some_unparsed.
  destruct values as [|s0 [|s1 [|s2 [|s3 [|s4 [|s5 [|s6 [|s7 rest]]]]]]]];
    cbn [nth_error firstn existsb]; cbv beta iota;
    repeat match goal with
    | |- context [Py.parse_int max_str_digits ?f] =>
        destruct (Py.parse_int max_str_digits f);
          [cbv beta iota
          |cbv beta iota; cbn [snd]; intros H; discriminate H]
    end;
    cbn [snd]; try (intros H; discriminate H); reflexivity.
Qed.

(** X2: a [DATA] or [CONFIG] line with at least 8 fields, one of the first 8
    of which [int] rejects, queues no event and leaves the current
    measurement and the configuration as they were; it is reported once at
    level ERROR (not WARNING) through [Log.error] and once on the log panel
    with the tag ERROR, and the call returns normally. *)
Theorem unparsed_field_is_an_error (tag payload : string) (g : Gui) :
  tag = "DATA" \/ tag = "CONFIG" ->
  8 <= List.length (split "," payload) ->
  some_unparsed max_str_digits (firstn 8 (split "," payload)) = true ->
  exists g' e,
    process_incoming_data (tag +++ ":" +++ payload) g = (g', Ok tt)
    /\ data_queue g' = data_queue g
    /\ current_data g' = current_data g
    /\ config g' = config g
    /\ filter is_error (skipn (List.length (log_calls g)) (log_calls g'))
       = [(ERROR, process_header +++ ": Error parsing data '"
                  +++ (tag +++ ":" +++ payload) +++ "' - " +++ e)]
    /\ filter is_warning (skipn (List.length (log_calls g)) (log_calls g'))
       = []
    /\ log_text g' = log_text g ++ [("Data parsing error: " +++ e, "ERROR")].
Proof.
  intros Htag Hlen Hbad. apply Nat.leb_le in Hlen.
  unfold TachometerGUI.process_incoming_data, try_except.
  destruct Htag as [-> | ->].
  - change (startswith ("DATA" +++ ":" +++ payload) "DATA:") with true.
    change (slice_from 5 ("DATA" +++ ":" +++ payload)) with payload.
    cbv iota. rewrite Hlen.
    rewrite (bind_run (parse_data _) _ g), (parse_data_runs _ _ _ g blank).
    destruct (snd (parse_data (split "," payload) blank)) as [m|e] eqn:E.
    { apply parse_data_all in E. rewrite E in Hbad. discriminate Hbad. }
    destruct g as [p dq cq ic st t1 t2 t3 t4 cd cf lc lt dl].
    exists (fst ((Log_call ERROR
                   (process_header +++ ": Error parsing data '"
                    +++ ("DATA" +++ ":" +++ payload) +++ "' - " +++ e) ;;
                  log_message ("Data parsing error: " +++ e) "ERROR")%py
                   (mkGui p dq cq ic st t1 t2 t3 t4 cd cf lc lt dl))), e.
    run_method. repeat (split; [reflexivity|]).
    rewrite <- !app_assoc, (skipn_past lc). repeat split.
  - change (startswith ("CONFIG" +++ ":" +++ payload) "DATA:") with false.
    change (startswith ("CONFIG" +++ ":" +++ payload) "CONFIG:") with true.
    change (slice_from 7 ("CONFIG" +++ ":" +++ payload)) with payload.
    cbv iota. rewrite Hlen.
    rewrite (bind_run (parse_config _) _ g), (parse_config_runs _ _ _ g blank).
    destruct (snd (parse_config (split "," payload) blank)) as [m|e] eqn:E.
    { apply parse_config_all in E. rewrite E in Hbad. discriminate Hbad. }
    destruct g as [p dq cq ic st t1 t2 t3 t4 cd cf lc lt dl].
    exists (fst ((Log_call ERROR
                   (process_header +++ ": Error parsing data '"
                    +++ ("CONFIG" +++ ":" +++ payload) +++ "' - " +++ e) ;;
                  log_message ("Data parsing error: " +++ e) "ERROR")%py
                   (mkGui p dq cq ic st t1 t2 t3 t4 cd cf lc lt dl))), e.
    run_method. repeat (split; [reflexivity|]).
    rewrite <- !app_assoc, (skipn_past lc). repeat split.
Qed.

(** ** Which event a line yields *)

Lemma tag_startswith (line t : string) :
  tag_of line = Some t -> startswith line (t +++ ":") = true.
Proof.
  revert t. induction line as [|c r IH]; intros t H; [discriminate H|].
  cbn [tag_of] in H. destruct (Ascii.eqb c ":") eqn:E.
  - injection H as <-. apply Ascii.eqb_eq in E. subst c. reflexivity.
  - destruct (tag_of r) as [t'|]; [|discriminate H].
    injection H as <-. cbn [String.append startswith].
    rewrite Ascii.eqb_refl, (IH t' eq_refl). reflexivity.
Qed.

Lemma decode_cases (line : string) :
  (startswith line "DATA:" = true ->
   decode line = [] \/ exists m, decode line = [DATA m])
  /\ (startswith line "DATA:" = false ->
      startswith line "CONFIG:" = true ->
      decode line = [] \/ exists c, decode line = [CONFIG c])
  /\ (startswith line "DATA:" = false ->
      startswith line "CONFIG:" = false ->
      startswith line "RESP:" = true ->
      decode line = [RESPONSE (slice_from 5 line)])
  /\ (startswith line "DATA:" = false ->
      startswith line "CONFIG:" = false ->
      startswith line "RESP:" = false ->
      startswith line "TACH:" = true ->
      decode line = [SYSTEM (slice_from 5 line)])
  /\ (startswith line "DATA:" = false ->
      startswith line "CONFIG:" = false ->
      startswith line "RESP:" = false ->
      startswith line "TACH:" = false ->
      decode line = [RAW line]).
Proof.
  unfold TachometerGUI.decode, TachometerGUI.process_incoming_data,
    try_except.
  repeat split.
  - intros ->. destruct (8 <=? _); [|left; reflexivity].
    rewrite (bind_run (parse_data _) _ blank),
      (parse_data_runs _ _ _ blank blank).
    destruct (snd (parse_data _ blank)) as [m|e];
      [right; exists m; reflexivity | left; reflexivity].
  - intros -> ->. destruct (8 <=? _); [|left; reflexivity].
    rewrite (bind_run (parse_config _) _ blank),
      (parse_config_runs _ _ _ blank blank).
    destruct (snd (parse_config _ blank)) as [c|e];
      [right; exists c; reflexivity | left; reflexivity].
  - intros -> -> ->. reflexivity.
  - intros -> -> -> ->. reflexivity.
  - intros -> -> -> ->. reflexivity.
Qed.

Lemma other_tag (line t u : string) :
  colon_free u = true ->
  tag_of line = Some t -> t <> u -> startswith line (u +++ ":") = false.
Proof.
  intros Hu Ht Hne. destruct (startswith line (u +++ ":")) eqn:E;
    [|reflexivity].
  apply (startswith_tag u line Hu) in E. congruence.
Qed.

(** X3: which event a line yields is decided by its tag.  A [RESP] line
    yields the Response, and a [TACH] line the SystemMessage, that carries
    everything after the first five characters, whatever it contains; a
    [DATA] line yields a Measurement or nothing, a [CONFIG] line a
    ConfigSnapshot or nothing; so the only lines that yield no event are
    [DATA] and [CONFIG] lines. *)
Theorem event_by_tag (line : string) :
  (tag_of line = Some "DATA" ->
   decode line = [] \/ exists m, decode line = [DATA m])
  /\ (tag_of line = Some "CONFIG" ->
      decode line = [] \/ exists c, decode line = [CONFIG c])
  /\ (tag_of line = Some "RESP" ->
      decode line = [RESPONSE (slice_from 5 line)])
  /\ (tag_of line = Some "TACH" ->
      decode line = [SYSTEM (slice_from 5 line)])
  /\ (forall text,
        decode ("RESP:" +++ text) = [RESPONSE text]
        /\ decode ("TACH:" +++ text) = [SYSTEM text])
  /\ (decode line = [] ->
      tag_of line = Some "DATA" \/ tag_of line = Some "CONFIG").
Proof.
  destruct (decode_cases line) as (HD & HC & HR & HT & HRaw).
  split; [|split; [|split; [|split; [|split]]]].
  - intros H. apply HD. exact (tag_startswith line "DATA" H).
  - intros H. apply HC; [|exact (tag_startswith line "CONFIG" H)].
    apply (other_tag line "CONFIG" "DATA" eq_refl H). discriminate.
  - intros H. apply HR; [| |exact (tag_startswith line "RESP" H)].
    + apply (other_tag line "RESP" "DATA" eq_refl H). discriminate.
    + apply (other_tag line "RESP" "CONFIG" eq_refl H). discriminate.
  - intros H. apply HT; [| | |exact (tag_startswith line "TACH" H)].
    + apply (other_tag line "TACH" "DATA" eq_refl H). discriminate.
    + apply (other_tag line "TACH" "CONFIG" eq_refl H). discriminate.
    + apply (other_tag line "TACH" "RESP" eq_refl H). discriminate.
  - intros text. split.
    + destruct (decode_cases ("RESP:" +++ text)) as (_ & _ & H & _).
      exact (H eq_refl eq_refl eq_refl).
    + destruct (decode_cases ("TACH:" +++ text)) as (_ & _ & _ & H & _).
      exact (H eq_refl eq_refl eq_refl eq_refl).
  - intros Hnone.
    destruct (startswith line "DATA:") eqn:ED.
    { left. apply (startswith_tag "DATA" line eq_refl ED). }
    destruct (startswith line "CONFIG:") eqn:EC.
    { right. apply (startswith_tag "CONFIG" line eq_refl EC). }
    exfalso.
    destruct (startswith line "RESP:") eqn:ER.
    { rewrite (HR eq_refl eq_refl eq_refl) in Hnone. discriminate Hnone. }
    destruct (startswith line "TACH:") eqn:ET.
    { rewrite (HT eq_refl eq_refl eq_refl eq_refl) in Hnone.
      discriminate Hnone. }
    rewrite (HRaw eq_refl eq_refl eq_refl eq_refl) in Hnone.
    discriminate Hnone.
Qed.

(** ** The snapshots follow the queue *)

Lemma process_snapshot (line : string) (g : Gui) :
  exists g',
    process_incoming_data line g = (g', Ok tt)
    /\ data_queue g' = data_queue g ++ decode line
    /\ current_data g' = last_measurement (decode line) (current_data g)
    /\ config g' = last_config (decode line) (config g).
Proof.
  unfold TachometerGUI.decode, TachometerGUI.process_incoming_data, try_except.
  destruct (startswith line "DATA:").
  { destruct (8 <=? _).
    - rewrite (bind_run (parse_data _) _ g), (bind_run (parse_data _) _ blank).
      rewrite (parse_data_runs _ _ _ g blank),
        (parse_data_runs _ _ _ blank blank).
      cbn [snd]. destruct (snd (parse_data _ blank)) as [m|e].
      + eexists. split; [reflexivity|]. cbn. repeat split.
      + eexists. split; [reflexivity|]. cbn. rewrite app_nil_r.
        repeat split.
    - exists g. cbn. rewrite app_nil_r. repeat split. }
  destruct (startswith line "CONFIG:").
  { destruct (8 <=? _).
    - rewrite (bind_run (parse_config _) _ g),
        (bind_run (parse_config _) _ blank).
      rewrite (parse_config_runs _ _ _ g blank),
        (parse_config_runs _ _ _ blank blank).
      cbn [snd]. destruct (snd (parse_config _ blank)) as [c|e].
      + eexists. split; [reflexivity|]. cbn. repeat split.
      + eexists. split; [reflexivity|]. cbn. rewrite app_nil_r.
        repeat split.
    - exists g. cbn. rewrite app_nil_r. repeat split. }
  destruct (startswith line "RESP:").
  { eexists. split; [reflexivity|]. cbn. repeat split. }
  destruct (startswith line "TACH:").
  { eexists. split; [reflexivity|]. cbn. repeat split. }
  eexists. split; [reflexivity|]. cbn. repeat split.
Qed.

Lemma last_measurement_app (a b : list Event) (d : Measurement) :
  last_measurement (a ++ b) d = last_measurement b (last_measurement a d).
Proof.
  revert d. induction a as [|e a IH]; intros d; [reflexivity|].
  destruct e; cbn [app last_measurement]; apply IH.
Qed.

Lemma last_config_app (a b : list Event) (d : Config) :
  last_config (a ++ b) d = last_config b (last_config a d).
Proof.
  revert d. induction a as [|e a IH]; intros d; [reflexivity|].
  destruct e; cbn [app last_config]; apply IH.
Qed.

(** X4: the snapshots follow the event queue.  After any series of lines
    decoded by a freshly made object, the queue holds the events of the
    lines in order, [current_data] is the last Measurement queued and
    [config] is the last ConfigSnapshot queued (the initial values when
    there is none): a line that fails to decode changes neither. *)
Theorem snapshots_follow_queue (lines : list string) (port : Serial) :
  data_queue (feed lines (init port)) = flat_map decode lines
  /\ current_data (feed lines (init port))
     = last_measurement (flat_map decode lines) (current_data (init port))
  /\ config (feed lines (init port))
     = last_config (flat_map decode lines) (config (init port)).
Proof.
  assert (H : forall g,
    data_queue (feed lines g) = data_queue g ++ flat_map decode lines
    /\ current_data (feed lines g)
       = last_measurement (flat_map decode lines) (current_data g)
    /\ config (feed lines g)
       = last_config (flat_map decode lines) (config g)).
  { induction lines as [|line lines IH]; intros g.
    - cbn. rewrite app_nil_r. repeat split.
    - change (feed (line :: lines) g)
        with (feed lines (fst (process_incoming_data line g))).
      destruct (process_snapshot line g) as (g' & E & Hq & Hm & Hc).
      rewrite E. cbn [fst flat_map].
      destruct (IH g') as (Iq & Im & Ic).
      rewrite Iq, Im, Ic, Hq, Hm, Hc, <- app_assoc,
        last_measurement_app, last_config_app.
      repeat split. }
  exact (H (init port)).
Qed.

End Facts.

End DecoderProperties.

(* ================================================================== *)
(** * More properties of the worker *)
(* ================================================================== *)
Module WorkerProperties.

Import Log TachometerGUI PyText BridgeNotions PyProperties BridgeProperties.

Section Facts.

Variable max_str_digits : nat.
Variable int_error_text : string -> string.

Local Abbreviation parse_data := (TachometerGUI.parse_data max_str_digits int_error_text).
Local Abbreviation parse_config := (TachometerGUI.parse_config max_str_digits int_error_text).
Local Abbreviation process_incoming_data :=
  (TachometerGUI.process_incoming_data max_str_digits int_error_text).
Local Abbreviation read_incoming :=
  (TachometerGUI.read_incoming max_str_digits int_error_text).
Local Abbreviation worker_iteration :=
  (TachometerGUI.worker_iteration max_str_digits int_error_text).
Local Abbreviation worker_cycle :=
  (TachometerGUI.worker_cycle max_str_digits int_error_text).
Local Abbreviation worker_cycles :=
  (TachometerGUI.worker_cycles max_str_digits int_error_text).
Local Abbreviation decode := (TachometerGUI.decode max_str_digits int_error_text).
Local Abbreviation blank := (init (mkSerial [] [] None)).

(** Decoding changes the event queue, the two snapshots and the two log
    journals, and nothing else. *)
Lemma process_frame (line : string) (g : Gui) :
  exists dq cd cf lc lt,
    process_incoming_data line g
    = (mkGui (serial_port g) dq (command_queue g) (is_connected g)
             (stop_threads g) (time_data g) (rpm_data g)
             (filtered_rpm_data g) (frequency_data g) cd cf lc lt
             (dialogs g),
       Ok tt).
Proof.
  destruct g as [p dq cq ic st t1 t2 t3 t4 cd cf lc lt dl].
  unfold TachometerGUI.process_incoming_data, try_except.
  destruct (startswith line "DATA:").
  { destruct (8 <=? _).
    - rewrite (bind_run (parse_data _) _ _),
        (parse_data_runs _ _ _ _ blank).
      destruct (snd (parse_data _ blank)) as [m|e]; run_method;
        do 5 eexists; reflexivity.
    - run_method. do 5 eexists; reflexivity. }
  destruct (startswith line "CONFIG:").
  { destruct (8 <=? _).
    - rewrite (bind_run (parse_config _) _ _),
        (parse_config_runs _ _ _ _ blank).
      destruct (snd (parse_config _ blank)) as [c|e]; run_method;
        do 5 eexists; reflexivity.
    - run_method. do 5 eexists; reflexivity. }
  destruct (startswith line "RESP:"); [run_method; do 5 eexists; reflexivity|].
  destruct (startswith line "TACH:"); run_method; do 5 eexists; reflexivity.
Qed.

(** An iteration leaves the two flags alone, and a port that never fails
    stays one. *)
Lemma send_pending_loop_flags (fuel : nat) (g : Gui) :
  is_connected (fst (send_pending_loop fuel g)) = is_connected g
  /\ stop_threads (fst (send_pending_loop fuel g)) = stop_threads g.
Proof.
  revert g. induction fuel as [|fuel IH]; intros g; [split; reflexivity|].
  destruct g as [[r w b] dq cq ic st t1 t2 t3 t4 cd cf lc lt dl].
  cbn [send_pending_loop]. destruct cq as [|c rest];
    [run_method; split; reflexivity|].
  destruct b as [[|[|n]]|]; run_method; try (split; reflexivity);
    match goal with
    | |- context [send_pending_loop fuel ?g1] => exact (IH g1)
    end.
Qed.

Lemma read_incoming_flags (g : Gui) :
  is_connected (fst (read_incoming g)) = is_connected g
  /\ stop_threads (fst (read_incoming g)) = stop_threads g
  /\ (budget (serial_port g) = None ->
      budget (serial_port (fst (read_incoming g))) = None).
Proof.
  destruct g as [[r w b] dq cq ic st t1 t2 t3 t4 cd cf lc lt dl].
  unfold TachometerGUI.read_incoming.
  destruct b as [[|[|n]]|]; run_method;
    try (repeat split; intros H; discriminate H);
    (destruct (0 <? String.length (String.concat "" r)); run_method;
     [|repeat split; try reflexivity; intros H; discriminate H]);
    try (repeat split; intros H; discriminate H);
    destruct r as [|l rest]; run_method;
    (destruct (negb _); run_method;
     [|repeat split; try reflexivity; intros H; discriminate H]);
    match goal with
    | |- context [process_incoming_data ?line ?gm] =>
        destruct (process_frame line gm) as (? & ? & ? & ? & ? & E);
        rewrite E; run_method
    end;
    repeat split; try reflexivity; intros H; discriminate H.
Qed.

Lemma sent_app (a b : list string) : sent (a ++ b) = sent a ++ sent b.
Proof. unfold sent. apply flat_map_app. Qed.

Lemma writes_of_sent (q : list string) : filter is_write (sent q) = frames q.
Proof.
  induction q as [|c q IH]; [reflexivity|].
  cbn [sent flat_map app filter is_write frames map].
  unfold sent, frames in IH. rewrite IH. reflexivity.
Qed.

Lemma writes_of_sent_reads (q : list string) :
  List.length (filter is_read (sent q)) = 0.
Proof. induction q as [|c q IH]; [reflexivity | exact IH]. Qed.

(** One iteration on a port that never fails *)
Lemma iteration_healthy (g : Gui) :
  budget (serial_port g) = None ->
  exists g' reads,
    worker_iteration g = (g', Ok tt)
    /\ command_queue g' = []
    /\ wire (serial_port g')
       = wire (serial_port g) ++ sent (command_queue g) ++ reads
    /\ (reads = [] \/ reads = [ReadLine (hd "" (rx (serial_port g)))])
    /\ List.length (data_queue g') <= List.length (data_queue g) + 1
    /\ budget (serial_port g') = None
    /\ is_connected g' = is_connected g
    /\ stop_threads g' = stop_threads g.
Proof.
  intros Hb.
  destruct (send_pending_loop_returns (command_queue g) g eq_refl Hb)
    as (g1 & E1 & Hb1).
  pose proof (send_pending_loop_done _ g g1 eq_refl E1)
    as (Q1 & W1 & R1 & D1).
  pose proof (send_pending_loop_flags (List.length (command_queue g)) g)
    as (F1 & F2).
  rewrite E1 in F1, F2. cbn [fst] in F1, F2.
  pose proof (read_incoming_returns max_str_digits int_error_text g1 Hb1)
    as Hret.
  pose proof (read_incoming_flags g1) as (F3 & F4 & F5).
  destruct (read_incoming g1) as [g' r] eqn:E2. cbn [fst snd] in *. subst r.
  pose proof (read_incoming_done max_str_digits int_error_text g1 g' E2)
    as (Q2 & reads & W2 & Hcase).
  exists g', reads.
  split.
  { unfold TachometerGUI.worker_iteration, send_pending.
    rewrite bind_run, bind_run. unfold get at 1. rewrite E1. exact E2. }
  split; [rewrite Q2; exact Q1|].
  split; [rewrite W2, W1, app_assoc; reflexivity|].
  rewrite R1, D1 in Hcase.
  split; [destruct Hcase as [(-> & _)|(-> & _)]; [left|right]; reflexivity|].
  split.
  { destruct (process_footprint max_str_digits int_error_text
                (strip (hd "" (rx (serial_port g)))) g)
      as (_ & _ & _ & _ & _ & Hone).
    destruct Hcase as [(_ & _ & ->)|(_ & _ & ->)]; [lia|].
    rewrite length_app. destruct (String.eqb _ ""); cbn [List.length]; lia. }
  split; [exact (F5 Hb1)|].
  split; congruence.
Qed.

(** X5: a command that [send_command] accepts goes out in the next
    iteration of the worker (on a port that does not fail): it is written
    as [CMD:<command>] and a newline after every command that was pending
    before it, it is flushed, and the queue is empty afterwards. *)
Theorem accepted_command_goes_out_last (command : string) (g : Gui) :
  is_connected g = true ->
  budget (serial_port g) = None ->
  exists g' reads,
    worker_iteration (fst (send_command command g)) = (g', Ok tt)
    /\ command_queue g' = []
    /\ wire (serial_port g')
       = wire (serial_port g) ++ sent (command_queue g)
         ++ [Write ("CMD:" +++ command +++ nl); Flush] ++ reads
    /\ (reads = [] \/ reads = [ReadLine (hd "" (rx (serial_port g)))]).
Proof.
  intros Hc Hb.
  assert (H1 : serial_port (fst (send_command command g)) = serial_port g
               /\ command_queue (fst (send_command command g))
                  = command_queue g ++ [command]).
  { destruct g as [p dq cq ic st t1 t2 t3 t4 cd cf lc lt dl].
    cbn in Hc. subst ic. unfold send_command. run_method.
    split; reflexivity. }
  destruct H1 as [Hp Hq].
  destruct (iteration_healthy (fst (send_command command g)))
    as (g' & reads & E & Q & W & R & _); [rewrite Hp; exact Hb|].
  exists g', reads. rewrite Hp, Hq, sent_app in W. rewrite Hp in R.
  split; [exact E|]. split; [exact Q|]. split; [|exact R].
  rewrite W, <- !app_assoc. reflexivity.
Qed.

(** X6: over any number of rounds of the loop on a port that never fails,
    with the object connected and not asked to stop, every command that was
    pending is written exactly once, in order; each round reads at most one
    line and queues at most one event. *)
Theorem commands_are_written_once (rounds : nat) (g : Gui) :
  budget (serial_port g) = None ->
  is_connected g = true ->
  stop_threads g = false ->
  exists g',
    worker_cycles (S rounds) g = (g', Ok tt)
    /\ command_queue g' = []
    /\ filter is_write (wire (serial_port g'))
       = filter is_write (wire (serial_port g)) ++ frames (command_queue g)
    /\ List.length (filter is_read (wire (serial_port g')))
       <= List.length (filter is_read (wire (serial_port g))) + S rounds
    /\ List.length (data_queue g')
       <= List.length (data_queue g) + S rounds.
Proof.
  assert (Hcycle : forall g,
    budget (serial_port g) = None -> is_connected g = true ->
    stop_threads g = false ->
    exists g' reads,
      worker_cycle g = (g', Ok true)
      /\ command_queue g' = []
      /\ wire (serial_port g')
         = wire (serial_port g) ++ sent (command_queue g) ++ reads
      /\ (reads = [] \/ reads = [ReadLine (hd "" (rx (serial_port g)))])
      /\ List.length (data_queue g') <= List.length (data_queue g) + 1
      /\ budget (serial_port g') = None
      /\ is_connected g' = true /\ stop_threads g' = false).
  { intros g0 Hb Hc Hs.
    destruct (iteration_healthy g0 Hb)
      as (g' & reads & E & Q & W & R & D & B & F1 & F2).
    exists g', reads.
    split.
    { unfold TachometerGUI.worker_cycle. rewrite bind_run. unfold get at 1.
      rewrite Hc, Hs. cbn [negb andb]. unfold try_except.
      rewrite bind_run, E. reflexivity. }
    repeat (split; [assumption|]). split; congruence. }
  assert (Hw : forall reads : list SerialOp, forall l,
    reads = [] \/ reads = [ReadLine l] ->
    filter is_write reads = []
    /\ List.length (filter is_read reads) <= 1).
  { intros reads l [-> | ->]; cbn; split; (reflexivity || lia). }
  revert g. induction rounds as [|n IH]; intros g Hb Hc Hs.
  - destruct (Hcycle g Hb Hc Hs) as (g' & reads & E & Q & W & R & D & _).
    destruct (Hw reads _ R) as [Hw1 Hw2].
    exists g'. split.
    { cbn [TachometerGUI.worker_cycles]. rewrite bind_run, E. reflexivity. }
    split; [exact Q|].
    rewrite W, !filter_app, Hw1, app_nil_r, writes_of_sent.
    split; [reflexivity|].
    rewrite !length_app, writes_of_sent_reads. lia.
  - destruct (Hcycle g Hb Hc Hs)
      as (g1 & reads & E & Q & W & R & D & B1 & C1 & S1).
    destruct (Hw reads _ R) as [Hw1 Hw2].
    destruct (IH g1 B1 C1 S1) as (g' & E' & Q' & W' & R' & D').
    exists g'. split.
    { change (worker_cycles (S (S n)) g)
        with (bind worker_cycle
                (fun go_on => if go_on then worker_cycles (S n) else ret tt) g).
      rewrite bind_run, E. exact E'. }
    split; [exact Q'|].
    rewrite Q in W'. cbn [frames map] in W'. rewrite app_nil_r in W'.
    rewrite W', W, !filter_app, Hw1, app_nil_r, writes_of_sent.
    split; [reflexivity|].
    rewrite W, !filter_app, !length_app, writes_of_sent_reads in R'. lia.
Qed.

(** ** A port that fails while the commands go out *)

Lemma send_pending_loop_cut (q : list string) (k : nat) (g : Gui) :
  command_queue g = q ->
  budget (serial_port g) = Some k ->
  k < 2 * List.length q ->
  exists g1 e,
    send_pending_loop (List.length q) g = (g1, Raise e)
    /\ command_queue g1 = skipn (S (k / 2)) q
    /\ wire (serial_port g1) = wire (serial_port g) ++ firstn k (sent q)
    /\ rx (serial_port g1) = rx (serial_port g)
    /\ data_queue g1 = data_queue g
    /\ log_text g1 = log_text g
    /\ dialogs g1 = dialogs g.
Proof.
  revert k g. induction q as [|c rest IH]; intros k g Hq Hb Hk;
    [cbn in Hk; lia|].
  destruct g as [[r w b] dq cq ic st t1 t2 t3 t4 cd cf lc lt dl].
  cbn in Hq, Hb. subst cq b. cbn [List.length send_pending_loop].
  destruct k as [|[|k]]; run_method.
  - do 2 eexists. split; [reflexivity|]. cbn. rewrite app_nil_r.
    repeat split.
  - do 2 eexists. split; [reflexivity|]. cbn. repeat split.
  - match goal with
    | |- context [send_pending_loop (List.length rest) ?g2] =>
        destruct (IH k g2 eq_refl eq_refl) as (g1 & e & E & Q & W & R & D & T & L);
          [cbn [List.length] in Hk; lia|]
    end.
    exists g1, e. split; [exact E|].
    cbn [serial_port wire rx data_queue log_text dialogs] in W, R, D, T, L |- *.
    replace (S (S k)) with (k + 1 * 2) at 1 by lia.
    rewrite Nat.div_add by lia. rewrite Nat.add_1_r.
    split; [exact Q|]. split; [|repeat split; assumption].
    rewrite W, <- !app_assoc. reflexivity.
Qed.

(** X7: when the port fails while the pending commands go out (its [k+1]-th
    operation raises, with [k] less than the two operations per pending
    command), the loop ends: the round answers that the loop stops, one
    error is logged and shown on the log panel with the tag ERROR, and no
    line is read.  The port has then seen the first [k] operations of the
    drain, and the queue has lost one command more than were flushed: the
    command in hand when the port failed is dropped, not put back. *)
Theorem port_failure_drops_the_command_in_hand (k : nat) (g : Gui) :
  budget (serial_port g) = Some k ->
  k < 2 * List.length (command_queue g) ->
  is_connected g = true ->
  stop_threads g = false ->
  exists g' e,
    worker_cycle g = (g', Ok false)
    /\ command_queue g' = skipn (S (k / 2)) (command_queue g)
    /\ wire (serial_port g')
       = wire (serial_port g) ++ firstn k (sent (command_queue g))
    /\ rx (serial_port g') = rx (serial_port g)
    /\ data_queue g' = data_queue g
    /\ log_text g' = log_text g ++ [("Communication error: " +++ e, "ERROR")]
    /\ In (ERROR, thread_header +++ ": Communication error - " +++ e)
          (log_calls g').
Proof.
  intros Hb Hk Hc Hs.
  destruct (send_pending_loop_cut (command_queue g) k g eq_refl Hb Hk)
    as (g1 & e & E & Q & W & R & D & T & L).
  destruct g1 as [p1 dq1 cq1 ic1 st1 a1 a2 a3 a4 cd1 cf1 lc1 lt1 dl1].
  cbn [command_queue serial_port data_queue log_text dialogs] in Q, W, R, D, T, L.
  eexists. exists e. split.
  { unfold TachometerGUI.worker_cycle. rewrite bind_run. unfold get at 1.
    rewrite Hc, Hs. cbn [negb andb]. unfold try_except.
    rewrite bind_run. unfold TachometerGUI.worker_iteration, send_pending.
    rewrite bind_run, bind_run. unfold get at 1. rewrite E.
    run_method. reflexivity. }
  cbn [command_queue serial_port data_queue log_text log_calls].
  repeat (split; [assumption|]). split; [rewrite T; reflexivity|].
  apply in_or_app. left. apply in_or_app. right. left. reflexivity.
Qed.

End Facts.

End WorkerProperties.

(* ================================================================== *)
(** * More properties of the logger *)
(* ================================================================== *)
Module LoggerProperties.

Import Log LogNotions PyProperties LogProperties.

Section Facts.

Variable PyObject : Type.
Variable str_mod : string -> list PyObject -> result string.
Variable tuple_repr : list PyObject -> string.

Local Abbreviation _log := (Log._log PyObject str_mod tuple_repr).
Local Abbreviation record_message := (Log.record_message PyObject str_mod tuple_repr).
Local Abbreviation run := (Log.run PyObject str_mod tuple_repr).
Local Abbreviation exec := (Log.exec PyObject str_mod tuple_repr).
Local Abbreviation sink_invariant_run :=
  (LogProperties.sink_invariant_run PyObject str_mod tuple_repr).
Local Abbreviation log_runs := (LogProperties.log_runs PyObject str_mod tuple_repr).

(** ** The recorded path and the sink *)

Lemma path_follows_sink_exec (c : Call PyObject) (s : State) :
  sink_invariant s -> path_follows_sink s -> path_follows_sink (exec c s).
Proof.
  intros Inv P. destruct c as [l|p a cl os|cl|b|l m a env]; cbn [Log.exec].
  - exact P.
  - rewrite (set_log_file_runs p a cl os s Inv).
    destruct os as [[]|e]; unfold path_follows_sink; cbn;
      split; intros H; (reflexivity || discriminate H).
  - rewrite (close_log_file_runs cl s Inv).
    destruct (_log_file s) eqn:F; cbn [fst]; [|exact P].
    unfold path_follows_sink; cbn. split; reflexivity.
  - exact P.
  - rewrite log_runs. cbn [fst]. destruct (passes l s); exact P.
Qed.

Lemma path_follows_sink_run (history : list (Call PyObject)) :
  path_follows_sink (run history).
Proof.
  induction history as [|c cs IH] using rev_ind.
  - unfold path_follows_sink. cbn. split; reflexivity.
  - rewrite (run_snoc PyObject str_mod tuple_repr).
    apply path_follows_sink_exec; [apply sink_invariant_run | exact IH].
Qed.

(** X8: at any point of a history of calls of the logger,
    [get_log_file_path] returns a path exactly when a file sink is
    configured: the path is forgotten whenever the sink is, be it by
    [close_log_file] or by a [set_log_file] that fails. *)
Theorem path_is_recorded_iff_sink (history : list (Call PyObject)) :
  get_log_file_path (run history) = None <-> _log_file (run history) = None.
Proof.
  unfold get_log_file_path. symmetry. apply path_follows_sink_run.
Qed.

(** X9: [close_log_file] leaves no sink, no recorded path and no file open,
    and returns normally even when closing the file raises; a second call
    then does nothing at all. *)
Theorem close_log_file_twice (history : list (Call PyObject))
  (closing closing' : result unit) :
  snd (close_log_file closing (run history)) = Ok tt
  /\ _log_file (fst (close_log_file closing (run history))) = None
  /\ get_log_file_path (fst (close_log_file closing (run history))) = None
  /\ os_open (fst (close_log_file closing (run history))) = []
  /\ close_log_file closing' (fst (close_log_file closing (run history)))
     = (fst (close_log_file closing (run history)), Ok tt).
Proof.
  pose proof (sink_invariant_run history) as Inv.
  pose proof (path_follows_sink_run history) as P.
  rewrite (close_log_file_runs closing _ Inv).
  destruct Inv as [I1 I2]. unfold sink_handles in I1.
  destruct (_log_file (run history)) as [h|] eqn:F; cbn [fst snd].
  - repeat split.
  - split; [reflexivity|]. split; [exact F|].
    split; [apply P; exact F|]. split; [exact I1|].
    unfold close_log_file, bind, get. rewrite F. reflexivity.
Qed.

(** ** The files are used in order *)

Lemma follow_files_app (open : list handle) (a b : list Effect) :
  follow_files open (a ++ b)
  = match follow_files open a with
    | Some open' => follow_files open' b
    | None => None
    end.
Proof.
  revert open. induction a as [|e a IH]; intros open; [reflexivity|].
  cbn [app follow_files]. destruct e as [h|pth md h|[| |h] txt].
  - destruct (existsb (Nat.eqb h) open); [apply IH | reflexivity].
  - destruct open; [apply IH | reflexivity].
  - apply IH.
  - apply IH.
  - destruct (existsb (Nat.eqb h) open); [apply IH | reflexivity].
Qed.

Lemma follow_sink_writes (s : State) (level : LogLevel) (entry : string)
  (outcome : result unit) :
  sink_invariant s ->
  follow_files (os_open s) (sink_writes s level entry outcome)
  = Some (os_open s).
Proof.
  intros [I1 _]. unfold sink_writes, sink_handles, console_stream in *.
  rewrite I1.
  destruct (_use_console s), (ge level ERROR), (_log_file s) as [h|],
    outcome as [[]|e]; cbn; rewrite ?Nat.eqb_refl; reflexivity.
Qed.

Lemma files_in_order_exec (c : Call PyObject) (s : State) :
  sink_invariant s -> files_in_order s -> files_in_order (exec c s).
Proof.
  unfold files_in_order.
  intros Inv P. destruct c as [l|p a cl os|cl|b|l m a env]; cbn [Log.exec].
  - exact P.
  - rewrite (set_log_file_runs p a cl os s Inv).
    destruct Inv as [I1 _]. unfold sink_handles in I1.
    destruct os as [[]|e]; cbn [fst journal os_open];
      rewrite follow_files_app, P, I1; unfold closes;
      destruct (_log_file s); cbn; rewrite ?Nat.eqb_refl; reflexivity.
  - rewrite (close_log_file_runs cl s Inv).
    destruct Inv as [I1 _]. unfold sink_handles in I1.
    destruct (_log_file s) eqn:F; cbn [fst journal os_open]; [|exact P].
    rewrite follow_files_app, P, I1. cbn. rewrite Nat.eqb_refl. reflexivity.
  - exact P.
  - rewrite log_runs. cbn [fst]. destruct (passes l s); [|exact P].
    cbn [journal os_open with_journal].
    rewrite follow_files_app, P. apply follow_sink_writes. exact Inv.
Qed.

(** X10: in every history of calls of the logger, the files are used in
    order: a file is opened only when none is open, it is written only
    while it is open, and only an open file is closed, so no line is ever
    written to a file that was closed; the files open at the end are those
    the journal leaves open. *)
Theorem files_are_used_in_order (history : list (Call PyObject)) :
  follow_files [] (journal (run history)) = Some (os_open (run history)).
Proof.
  induction history as [|c cs IH] using rev_ind; [reflexivity|].
  rewrite (run_snoc PyObject str_mod tuple_repr).
  apply files_in_order_exec; [apply sink_invariant_run | exact IH].
Qed.

(** ** A file sink that refuses the line *)

(** X11: when the file sink refuses a line, the record is not lost and the
    sink is kept: after the console line (if the console is enabled) the
    call writes a notice and then the record itself on the error stream,
    returns normally, and leaves the configuration (threshold, sink, path,
    console flag) and the open files as they were, so that the next call
    tries the file again. *)
Theorem refused_line_goes_to_stderr (level : LogLevel) (message : string)
  (args : list PyObject) (env : Env) (s : State) (h : handle) (e : string) :
  passes level s = true ->
  _log_file s = Some h ->
  write_outcome env = Raise e ->
  let entry := log_entry_text env level (record_message message args) in
  let s' := fst (_log level message args env s) in
  snd (_log level message args env s) = Ok tt
  /\ produced s s'
     = (if _use_console s
        then [EWrite (if ge level ERROR then Stderr else Stdout)
                     (entry +++ nl)]
        else [])
       ++ [EWrite Stderr ("Error writing to log file: " +++ e +++ nl);
           EWrite Stderr (entry +++ nl)]
  /\ (_level s', _log_file s', _log_file_path s', _use_console s', os_open s')
     = (_level s, _log_file s, _log_file_path s, _use_console s, os_open s).
Proof.
  intros Hp Hf Hw entry s'. subst entry s'.
  rewrite (produced_by_log PyObject str_mod tuple_repr), log_runs, Hp.
  unfold sink_writes, console_stream. rewrite Hf, Hw.
  cbn [fst snd]. split; [reflexivity|]. split; [reflexivity|].
  unfold with_journal.
  cbn [_level _log_file _log_file_path _use_console os_open].
  rewrite Hf. reflexivity.
Qed.

(** ** The configuration the program installs *)

Lemma startup_state (os : result unit) :
  run (startup_calls PyObject os)
  = match os with
    | Ok _ =>
        mkState DEBUG (Some 0) (Some "tachometer_gui.log") true [0] 1
                [EOpen "tachometer_gui.log" "a" 0]
    | Raise e =>
        mkState DEBUG None None true [] 0
                [EWrite Stderr ("Error opening log file tachometer_gui.log: "
                                +++ e +++ nl)]
    end.
Proof. destruct os as [[]|e]; reflexivity. Qed.

(** X12: under the configuration that [main()] and [__init__] install
    (threshold DEBUG, console on, the file [tachometer_gui.log] opened for
    appending), a call of [Log.trace] writes nothing, whatever its message,
    and a call at any other level writes one console line, and one line in
    the log file when the file could be opened and accepts it. *)
Theorem startup_configuration (os : result unit) (level : LogLevel)
  (message : string) (env : Env) :
  write_outcome env = Ok tt ->
  let s := run (startup_calls PyObject os) in
  let entry := log_entry_text env level message in
  produced s (fst (_log level message [] env s))
  = match level with
    | TRACE => []
    | _ =>
        EWrite (if ge level ERROR then Stderr else Stdout) (entry +++ nl)
        :: match os with
           | Ok _ => [EWrite (FileSink 0) (entry +++ nl)]
           | Raise _ => []
           end
    end.
Proof.
  intros Hw s entry. subst s entry.
  rewrite (produced_by_log PyObject str_mod tuple_repr), startup_state.
  unfold sink_writes, console_stream. rewrite Hw.
  destruct os as [[]|e], level; reflexivity.
Qed.

End Facts.

End LoggerProperties.

(* ================================================================== *)
(** * Properties of the Brazilian formatter *)
(* ================================================================== *)
Module FormatterProperties.

Import PyText BrazilianFormatter PyProperties TextProperties.

(** ** Reversal, slices and ranges *)

Lemma append_nil_r (s : string) : s +++ EmptyString = s.
Proof. induction s as [|c s IH]; cbn; congruence. Qed.

Lemma append_assoc (a b c : string) : (a +++ b) +++ c = a +++ (b +++ c).
Proof. induction a as [|x a IH]; cbn; congruence. Qed.

Lemma length_append (a b : string) :
  String.length (a +++ b) = String.length a + String.length b.
Proof. induction a as [|x a IH]; cbn; congruence. Qed.

Lemma reversed_append (a b : string) :
  reversed (a +++ b) = reversed b +++ reversed a.
Proof.
  induction a as [|x a IH]; cbn [String.append reversed].
  - symmetry. apply append_nil_r.
  - rewrite IH. apply append_assoc.
Qed.

Lemma reversed_involutive (s : string) : reversed (reversed s) = s.
Proof.
  induction s as [|c s IH]; [reflexivity|].
  cbn [reversed]. rewrite reversed_append, IH. reflexivity.
Qed.

Lemma length_reversed (s : string) :
  String.length (reversed s) = String.length s.
Proof.
  induction s as [|c s IH]; [reflexivity|].
  cbn [reversed]. rewrite length_append, IH. cbn. lia.
Qed.

Lemma all_chars_append (p : ascii -> bool) (a b : string) :
  all_chars p (a +++ b) = all_chars p a && all_chars p b.
Proof.
  induction a as [|x a IH]; [reflexivity|].
  cbn [String.append all_chars]. rewrite IH. apply andb_assoc.
Qed.

Lemma all_chars_reversed (p : ascii -> bool) (s : string) :
  all_chars p (reversed s) = all_chars p s.
Proof.
  induction s as [|c s IH]; [reflexivity|].
  cbn [reversed all_chars]. rewrite all_chars_append, IH.
  cbn [all_chars]. rewrite andb_true_r. apply andb_comm.
Qed.

Lemma remove_char_append (x : ascii) (a b : string) :
  remove_char x (a +++ b) = remove_char x a +++ remove_char x b.
Proof.
  induction a as [|c a IH]; [reflexivity|].
  cbn [String.append remove_char]. rewrite IH.
  destruct (Ascii.eqb c x); reflexivity.
Qed.

Lemma remove_char_reversed (x : ascii) (s : string) :
  remove_char x (reversed s) = reversed (remove_char x s).
Proof.
  induction s as [|c s IH]; [reflexivity|].
  cbn [reversed remove_char]. rewrite remove_char_append, IH.
  cbn [remove_char]. destruct (Ascii.eqb c x); cbn [reversed].
  - apply append_nil_r.
  - reflexivity.
Qed.


Lemma join_snoc (sep : ascii) (l : list string) (x : string) :
  l <> [] -> join sep (l ++ [x]) = join sep l +++ String sep x.
Proof.
  induction l as [|y l IH]; intros Hne; [contradiction Hne; reflexivity|].
  destruct l as [|z l]; [reflexivity|].
  change (join sep ((y :: z :: l) ++ [x]))
    with (y +++ String sep (join sep ((z :: l) ++ [x]))).
  rewrite IH by discriminate.
  change (join sep (y :: z :: l))
    with (y +++ String sep (join sep (z :: l))).
  rewrite append_assoc. reflexivity.
Qed.

Lemma reversed_join (sep : ascii) (l : list string) :
  reversed (join sep l) = join sep (rev (map reversed l)).
Proof.
  induction l as [|x l IH]; [reflexivity|].
  destruct l as [|y l]; [reflexivity|].
  change (join sep (x :: y :: l))
    with (x +++ String sep (join sep (y :: l))).
  rewrite reversed_append. cbn [reversed]. rewrite IH.
  change (rev (map reversed (x :: y :: l)))
    with (rev (map reversed (y :: l)) ++ [reversed x]).
  rewrite join_snoc, append_assoc; [reflexivity|].
  cbn [map rev]. intros E. destruct (rev (map reversed l)); discriminate E.
Qed.

Lemma range_by_three (n : nat) :
  range_step 0 (S (S (S n))) 3
  = 0 :: map (fun i => i + 3) (range_step 0 n 3).
Proof.
  unfold range_step.
  replace ((S (S (S n)) - 0 + (3 - 1)) / 3) with (S ((n - 0 + (3 - 1)) / 3)).
  - cbn [seq map]. f_equal. rewrite <- seq_shift, !map_map.
    apply map_ext. intros k. lia.
  - replace (S (S (S n)) - 0 + (3 - 1)) with (1 * 3 + (n - 0 + (3 - 1)))
      by lia.
    rewrite Nat.div_add_l by discriminate. reflexivity.
Qed.

Lemma groups_of_three (a b c : ascii) (r : string) :
  groups_of (String a (String b (String c r)))
  = String a (String b (String c EmptyString)) :: groups_of r.
Proof.
  unfold groups_of. cbn [String.length]. rewrite range_by_three.
  cbn [map]. f_equal. rewrite map_map. apply map_ext. intros i.
  unfold slice. replace (i + 3 + 3 - (i + 3)) with (i + 3 - i) by lia.
  replace (i + 3) with (S (S (S i))) at 2 by lia. reflexivity.
Qed.

(** Strings, three characters at a time *)
Lemma by_threes (P : string -> Prop) :
  P EmptyString ->
  (forall a, P (String a EmptyString)) ->
  (forall a b, P (String a (String b EmptyString))) ->
  (forall a b c r, P r -> P (String a (String b (String c r)))) ->
  forall s, P s.
Proof.
  intros H0 H1 H2 H3.
  assert (H : forall s, P s /\ (forall a, P (String a s))
                        /\ (forall a b, P (String a (String b s)))).
  { induction s as [|c s (IHa & IHb & IHc)].
    - repeat split; auto.
    - split; [apply IHb|]. split; [intros a; apply IHc|].
      intros a b. apply H3. exact IHa. }
  intros s. apply (H s).
Qed.

(** ** The groups of [manual_format_integer] *)

(** The loop cuts the reversed digits into groups of three, the last one
    shorter when the digits run out: glued again they are the digits. *)
Lemma groups_of_glue (sep : ascii) (s : string) :
  free_of sep s = true ->
  remove_char sep (join sep (groups_of s)) = s.
Proof.
  induction s as [| a | a b | a b c r IH] using by_threes; intros H.
  - reflexivity.
  - cbn in H |- *. apply andb_true_iff in H. destruct H as [Ha _].
    apply negb_true_iff in Ha. rewrite Ha. reflexivity.
  - cbn in H |- *. apply andb_true_iff in H. destruct H as [Ha H].
    apply andb_true_iff in H. destruct H as [Hb _].
    apply negb_true_iff in Ha, Hb. rewrite Ha, Hb. reflexivity.
  - rewrite groups_of_three.
    apply free_of_cons in H. destruct H as [Ha H].
    apply free_of_cons in H. destruct H as [Hb H].
    apply free_of_cons in H. destruct H as [Hc H].
    specialize (IH H).
    destruct (groups_of r) as [|g gs] eqn:E.
    + cbn [join] in IH |- *. cbn [remove_char]. rewrite Ha, Hb, Hc.
      cbn [remove_char] in IH. rewrite <- IH. reflexivity.
    + change (join sep (String a (String b (String c EmptyString)) :: g :: gs))
        with (String a (String b (String c (String sep (join sep (g :: gs)))))).
      cbn [remove_char]. rewrite Ha, Hb, Hc, Ascii.eqb_refl, IH.
      reflexivity.
Qed.

(** Every group but the last has three characters, the last has one to
    three, and a group has only characters of the string. *)
Lemma groups_of_shape (p : ascii -> bool) (s : string) :
  s <> EmptyString ->
  all_chars p s = true ->
  exists init last,
    groups_of s = init ++ [last]
    /\ Forall (fun g => String.length g = 3) init
    /\ 1 <= String.length last <= 3
    /\ Forall (fun g => all_chars p g = true) (init ++ [last]).
Proof.
  induction s as [| a | a b | a b c r IH] using by_threes; intros Hne Hp.
  - contradiction Hne; reflexivity.
  - exists [], (String a EmptyString). cbn. repeat split; auto.
  - exists [], (String a (String b EmptyString)). cbn. repeat split; auto.
  - rewrite groups_of_three.
    cbn [all_chars] in Hp.
    apply andb_true_iff in Hp. destruct Hp as [Ha Hp].
    apply andb_true_iff in Hp. destruct Hp as [Hb Hp].
    apply andb_true_iff in Hp. destruct Hp as [Hc Hp].
    assert (H3 : all_chars p (String a (String b (String c EmptyString)))
                 = true)
      by (cbn [all_chars]; rewrite Ha, Hb, Hc; reflexivity).
    destruct r as [|d r].
    + exists [], (String a (String b (String c EmptyString))).
      cbn [app]. split; [reflexivity|]. split; [constructor|].
      split; [cbn; lia|]. constructor; [exact H3 | constructor].
    + destruct (IH ltac:(discriminate) Hp) as (init & last & E & Hi & Hl & Hall).
      exists (String a (String b (String c EmptyString)) :: init), last.
      rewrite E. split; [reflexivity|].
      split; [constructor; [reflexivity | exact Hi]|].
      split; [exact Hl|].
      cbn [app]. constructor; [exact H3 | exact Hall].
Qed.

Lemma digits_of_abs (z : Z) : digits_of (Z.abs z) = digits_of z.
Proof. unfold digits_of. f_equal. f_equal. lia. Qed.

Lemma int_text_abs (z : Z) : int_text (Z.abs z) = digits_of z.
Proof.
  unfold int_text. rewrite digits_of_abs.
  destruct (Z.abs z <? 0)%Z eqn:E; [|reflexivity].
  apply Z.ltb_lt in E. lia.
Qed.

Lemma digits_are_digits (z : Z) :
  digits_of z <> EmptyString /\ all_chars is_digit (digits_of z) = true.
Proof.
  destruct (digits_of_shape z) as (c & r & E & Hc & Hr). rewrite E.
  split; [discriminate|]. cbn [all_chars]. rewrite Hc, Hr. reflexivity.
Qed.

Lemma digits_free (x : ascii) (s : string) :
  is_digit x = false -> all_chars is_digit s = true -> free_of x s = true.
Proof.
  intros Hx. apply all_chars_impl. intros c Hc.
  rewrite (other_than x is_digit c Hx Hc). reflexivity.
Qed.

Section Facts.

Variable max_str_digits : nat.
Variable str_error_text : Z -> string.
Variable locale_format : Z -> result string.
Variable fixed : Z -> Z -> nat -> result string.

Local Abbreviation manual_format_integer :=
  (BrazilianFormatter.manual_format_integer max_str_digits str_error_text).
Local Abbreviation format_integer :=
  (BrazilianFormatter.format_integer max_str_digits str_error_text
     locale_format).
Local Abbreviation format_rpm :=
  (BrazilianFormatter.format_rpm max_str_digits str_error_text locale_format).
Local Abbreviation format_frequency :=
  (BrazilianFormatter.format_frequency max_str_digits str_error_text
     locale_format fixed).
Local Abbreviation format_revolutions :=
  (BrazilianFormatter.format_revolutions max_str_digits str_error_text
     locale_format).

Lemma str_runs (z : Z) (out : Out) :
  within_limit max_str_digits z = true ->
  str max_str_digits str_error_text z out = (out, Ok (int_text z)).
Proof.
  intros H. apply negb_true_iff in H.
  unfold str, lift, str_int. rewrite H. reflexivity.
Qed.

Lemma manual_format_integer_runs (number : Z) (out : Out) :
  within_limit max_str_digits number = true ->
  manual_format_integer number out
  = (out,
     Ok ((if (number <? 0)%Z then "-" else EmptyString)
         +++ reversed (join "." (groups_of (reversed (digits_of number)))))).
Proof.
  intros H.
  assert (Ha : within_limit max_str_digits (Z.abs number) = true)
    by (unfold within_limit in *; rewrite digits_of_abs; exact H).
  unfold BrazilianFormatter.manual_format_integer, try_except.
  rewrite bind_run, (str_runs _ _ Ha), int_text_abs.
  unfold ret. destruct (number <? 0)%Z; reflexivity.
Qed.

Lemma grouped_body_digits (z : Z) :
  remove_char "." (reversed (join "." (groups_of (reversed (digits_of z)))))
  = digits_of z.
Proof.
  destruct (digits_are_digits z) as [_ Hd].
  rewrite remove_char_reversed, groups_of_glue.
  - apply reversed_involutive.
  - apply digits_free; [reflexivity|].
    rewrite all_chars_reversed. exact Hd.
Qed.

(** X13: [manual_format_integer] groups the digits in the Brazilian way.
    For every integer that [str] can render, the method prints nothing and
    returns the sign followed by a body that, cut at its dots, has a first
    group of one to three digits and then groups of exactly three digits;
    the body without its dots is the decimal text of the absolute value. *)
Theorem manual_format_integer_groups (number : Z) (out : Out) :
  within_limit max_str_digits number = true ->
  exists body,
    manual_format_integer number out
    = (out, Ok ((if (number <? 0)%Z then "-" else EmptyString) +++ body))
    /\ grouped (split "." body)
    /\ remove_char "." body = digits_of number.
Proof.
  intros H. eexists. split; [apply manual_format_integer_runs, H|].
  destruct (digits_are_digits number) as [Hne Hd].
  assert (Hrne : reversed (digits_of number) <> EmptyString).
  { intros E. apply Hne. rewrite <- (reversed_involutive (digits_of number)), E.
    reflexivity. }
  assert (Hrd : all_chars is_digit (reversed (digits_of number)) = true)
    by (rewrite all_chars_reversed; exact Hd).
  split.
  - destruct (groups_of_shape is_digit _ Hrne Hrd)
      as (init & last & E & Hi & Hl & Hall).
    rewrite reversed_join, E, map_app, rev_app_distr. cbn [map rev app].
    apply Forall_app in Hall. destruct Hall as [Hai Hal].
    inversion Hal as [|? ? Hlast _]; subst.
    assert (Hdig : Forall (fun g => all_chars is_digit g = true)
                     (reversed last :: rev (map reversed init))).
    { constructor; [rewrite all_chars_reversed; exact Hlast|].
      apply Forall_rev, Forall_map.
      revert Hai. apply Forall_impl. intros g Hg.
      rewrite all_chars_reversed. exact Hg. }
    rewrite split_join.
    + split; [rewrite length_reversed; exact Hl|]. split; [|exact Hdig].
      apply Forall_rev, Forall_map. revert Hi. apply Forall_impl.
      intros g Hg. rewrite length_reversed. exact Hg.
    + discriminate.
    + revert Hdig. apply Forall_impl. intros g.
      apply digits_free. reflexivity.
  - apply grouped_body_digits.
Qed.



(** X15: Past the digit limit nothing is formatted.  For an integer that
    [str] refuses to render, [manual_format_integer] prints one line about
    the error and then fails in its own handler, which calls [str] again:
    the error reaches the caller.  [format_integer] without the locale runs
    the method twice and fails the same way. *)
Theorem past_the_limit_the_error_escapes (number : Z) (out : Out) :
  within_limit max_str_digits number = false ->
  let line := "Error in manual_format_integer: "
              +++ str_error_text (Z.abs number) in
  manual_format_integer number out
  = (out ++ [line], Raise (str_error_text number))
  /\ format_integer false number out
     = ((out ++ [line]) ++ [line], Raise (str_error_text number)).
Proof.
  intros H line. apply negb_false_iff in H.
  assert (E : forall o,
             manual_format_integer number o
             = (o ++ [line], Raise (str_error_text number))).
  { intros o.
    unfold BrazilianFormatter.manual_format_integer, try_except, bind, str,
      lift, str_int, print, modify.
    rewrite digits_of_abs, H. reflexivity. }
  split; [apply E|].
  unfold BrazilianFormatter.format_integer, try_except.
  rewrite E, E. reflexivity.
Qed.

End Facts.

(** X16: The universal fallback decides the formatting path.  If
    [locale.setlocale] accepts the name "C", [setup_locale] always ends with
    [locale_set] true, having printed exactly one line, which names an
    accepted locale of its list: the manual formatting is then used only
    when [locale.format_string] raises. *)
Theorem c_locale_is_always_found (locale_ok : string -> bool) (out : Out) :
  locale_ok "C" = true ->
  exists name,
    locale_ok name = true
    /\ setup_locale locale_ok out
       = (out ++ ["BrazilianFormatter.setup_locale(): Brazilian locale set to '"
                  +++ name +++ "'"],
          Ok true).
Proof.
  intros HC. unfold setup_locale. cbn [try_locales].
  repeat match goal with
         | |- context [if locale_ok ?n then _ else _] =>
             destruct (locale_ok n) eqn:?
         end;
    try discriminate;
    eexists; (split; [eassumption | reflexivity]).
Qed.

End FormatterProperties.

(* ================================================================== *)
(** * Properties of the panel and its timer *)
(* ================================================================== *)
Module PanelProperties.

Import Log TachometerGUI PyText BrazilianFormatter Panel.
Import PyProperties TextProperties FormatterProperties.

(** ** Frames and normal returns, method by method *)

Section Frames.

Context {S X : Type} (part : S -> X).

Lemma preserves_ret {A : Type} (a : A) : preserves part (ret a).
Proof. intros s. reflexivity. Qed.

Lemma preserves_lift {A : Type} (r : result A) : preserves part (lift r).
Proof. intros s. reflexivity. Qed.

Lemma preserves_get : preserves part get.
Proof. intros s. reflexivity. Qed.

Lemma preserves_modify (f : S -> S) :
  (forall s, part (f s) = part s) -> preserves part (modify f).
Proof. intros H s. apply H. Qed.

Lemma preserves_bind {A B : Type} (m : M S A) (k : A -> M S B) :
  preserves part m -> (forall a, preserves part (k a)) ->
  preserves part (bind m k).
Proof.
  intros Hm Hk s. unfold bind. specialize (Hm s).
  destruct (m s) as [s' [a|e]]; cbn [fst] in *.
  - rewrite Hk. exact Hm.
  - exact Hm.
Qed.

Lemma preserves_try {A : Type} (c : M S A) (h : string -> M S A) :
  preserves part c -> (forall e, preserves part (h e)) ->
  preserves part (try_except c h).
Proof.
  intros Hc Hh s. unfold try_except. specialize (Hc s).
  destruct (c s) as [s' [a|e]]; cbn [fst] in *.
  - exact Hc.
  - rewrite Hh. exact Hc.
Qed.

Lemma preserves_if {A : Type} (b : bool) (c d : M S A) :
  preserves part c -> preserves part d ->
  preserves part (if b then c else d).
Proof. destruct b; auto. Qed.

End Frames.

Section Returns.

Context {S : Type}.

Lemma returns_ret {A : Type} (a : A) : returns (S := S) (ret a).
Proof. intros s. exists a. reflexivity. Qed.

Lemma returns_get : returns (S := S) get.
Proof. intros s. exists s. reflexivity. Qed.

Lemma returns_modify (f : S -> S) : returns (modify f).
Proof. intros s. exists tt. reflexivity. Qed.

Lemma returns_bind {A B : Type} (m : M S A) (k : A -> M S B) :
  returns m -> (forall a, returns (k a)) -> returns (bind m k).
Proof.
  intros Hm Hk s. unfold bind. destruct (Hm s) as [a Ha].
  destruct (m s) as [s' r]. cbn [snd] in Ha. subst r. apply Hk.
Qed.

Lemma returns_try {A : Type} (c : M S A) (h : string -> M S A) :
  (forall e, returns (h e)) -> returns (try_except c h).
Proof.
  intros Hh s. unfold try_except.
  destruct (c s) as [s' [a|e]].
  - exists a. reflexivity.
  - apply Hh.
Qed.

Lemma returns_if {A : Type} (b : bool) (c d : M S A) :
  returns c -> returns d -> returns (if b then c else d).
Proof. destruct b; auto. Qed.

Lemma returns_run (c : M S unit) (s : S) :
  returns c -> c s = (fst (c s), Ok tt).
Proof.
  intros H. destruct (H s) as [[] Ha].
  destruct (c s) as [s' r]. cbn [fst snd] in *. subst r. reflexivity.
Qed.

End Returns.

Lemma preserves_on_gui {X A : Type} (part : Gui -> X) (c : M Gui A) :
  preserves part c -> preserves (fun u => part (gui u)) (on_gui c).
Proof. intros H u. apply H. Qed.

Lemma preserves_beside_gui {X A : Type} (part : Ui -> X) (c : M Gui A) :
  (forall g u, part (with_gui g u) = part u) -> preserves part (on_gui c).
Proof. intros H u. apply H. Qed.

Lemma preserves_on_stdout {X A : Type} (part : Ui -> X) (c : M Out A) :
  (forall o u, part (with_stdout o u) = part u) ->
  preserves part (on_stdout c).
Proof. intros H u. apply H. Qed.

Lemma preserves_widget {X : Type} (part : Ui -> X) (f : Display -> Display) :
  (forall d u, part (with_display d u) = part u) ->
  preserves part (widget f).
Proof. intros H u. apply H. Qed.

Lemma returns_on_gui {A : Type} (c : M Gui A) : returns c -> returns (on_gui c).
Proof. intros H u. apply H. Qed.

(** The methods of the bridge that the panel calls *)
Lemma Log_call_returns (level : LogLevel) (message : string) :
  returns (Log_call level message).
Proof. intros g. exists tt. reflexivity. Qed.

Lemma log_message_returns (message level : string) :
  returns (log_message message level).
Proof. intros g. exists tt. reflexivity. Qed.

Lemma send_command_returns (command : string) : returns (send_command command).
Proof.
  intros g. exists tt. unfold send_command, bind, get, Log_call, modify.
  cbn [fst snd is_connected with_log_calls]. destruct (is_connected g); reflexivity.
Qed.

Lemma add_data_to_plot_returns (data : Measurement) (t : Z) :
  returns (TachometerGUI.add_data_to_plot data t).
Proof. intros g. exists tt. reflexivity. Qed.

(** A part of the bridge that the journal of [Log] calls is no part of *)
Ltac gui_frame :=
  let g := fresh "g" in
  intros g; try reflexivity;
  unfold send_command, bind, get, Log_call, modify;
  cbn [fst snd is_connected with_log_calls];
  destruct (is_connected g); reflexivity.

Ltac frame :=
  repeat first
    [ apply preserves_ret
    | apply preserves_lift
    | apply preserves_get
    | apply preserves_bind; [|intros ?]
    | apply preserves_try; [|intros ?]
    | apply preserves_if
    | apply preserves_on_stdout; intros; reflexivity
    | apply preserves_widget; intros; reflexivity
    | apply preserves_beside_gui; intros; reflexivity
    | match goal with
      | |- preserves (fun u => ?p (gui u)) (on_gui _) =>
          apply (preserves_on_gui p); gui_frame
      end
    | apply preserves_modify; intros; reflexivity ].

Ltac comes_back :=
  repeat first
    [ apply returns_ret
    | apply returns_get
    | apply returns_modify
    | apply returns_try; intros ?
    | apply returns_if
    | apply returns_on_gui;
      first [ apply Log_call_returns | apply log_message_returns
            | apply send_command_returns | apply add_data_to_plot_returns
            | apply returns_modify ]
    | apply returns_bind; [|intros ?] ].

Section Facts.

Variable max_str_digits : nat.
Variable str_error_text : Z -> string.
Variable locale_set : bool.
Variable locale_format : Z -> result string.
Variable fixed : Z -> Z -> nat -> result string.
Variable clock : nat -> Z.
Variable now_text : nat -> string.

Local Abbreviation update_measurements :=
  (Panel.update_measurements max_str_digits str_error_text locale_set
     locale_format fixed).
Local Abbreviation add_data_to_plot := (Panel.add_data_to_plot clock).
Local Abbreviation update_configuration_display :=
  (Panel.update_configuration_display max_str_digits str_error_text now_text).
Local Abbreviation dispatch :=
  (Panel.dispatch max_str_digits str_error_text locale_set locale_format
     fixed clock now_text).
Local Abbreviation pump :=
  (Panel.pump max_str_digits str_error_text locale_set locale_format fixed
     clock now_text).
Local Abbreviation turn :=
  (Panel.turn max_str_digits str_error_text locale_set locale_format fixed
     clock now_text).
Local Abbreviation update_gui_timer :=
  (Panel.update_gui_timer max_str_digits str_error_text locale_set
     locale_format fixed clock now_text).
Local Abbreviation apply_config_changes :=
  (Panel.apply_config_changes max_str_digits str_error_text).
Local Abbreviation readout_calls :=
  (Panel.readout_calls max_str_digits str_error_text locale_set locale_format
     fixed).

Lemma dispatch_returns (e : Event) : returns (dispatch e).
Proof.
  destruct e; unfold Panel.dispatch, Panel.update_measurements,
    Panel.add_data_to_plot, Panel.update_configuration_display,
    Panel.handle_command_response, Panel.handle_system_message, time_time;
    comes_back.
Qed.

Ltac open_dispatch :=
  unfold Panel.dispatch, Panel.update_measurements, Panel.add_data_to_plot,
    Panel.update_configuration_display, Panel.handle_command_response,
    Panel.handle_system_message, time_time, datetime_now, Panel.str,
    format_rpm_br, format_frequency_br, format_revolutions_br,
    format_time_br, widget.

Lemma dispatch_keeps_queue (e : Event) :
  preserves (fun u => data_queue (gui u)) (dispatch e).
Proof. destruct e; open_dispatch; frame. Qed.

Lemma dispatch_keeps_bridge (e : Event) :
  preserves (fun u => bridge_side (gui u)) (dispatch e).
Proof. destruct e; open_dispatch; frame. Qed.

Lemma dispatch_keeps_after (e : Event) : preserves after_calls (dispatch e).
Proof. destruct e; open_dispatch; frame. Qed.

Lemma turn_runs (e : Event) (u : Ui) :
  dispatch e (pop u) = (turn u e, Ok tt).
Proof. apply returns_run, dispatch_returns. Qed.

Lemma pump_runs (q : list Event) :
  forall (u : Ui) (fuel : nat),
    data_queue (gui u) = q -> List.length q <= fuel ->
    pump fuel u = (fold_left turn q u, Ok tt)
    /\ data_queue (gui (fold_left turn q u)) = [].
Proof.
  induction q as [|e rest IH]; intros u fuel Hq Hfuel.
  - split; [|exact Hq].
    destruct fuel; [reflexivity|].
    cbn [Panel.pump]. unfold bind, get. rewrite Hq. reflexivity.
  - destruct fuel as [|fuel]; [cbn in Hfuel; lia|].
    assert (Hpop : with_gui (with_data_queue rest (gui u)) u = pop u)
      by (unfold pop; rewrite Hq; reflexivity).
    assert (Hrest : data_queue (gui (turn u e)) = rest).
    { unfold Panel.turn. rewrite (dispatch_keeps_queue e (pop u)).
      unfold pop. rewrite Hq. reflexivity. }
    destruct (IH (turn u e) fuel Hrest) as [Hrun Hempty];
      [cbn in Hfuel; lia|].
    cbn [fold_left]. split; [|exact Hempty].
    cbn [Panel.pump]. unfold bind at 1. unfold get at 1. rewrite Hq.
    unfold bind at 1. unfold on_gui at 1, modify at 1. cbn [fst snd].
    change (fst (modify (with_data_queue rest) (gui u)))
      with (with_data_queue rest (gui u)).
    rewrite Hpop. unfold bind at 1. rewrite turn_runs. exact Hrun.
Qed.

Lemma turns_keep {X : Type} (part : Ui -> X) (q : list Event) (u : Ui) :
  (forall e, preserves part (dispatch e)) ->
  (forall v, part (pop v) = part v) ->
  part (fold_left turn q u) = part u.
Proof.
  intros Hd Hp. revert u. induction q as [|e q IH]; intros u; [reflexivity|].
  cbn [fold_left]. rewrite IH. unfold Panel.turn. rewrite Hd. apply Hp.
Qed.

Lemma update_gui_timer_runs (u : Ui) :
  update_gui_timer u
  = (with_after_calls
       (after_calls (fold_left turn (data_queue (gui u)) u) ++ [50])
       (fold_left turn (data_queue (gui u)) u),
     Ok tt).
Proof.
  destruct (pump_runs (data_queue (gui u)) u
              (List.length (data_queue (gui u))) eq_refl (le_n _))
    as [Hrun _].
  unfold Panel.update_gui_timer, try_except.
  unfold bind at 1. unfold bind at 1. unfold get at 1. rewrite Hrun.
  reflexivity.
Qed.

Lemma turn_lines (u : Ui) (e : Event) :
  log_text (gui (turn u e)) = log_text (gui u) ++ panel_line e.
Proof.
  assert (Hframe : forall e',
             panel_line e' = [] ->
             preserves (fun u => log_text (gui u)) (dispatch e') ->
             log_text (gui (turn u e')) = log_text (gui u) ++ panel_line e').
  { intros e' Hl Hp. unfold Panel.turn. rewrite Hl, app_nil_r.
    rewrite (Hp (pop u)). reflexivity. }
  destruct e as [m | c | r | t | d].
  - apply Hframe; [reflexivity|]. open_dispatch; frame.
  - apply Hframe; [reflexivity|]. open_dispatch; frame.
  - reflexivity.
  - unfold Panel.turn, Panel.dispatch, Panel.handle_system_message,
      panel_line.
    unfold bind at 1. unfold on_gui at 1. cbn [fst snd].
    destruct (String.eqb t "STARTUP"); [reflexivity|].
    destruct (String.eqb t "INIT_OK"); [reflexivity|].
    destruct (String.eqb t "INIT_ERROR"); reflexivity.
  - reflexivity.
Qed.

Lemma turns_lines (q : list Event) (u : Ui) :
  log_text (gui (fold_left turn q u))
  = log_text (gui u) ++ flat_map panel_line q.
Proof.
  revert u. induction q as [|e q IH]; intros u.
  - cbn. rewrite app_nil_r. reflexivity.
  - cbn [fold_left flat_map]. rewrite IH, turn_lines, <- app_assoc.
    reflexivity.
Qed.

(** X17: A tick of the timer empties the queue.  With no other thread
    running, [update_gui_timer] returns normally whatever the queue holds,
    leaves the queue empty and asks for the next tick in 50 ms, exactly
    once.  It adds to the log panel one line per RESPONSE, SYSTEM and RAW
    event, in queue order, and none for a DATA or CONFIG event, even when
    showing that event fails.  It never touches the port, the pending
    commands, the connection flags, the two snapshots or the message
    boxes. *)
Theorem timer_tick_drains_the_queue (u : Ui) :
  exists u',
    update_gui_timer u = (u', Ok tt)
    /\ data_queue (gui u') = []
    /\ after_calls u' = after_calls u ++ [50]
    /\ log_text (gui u')
       = log_text (gui u) ++ flat_map panel_line (data_queue (gui u))
    /\ bridge_side (gui u') = bridge_side (gui u).
Proof.
  eexists. split; [apply update_gui_timer_runs|].
  destruct (pump_runs (data_queue (gui u)) u
              (List.length (data_queue (gui u))) eq_refl (le_n _))
    as [_ Hempty].
  cbn [gui after_calls with_after_calls].
  split; [exact Hempty|].
  split.
  - f_equal. apply (turns_keep after_calls).
    + apply dispatch_keeps_after.
    + reflexivity.
  - split; [apply turns_lines|].
    apply (turns_keep (fun u => bridge_side (gui u))).
    + apply dispatch_keeps_bridge.
    + reflexivity.
Qed.

(** ** The series of the plot *)

Lemma turn_data (u : Ui) (m : Measurement) :
  exists k,
    time_data (gui (turn u (DATA m)))
    = deque_append (time_data (gui u)) (clock k)
    /\ rpm_data (gui (turn u (DATA m)))
       = deque_append (rpm_data (gui u)) (rpm m)
    /\ filtered_rpm_data (gui (turn u (DATA m)))
       = deque_append (filtered_rpm_data (gui u)) (filtered_rpm m)
    /\ frequency_data (gui (turn u (DATA m)))
       = deque_append (frequency_data (gui u)) (frequency m).
Proof.
  unfold Panel.turn, Panel.dispatch.
  assert (Hret : returns (update_measurements m))
    by (unfold Panel.update_measurements; comes_back).
  assert (Ht : preserves (fun u => time_data (gui u)) (update_measurements m))
    by (open_dispatch; frame).
  assert (Hr : preserves (fun u => rpm_data (gui u)) (update_measurements m))
    by (open_dispatch; frame).
  assert (Hf : preserves (fun u => filtered_rpm_data (gui u))
                 (update_measurements m))
    by (open_dispatch; frame).
  assert (Hq : preserves (fun u => frequency_data (gui u))
                 (update_measurements m))
    by (open_dispatch; frame).
  specialize (Ht (pop u)). specialize (Hr (pop u)).
  specialize (Hf (pop u)). specialize (Hq (pop u)).
  cbv beta in Ht, Hr, Hf, Hq.
  set (u1 := fst (update_measurements m (pop u))) in *.
  assert (E : fst ((update_measurements m ;; add_data_to_plot m) (pop u))
              = with_gui
                  (fst (TachometerGUI.add_data_to_plot m
                          (clock (clock_reads u1)) (gui u1)))
                  (with_clock_reads (S (clock_reads u1)) u1)).
  { unfold bind at 1. rewrite (returns_run _ (pop u) Hret).
    reflexivity. }
  rewrite E. exists (clock_reads u1).
  rewrite BridgeProperties.add_data_to_plot_runs.
  cbn [fst gui with_gui time_data rpm_data filtered_rpm_data frequency_data
       with_log_calls with_plot_data].
  rewrite Ht, Hr, Hf, Hq. repeat split.
Qed.

Lemma turn_other (u : Ui) (e : Event) :
  is_data e = false ->
  time_data (gui (turn u e)) = time_data (gui u)
  /\ rpm_data (gui (turn u e)) = rpm_data (gui u)
  /\ filtered_rpm_data (gui (turn u e)) = filtered_rpm_data (gui u)
  /\ frequency_data (gui (turn u e)) = frequency_data (gui u).
Proof.
  intros He. unfold Panel.turn.
  assert (Ht : preserves (fun u => time_data (gui u)) (dispatch e))
    by (destruct e; try discriminate He; open_dispatch; frame).
  assert (Hr : preserves (fun u => rpm_data (gui u)) (dispatch e))
    by (destruct e; try discriminate He; open_dispatch; frame).
  assert (Hf : preserves (fun u => filtered_rpm_data (gui u)) (dispatch e))
    by (destruct e; try discriminate He; open_dispatch; frame).
  assert (Hq : preserves (fun u => frequency_data (gui u)) (dispatch e))
    by (destruct e; try discriminate He; open_dispatch; frame).
  rewrite (Ht (pop u)), (Hr (pop u)), (Hf (pop u)), (Hq (pop u)).
  repeat split.
Qed.

Lemma turns_plot (q : list Event) (u : Ui) :
  let ms := measurements q in
  let g' := gui (fold_left turn q u) in
  (exists ks,
     List.length ks = List.length ms
     /\ time_data g'
        = fold_left deque_append (map clock ks) (time_data (gui u)))
  /\ rpm_data g' = fold_left deque_append (map rpm ms) (rpm_data (gui u))
  /\ filtered_rpm_data g'
     = fold_left deque_append (map filtered_rpm ms)
         (filtered_rpm_data (gui u))
  /\ frequency_data g'
     = fold_left deque_append (map frequency ms) (frequency_data (gui u)).
Proof.
  revert u. induction q as [|e q IH]; intros u.
  - split; [exists []; split; reflexivity|]. repeat split.
  - cbn zeta in IH |- *. cbn [fold_left].
    destruct (IH (turn u e)) as ((ks & Hlen & Ht) & Hr & Hf & Hq).
    rewrite Hr, Hf, Hq, Ht.
    destruct (is_data e) eqn:He.
    + destruct e as [m | | | |]; try discriminate He.
      destruct (turn_data u m) as (k & -> & -> & -> & ->).
      split; [|repeat split].
      exists (k :: ks). split; [cbn; rewrite Hlen; reflexivity | reflexivity].
    + destruct (turn_other u e He) as (-> & -> & -> & ->).
      assert (Hm : measurements (e :: q) = measurements q)
        by (destruct e; try discriminate He; reflexivity).
      rewrite Hm.
      split; [exists ks; split; [exact Hlen | reflexivity]|].
      repeat split.
Qed.

Lemma fold_append_size {A : Type} (xs : list A) (d : deque A) :
  List.length (items d) <= maxlen d ->
  List.length (items (fold_left deque_append xs d))
  = Nat.min (maxlen d) (List.length (items d) + List.length xs)
  /\ maxlen (fold_left deque_append xs d) = maxlen d.
Proof.
  revert d. induction xs as [|x xs IH]; intros d Hd.
  - cbn. split; [lia | reflexivity].
  - cbn [fold_left].
    assert (Hstep : List.length (items (deque_append d x))
                    = Nat.min (maxlen d) (S (List.length (items d)))
                    /\ maxlen (deque_append d x) = maxlen d).
    { unfold deque_append. cbn [items maxlen]. split; [|reflexivity].
      rewrite length_app. cbn [List.length].
      destruct (Nat.ltb_spec (maxlen d) (List.length (items d) + 1)).
      - destruct (items d); cbn [app tl List.length] in *;
          [lia | rewrite length_app; cbn; lia].
      - rewrite length_app. cbn. lia. }
    destruct Hstep as [Hlen Hmax].
    destruct (IH (deque_append d x)) as [IHl IHm]; [lia|].
    rewrite IHl, IHm, Hlen, Hmax. cbn [List.length]. split; [lia | reflexivity].
Qed.

(** X18: A tick plots every measurement of the queue.  After
    [update_gui_timer], each of the three value series is the old series
    with the values of the DATA events of the queue appended in queue
    order, and the time series got as many clock readings; an event that is
    no measurement adds no point, and a measurement is plotted even when
    showing it on the monitor tab failed. *)
Theorem timer_tick_plots_every_measurement (u : Ui) :
  let ms := measurements (data_queue (gui u)) in
  let g' := gui (fst (update_gui_timer u)) in
  (exists ks,
     List.length ks = List.length ms
     /\ time_data g'
        = fold_left deque_append (map clock ks) (time_data (gui u)))
  /\ rpm_data g' = fold_left deque_append (map rpm ms) (rpm_data (gui u))
  /\ filtered_rpm_data g'
     = fold_left deque_append (map filtered_rpm ms)
         (filtered_rpm_data (gui u))
  /\ frequency_data g'
     = fold_left deque_append (map frequency ms) (frequency_data (gui u)).
Proof.
  intros ms g'. subst ms g'. rewrite update_gui_timer_runs.
  cbn [fst gui with_after_calls]. apply turns_plot.
Qed.

(** X19: The four series stay aligned.  If the four deques of the plot
    have the same capacity and hold the same number of points, within that
    capacity, then after a tick of the timer they still hold the same
    number of points: the old number plus the number of measurements in
    the queue, cut at the capacity. *)
Theorem timer_tick_keeps_the_series_aligned (n cap : nat) (u : Ui) :
  aligned n cap (gui u) ->
  n <= cap ->
  aligned
    (Nat.min cap (n + List.length (measurements (data_queue (gui u)))))
    cap (gui (fst (update_gui_timer u))).
Proof.
  intros Ha Hn.
  rewrite update_gui_timer_runs. cbn [fst gui with_after_calls].
  destruct (turns_plot (data_queue (gui u)) u)
    as ((ks & Hlen & Ht) & Hr & Hf & Hq).
  unfold aligned in *.
  repeat rewrite Forall_cons_iff in Ha.
  destruct Ha as ((Ht1 & Ht2) & (Hr1 & Hr2) & (Hf1 & Hf2) & (Hq1 & Hq2) & _).
  rewrite Ht, Hr, Hf, Hq.
  assert (Hsize : forall (xs : list Z) (d : deque Z),
             List.length (items d) = n -> maxlen d = cap ->
             List.length xs
             = List.length (measurements (data_queue (gui u))) ->
             List.length (items (fold_left deque_append xs d))
             = Nat.min cap
                 (n + List.length (measurements (data_queue (gui u))))
             /\ maxlen (fold_left deque_append xs d) = cap).
  { intros xs d H1 H2 H3.
    destruct (fold_append_size xs d) as [Hl Hm]; [lia|].
    rewrite Hl, Hm, H1, H2, H3. split; reflexivity. }
  repeat (apply Forall_cons;
          [apply Hsize; rewrite ?length_map; auto|]).
  apply Forall_nil.
Qed.

(** ** The configuration tab *)

Lemma str_run (z : Z) (u : Ui) :
  Panel.str max_str_digits str_error_text z u
  = (u, if within_limit max_str_digits z then Ok (int_text z)
        else Raise (str_error_text z)).
Proof.
  unfold Panel.str, lift, str_int, within_limit.
  destruct (over_limit _ _); reflexivity.
Qed.

Ltac run_panel :=
  cbv [bind get modify ret raise lift when try_except on_gui widget
       Log_call log_message intvar_get datetime_now];
  cbn [fst snd gui display stdout clock_reads after_calls
       with_gui with_display with_clock_reads].

Ltac next_str :=
  match goal with
  | |- context [within_limit ?n ?z] =>
      destruct (within_limit n z) eqn:?
  end.

(** X20: The configuration tab is updated entirely or not at all.
    [update_configuration_display] always returns normally.  When [str] can
    render the seven numbers of the configuration, it replaces the text of
    the tab, sets the four controls and the two labels to the values of the
    configuration and logs at DEBUG level; when one of them is past the
    digit limit, the widgets all stay as they were and one ERROR is logged.
    The monitor displays are left alone in both cases. *)
Theorem configuration_display_is_all_or_nothing (c : Config) (u : Ui) :
  let header := "TachometerGUI.update_configuration_display()" in
  let u' := fst (update_configuration_display c u) in
  snd (update_configuration_display c u) = Ok tt
  /\ readouts (display u') = readouts (display u)
  /\ if forallb (within_limit max_str_digits) (rendered c)
     then
       config_text (display u')
       = configuration_text c (now_text (clock_reads u))
       /\ controls (display u')
          = ([Ok (filter_alpha c); Ok (window_size c);
              Ok (debounce_time c); Ok (sample_period c)],
             (int_text (filter_alpha c), int_text (window_size c)))
       /\ log_calls (gui u')
          = log_calls (gui u)
            ++ [(TRACE, header +++ ": Updating configuration display");
                (DEBUG,
                 header +++ ": Configuration display updated successfully")]
     else
       display u' = display u
       /\ exists z,
           In z (rendered c)
           /\ log_calls (gui u')
              = log_calls (gui u)
                ++ [(TRACE, header +++ ": Updating configuration display");
                    (ERROR,
                     header +++ ": Error updating configuration display - "
                     +++ str_error_text z)].
Proof.
  intros header u'. subst header u'.
  destruct (update_configuration_display c u) as [u' r] eqn:E.
  cbn [fst snd]. revert E.
  unfold Panel.update_configuration_display, rendered.
  cbn [forallb].
  unfold bind at 1. unfold on_gui at 1. cbn [fst snd].
  unfold try_except.
  repeat (unfold bind at 1; rewrite str_run; next_str;
          [|cbn [andb]; run_panel; intros E; injection E as <- <-;
            split; [reflexivity|]; split; [reflexivity|];
            split; [reflexivity|];
            eexists;
            (split;
             [|cbn [gui with_gui]; unfold with_log_calls;
               cbn [log_calls]; rewrite <- app_assoc; reflexivity]);
            cbn [In]; tauto]).
  cbn [andb].
  repeat first
    [ progress run_panel
    | rewrite str_run
    | match goal with
      | H : within_limit _ _ = true |- _ => rewrite H
      end ].
  intros E. injection E as <- <-.
  split; [reflexivity|]. split; [reflexivity|].
  split;
    [|split;
      [reflexivity
      |cbn [gui with_gui]; unfold with_log_calls; cbn [log_calls];
       rewrite <- app_assoc; reflexivity]].
  cbn [display config_text with_gui with_display with_clock_reads
       set_config_text set_alpha_var set_window_var set_debounce_var
       set_period_var set_alpha_label set_window_label].
  unfold configuration_text.
  repeat (rewrite !append_assoc; cbn [String.append]).
  rewrite append_nil_r. reflexivity.
Qed.

(** ** The monitor tab *)

Lemma prints_only_ret {A : Type} (a : A) : prints_only (ret a).
Proof. intros out. unfold ret. cbn. rewrite app_nil_r. reflexivity. Qed.

Lemma prints_only_lift {A : Type} (r : result A) : prints_only (lift r).
Proof. intros out. unfold lift. cbn. rewrite app_nil_r. reflexivity. Qed.

Lemma prints_only_print (text : string) : prints_only (print text).
Proof. intros out. reflexivity. Qed.

Lemma prints_only_bind {A B : Type} (m : M Out A) (k : A -> M Out B) :
  prints_only m -> (forall a, prints_only (k a)) -> prints_only (bind m k).
Proof.
  intros Hm Hk out. unfold bind. rewrite (Hm out).
  destruct (m []) as [o [a|e]]; cbn [fst snd].
  - rewrite (Hk a (out ++ o)), (Hk a o). cbn [fst snd].
    rewrite app_assoc. reflexivity.
  - reflexivity.
Qed.

Lemma prints_only_try {A : Type} (c : M Out A) (h : string -> M Out A) :
  prints_only c -> (forall e, prints_only (h e)) ->
  prints_only (try_except c h).
Proof.
  intros Hc Hh out. unfold try_except. rewrite (Hc out).
  destruct (c []) as [o [a|e]]; cbn [fst snd].
  - reflexivity.
  - rewrite (Hh e (out ++ o)), (Hh e o). cbn [fst snd].
    rewrite app_assoc. reflexivity.
Qed.

Lemma prints_only_if {A : Type} (b : bool) (c d : M Out A) :
  prints_only c -> prints_only d -> prints_only (if b then c else d).
Proof. destruct b; auto. Qed.

Ltac only_prints :=
  unfold format_rpm, format_frequency, format_revolutions,
    format_time_microseconds, format_integer, manual_format_integer,
    BrazilianFormatter.str;
  repeat first
    [ apply prints_only_ret
    | apply prints_only_lift
    | apply prints_only_print
    | apply prints_only_if
    | apply prints_only_try; [|intros ?]
    | apply prints_only_bind; [|intros ?] ].

Lemma readout_calls_print_only (m : Measurement) :
  Forall prints_only (readout_calls m).
Proof. unfold Panel.readout_calls. repeat constructor; only_prints. Qed.

Lemma on_stdout_run {A : Type} (c : M Out A) (u : Ui) :
  prints_only c ->
  on_stdout c u = (with_stdout (stdout u ++ fst (c [])) u, snd (c [])).
Proof. intros H. unfold on_stdout. rewrite (H (stdout u)). reflexivity. Qed.

Lemma update_measurements_shows (m : Measurement) (texts : list string)
  (u : Ui) :
  map (fun c => snd (c [])) (readout_calls m) = map Ok texts ->
  readouts (display (fst (update_measurements m u))) = texts.
Proof.
  intros H.
  pose proof (readout_calls_print_only m) as Hp.
  unfold Panel.readout_calls in H, Hp.
  do 6 (destruct texts as [|? texts]; [discriminate H|]).
  destruct texts; [|discriminate H].
  cbn [map] in H. injection H as H1 H2 H3 H4 H5 H6.
  repeat rewrite Forall_cons_iff in Hp.
  destruct Hp as (P1 & P2 & P3 & P4 & P5 & P6 & _).
  unfold Panel.update_measurements, try_except, format_rpm_br,
    format_frequency_br, format_revolutions_br, format_time_br.
  unfold bind at 1. rewrite (on_stdout_run _ _ P1), H1.
  unfold bind at 1. unfold widget at 1, modify at 1.
  unfold bind at 1. rewrite (on_stdout_run _ _ P2), H2.
  unfold bind at 1. unfold widget at 1, modify at 1.
  unfold bind at 1. rewrite (on_stdout_run _ _ P3), H3.
  unfold bind at 1. unfold widget at 1, modify at 1.
  unfold bind at 1. rewrite (on_stdout_run _ _ P4), H4.
  unfold bind at 1. unfold widget at 1, modify at 1.
  unfold bind at 1. rewrite (on_stdout_run _ _ P5), H5.
  unfold bind at 1. unfold widget at 1, modify at 1.
  unfold bind at 1. rewrite (on_stdout_run _ _ P6), H6.
  unfold bind at 1. unfold widget at 1, modify at 1.
  reflexivity.
Qed.

Lemma turns_keep_when {X : Type} (ok : Event -> bool) (part : Ui -> X)
  (q : list Event) (u : Ui) :
  forallb ok q = true ->
  (forall e, ok e = true -> preserves part (dispatch e)) ->
  (forall v, part (pop v) = part v) ->
  part (fold_left turn q u) = part u.
Proof.
  intros Hq Hd Hp. revert u Hq.
  induction q as [|e q IH]; intros u Hq; [reflexivity|].
  cbn [forallb] in Hq. apply andb_true_iff in Hq. destruct Hq as [He Hq].
  cbn [fold_left]. rewrite (IH _ Hq). unfold Panel.turn.
  rewrite (Hd e He). apply Hp.
Qed.

(** X21: After a tick the monitor tab shows the last measurement.  If the
    queue holds a DATA event with no DATA event behind it, and the six
    calls of the formatter for that measurement return texts, then after
    [update_gui_timer] the six displays of the monitor tab hold exactly
    these texts, whatever else the queue held and whatever the displays
    showed before. *)
Theorem monitor_shows_the_last_measurement
  (u : Ui) (before after : list Event) (m : Measurement)
  (texts : list string) :
  data_queue (gui u) = before ++ DATA m :: after ->
  forallb (fun e => negb (is_data e)) after = true ->
  map (fun c => snd (c [])) (readout_calls m) = map Ok texts ->
  readouts (display (fst (update_gui_timer u))) = texts.
Proof.
  intros Hq Hafter Htexts.
  rewrite update_gui_timer_runs. cbn [fst].
  change (readouts (display (fold_left turn (data_queue (gui u)) u)) = texts).
  rewrite Hq, fold_left_app. cbn [fold_left].
  rewrite (turns_keep_when (fun e => negb (is_data e))
             (fun u => readouts (display u)) after _ Hafter).
  - set (v := pop (fold_left turn before u)).
    change (readouts
              (display
                 (fst ((update_measurements m ;; add_data_to_plot m) v)))
            = texts).
    unfold bind at 1.
    assert (Hret : returns (update_measurements m))
      by (unfold Panel.update_measurements; comes_back).
    rewrite (returns_run _ v Hret).
    assert (Hp : preserves (fun u => readouts (display u))
                   (add_data_to_plot m))
      by (open_dispatch; frame).
    rewrite (Hp _). apply update_measurements_shows, Htexts.
  - intros e He. destruct e; try discriminate He; open_dispatch; frame.
  - reflexivity.
Qed.

(** ** The spin boxes and the button of the configuration tab *)

(** What the methods of the bridge do to the pending commands, the log
    panel, the message boxes and the connection flag *)
Lemma Log_call_effect (level : LogLevel) (message : string) (g : Gui) :
  command_queue (fst (Log_call level message g)) = command_queue g
  /\ log_text (fst (Log_call level message g)) = log_text g
  /\ dialogs (fst (Log_call level message g)) = dialogs g
  /\ is_connected (fst (Log_call level message g)) = is_connected g.
Proof. repeat split. Qed.

Lemma log_message_effect (message level : string) (g : Gui) :
  command_queue (fst (log_message message level g)) = command_queue g
  /\ log_text (fst (log_message message level g))
     = log_text g ++ [(message, level)]
  /\ dialogs (fst (log_message message level g)) = dialogs g
  /\ is_connected (fst (log_message message level g)) = is_connected g.
Proof. repeat split. Qed.

Lemma send_command_effect (command : string) (g : Gui) :
  command_queue (fst (send_command command g))
  = command_queue g ++ (if is_connected g then [command] else [])
  /\ log_text (fst (send_command command g))
     = log_text g
       ++ [if is_connected g then ("Command sent: " +++ command, "INFO")
           else ("Cannot send command: Not connected", "WARNING")]
  /\ dialogs (fst (send_command command g))
     = dialogs g
       ++ (if is_connected g then []
           else [("Warning", "Not connected to Arduino")])
  /\ is_connected (fst (send_command command g)) = is_connected g.
Proof.
  unfold send_command, bind, get, Log_call, modify.
  cbn [fst snd is_connected with_log_calls].
  destruct (is_connected g) eqn:Hc; cbn; rewrite ?app_nil_r, ?Hc;
    repeat split.
Qed.

Lemma on_gui_state {A : Type} (c : M Gui A) (u : Ui) :
  gui (fst (on_gui c u)) = fst (c (gui u))
  /\ display (fst (on_gui c u)) = display u.
Proof. split; reflexivity. Qed.

Ltac bridge_effects :=
  repeat first
    [ rewrite (proj1 (on_gui_state _ _))
    | rewrite (proj2 (on_gui_state _ _))
    | rewrite (proj1 (Log_call_effect _ _ _))
    | rewrite (proj1 (proj2 (Log_call_effect _ _ _)))
    | rewrite (proj1 (proj2 (proj2 (Log_call_effect _ _ _))))
    | rewrite (proj2 (proj2 (proj2 (Log_call_effect _ _ _))))
    | rewrite (proj1 (log_message_effect _ _ _))
    | rewrite (proj1 (proj2 (log_message_effect _ _ _)))
    | rewrite (proj1 (proj2 (proj2 (log_message_effect _ _ _))))
    | rewrite (proj2 (proj2 (proj2 (log_message_effect _ _ _))))
    | rewrite (proj1 (send_command_effect _ _))
    | rewrite (proj1 (proj2 (send_command_effect _ _)))
    | rewrite (proj1 (proj2 (proj2 (send_command_effect _ _))))
    | rewrite (proj2 (proj2 (proj2 (send_command_effect _ _)))) ].

(** X22: The button reports success whether or not anything was sent.
    When both spin boxes hold integers that [str] can render,
    [apply_config_changes] returns normally and ends with the SUCCESS line
    "Configuration changes applied" in the log panel.  On a connected panel
    it has queued SET_DEBOUNCE and then SET_PERIOD, in this order, behind
    the commands already pending; on a panel that is not connected it has
    queued nothing and shown the warning box twice, and the SUCCESS line is
    written all the same. *)
Theorem apply_config_changes_reports_success (u : Ui) (d p : Z) :
  debounce_var (display u) = Ok d ->
  period_var (display u) = Ok p ->
  within_limit max_str_digits d = true ->
  within_limit max_str_digits p = true ->
  let first := "SET_DEBOUNCE:" +++ int_text d in
  let second := "SET_PERIOD:" +++ int_text p in
  exists u',
    apply_config_changes u = (u', Ok tt)
    /\ display u' = display u
    /\ command_queue (gui u')
       = command_queue (gui u)
         ++ (if is_connected (gui u) then [first; second] else [])
    /\ log_text (gui u')
       = log_text (gui u)
         ++ (if is_connected (gui u)
             then [("Command sent: " +++ first, "INFO");
                   ("Command sent: " +++ second, "INFO")]
             else [("Cannot send command: Not connected", "WARNING");
                   ("Cannot send command: Not connected", "WARNING")])
         ++ [("Configuration changes applied", "SUCCESS")]
    /\ dialogs (gui u')
       = dialogs (gui u)
         ++ (if is_connected (gui u) then []
             else [("Warning", "Not connected to Arduino");
                   ("Warning", "Not connected to Arduino")]).
Proof.
  intros Hd Hp Hdl Hpl first second. subst first second.
  unfold Panel.apply_config_changes.
  unfold bind at 1.
  rewrite (returns_run _ u (returns_on_gui _ (Log_call_returns _ _))).
  set (u0 := fst (on_gui (Log_call TRACE _) u)).
  assert (H0 : display u0 = display u) by reflexivity.
  unfold try_except.
  unfold bind at 1. unfold intvar_get at 1. unfold bind at 1, get at 1.
  rewrite H0, Hd. unfold lift at 1.
  unfold bind at 1. unfold intvar_get at 1. unfold bind at 1, get at 1.
  rewrite H0, Hp. unfold lift at 1.
  unfold bind at 1. rewrite str_run, Hdl.
  unfold bind at 1.
  rewrite (returns_run _ _ (returns_on_gui _ (send_command_returns _))).
  unfold bind at 1. rewrite str_run, Hpl.
  unfold bind at 1.
  rewrite (returns_run _ _ (returns_on_gui _ (send_command_returns _))).
  unfold bind at 1.
  rewrite (returns_run _ _ (returns_on_gui _ (Log_call_returns _ _))).
  rewrite (returns_run _ _ (returns_on_gui _ (log_message_returns _ _))).
  eexists. split; [reflexivity|].
  subst u0. bridge_effects.
  destruct (is_connected (gui u));
    repeat split; rewrite ?app_nil_r, <- ?app_assoc; reflexivity.
Qed.

(** X23: An unreadable spin box stops everything.  When [get()] raises on
    the debounce box, or on the period box after the debounce box was read,
    [apply_config_changes] still returns normally, but it has queued no
    command at all, not even the one whose value it could read, shown no
    box, and written one ERROR line with the text of the exception in the
    log panel.  The handlers [on_debounce_change] and [on_period_change]
    have no handler of their own: there the exception escapes, and nothing
    is queued either. *)
Theorem unreadable_spin_box_sends_nothing (u : Ui) (e : string) :
  (debounce_var (display u) = Raise e
   \/ (exists d, debounce_var (display u) = Ok d)
      /\ period_var (display u) = Raise e) ->
  (exists u',
     apply_config_changes u = (u', Ok tt)
     /\ command_queue (gui u') = command_queue (gui u)
     /\ dialogs (gui u') = dialogs (gui u)
     /\ log_text (gui u')
        = log_text (gui u) ++ [("Error applying changes: " +++ e, "ERROR")])
  /\ (debounce_var (display u) = Raise e ->
      exists u',
        Panel.on_debounce_change max_str_digits str_error_text u
        = (u', Raise e)
        /\ command_queue (gui u') = command_queue (gui u)
        /\ log_text (gui u') = log_text (gui u))
  /\ (period_var (display u) = Raise e ->
      exists u',
        Panel.on_period_change max_str_digits str_error_text u
        = (u', Raise e)
        /\ command_queue (gui u') = command_queue (gui u)
        /\ log_text (gui u') = log_text (gui u)).
Proof.
  intros H. split; [|split].
  - unfold Panel.apply_config_changes.
    unfold bind at 1.
    rewrite (returns_run _ u (returns_on_gui _ (Log_call_returns _ _))).
    set (u0 := fst (on_gui (Log_call TRACE _) u)).
    assert (H0 : display u0 = display u) by reflexivity.
    unfold try_except.
    unfold bind at 1. unfold intvar_get at 1. unfold bind at 1, get at 1.
    rewrite H0.
    destruct H as [Hd | [[d Hd] Hp]]; rewrite Hd; unfold lift at 1.
    + unfold bind at 1.
      rewrite (returns_run _ _ (returns_on_gui _ (Log_call_returns _ _))).
      rewrite (returns_run _ _ (returns_on_gui _ (log_message_returns _ _))).
      eexists. split; [reflexivity|].
      subst u0. bridge_effects. repeat split.
    + unfold bind at 1. unfold intvar_get at 1. unfold bind at 1, get at 1.
      rewrite H0, Hp. unfold lift at 1.
      unfold bind at 1.
      rewrite (returns_run _ _ (returns_on_gui _ (Log_call_returns _ _))).
      rewrite (returns_run _ _ (returns_on_gui _ (log_message_returns _ _))).
      eexists. split; [reflexivity|].
      subst u0. bridge_effects. repeat split.
  - intros Hd. unfold Panel.on_debounce_change.
    unfold bind at 1.
    rewrite (returns_run _ u (returns_on_gui _ (Log_call_returns _ _))).
    set (u0 := fst (on_gui (Log_call TRACE _) u)).
    assert (H0 : display u0 = display u) by reflexivity.
    unfold bind at 1. unfold intvar_get at 1. unfold bind at 1, get at 1.
    rewrite H0, Hd. unfold lift at 1.
    eexists. split; [reflexivity|].
    subst u0. bridge_effects. split; reflexivity.
  - intros Hp. unfold Panel.on_period_change.
    unfold bind at 1.
    rewrite (returns_run _ u (returns_on_gui _ (Log_call_returns _ _))).
    set (u0 := fst (on_gui (Log_call TRACE _) u)).
    assert (H0 : display u0 = display u) by reflexivity.
    unfold bind at 1. unfold intvar_get at 1. unfold bind at 1, get at 1.
    rewrite H0, Hp. unfold lift at 1.
    eexists. split; [reflexivity|].
    subst u0. bridge_effects. split; reflexivity.
Qed.

End Facts.

End PanelProperties.

(* ================================================================== *)
(** * Worked examples for the properties beyond the specification *)
(* ================================================================== *)
Module MoreExamples.

Import Log TachometerGUI Sample PyText BrazilianFormatter Panel.
Import BridgeNotions LogNotions PanelSample.

(** A frame rendered from eight integers decodes to these integers *)
Lemma frame_round_trip_example :
  decode digits_limit invalid_literal
    ("DATA:" +++ payload_text [50; 300; 48; 295; 120; 4800; 2000; 123456]%Z)
  = [DATA (mkMeasurement 50 300 48 295 120 4800 2000 123456)].
Proof.
  exact (proj1
    (DecoderProperties.frame_round_trip digits_limit invalid_literal
       50 300 48 295 120 4800 2000 123456 eq_refl)).
Defined.

(** A [DATA] line whose third field is no number *)
Lemma unparsed_field_example :
  exists g' e,
    process_incoming_data digits_limit invalid_literal
      ("DATA" +++ ":" +++ "1,2,x,4,5,6,7,8") (TachometerGUI.init (port []))
    = (g', Ok tt)
    /\ data_queue g' = []
    /\ log_text g' = [("Data parsing error: " +++ e, "ERROR")].
Proof.
  destruct (DecoderProperties.unparsed_field_is_an_error digits_limit
              invalid_literal "DATA" "1,2,x,4,5,6,7,8"
              (TachometerGUI.init (port [])))
    as (g' & e & Hrun & Hq & _ & _ & _ & _ & Hl).
  - left. reflexivity.
  - cbn. lia.
  - reflexivity.
  - exists g', e. split; [exact Hrun|]. split; [exact Hq | exact Hl].
Defined.

(** A command accepted by a connected panel leaves with the next
    iteration of the worker *)
Lemma accepted_command_example :
  exists g' reads,
    worker_iteration digits_limit invalid_literal
      (fst (send_command "GET_CONFIG" connected)) = (g', Ok tt)
    /\ command_queue g' = []
    /\ wire (serial_port g')
       = [Write ("CMD:GET_CONFIG" +++ nl); Flush] ++ reads.
Proof.
  destruct (WorkerProperties.accepted_command_goes_out_last digits_limit
              invalid_literal "GET_CONFIG" connected eq_refl eq_refl)
    as (g' & reads & Hrun & Hq & Hw & _).
  exists g', reads. split; [exact Hrun|]. split; [exact Hq | exact Hw].
Defined.

(** Three rounds of the worker on three pending commands *)
Lemma commands_are_written_once_example :
  exists g',
    worker_cycles digits_limit invalid_literal 3 three_queued = (g', Ok tt)
    /\ filter is_write (wire (serial_port g'))
       = frames ["GET_CONFIG"; "SET_ALPHA:800"; "RESET_ALL"].
Proof.
  destruct (WorkerProperties.commands_are_written_once digits_limit
              invalid_literal 2 three_queued eq_refl eq_refl eq_refl)
    as (g' & Hrun & _ & Hw & _).
  exists g'. split; [exact Hrun | exact Hw].
Defined.

(** The port fails at its fourth operation: the second command is lost *)
Lemma port_failure_example :
  exists g',
    fst (worker_cycle digits_limit invalid_literal failing_port) = g'
    /\ command_queue g' = ["RESET_ALL"]
    /\ wire (serial_port g')
       = [Write ("CMD:GET_CONFIG" +++ nl); Flush;
          Write ("CMD:SET_ALPHA:800" +++ nl)].
Proof.
  destruct (WorkerProperties.port_failure_drops_the_command_in_hand
              digits_limit invalid_literal 3 failing_port eq_refl)
    as (g' & e & Hrun & Hq & Hw & _).
  - cbn. lia.
  - reflexivity.
  - reflexivity.
  - exists g'. split; [rewrite Hrun; reflexivity|].
    split; [exact Hq | exact Hw].
Defined.

(** An INFO line on a full disk *)
Lemma refused_line_example :
  produced with_sink
    (fst (Log._log string percent_s tuple_text INFO "started" [] disk_full
            with_sink))
  = [EWrite Stdout
       ("2025-06-28 10:00:00.000 [INFO] [140001] started" +++ nl);
     EWrite Stderr
       ("Error writing to log file: No space left on device" +++ nl);
     EWrite Stderr
       ("2025-06-28 10:00:00.000 [INFO] [140001] started" +++ nl)].
Proof.
  exact (proj1 (proj2
    (LoggerProperties.refused_line_goes_to_stderr string percent_s tuple_text
       INFO "started" [] disk_full with_sink 0 "No space left on device"
       eq_refl eq_refl eq_refl))).
Defined.

(** A WARNING line after the start-up of the application *)
Lemma startup_example :
  produced (run string percent_s tuple_text (startup_calls string (Ok tt)))
    (fst (Log._log string percent_s tuple_text WARNING "No serial ports found"
            [] clock
            (run string percent_s tuple_text
               (startup_calls string (Ok tt)))))
  = [EWrite Stdout
       (log_entry_text clock WARNING "No serial ports found" +++ nl);
     EWrite (FileSink 0)
       (log_entry_text clock WARNING "No serial ports found" +++ nl)].
Proof.
  exact (LoggerProperties.startup_configuration string percent_s tuple_text
           (Ok tt) WARNING "No serial ports found" clock eq_refl).
Defined.

(** Seven digits in three groups *)
Lemma manual_format_integer_example :
  exists body,
    manual_format_integer digits_limit exceeds_limit (-1234567) []
    = ([], Ok ("-" +++ body))
    /\ grouped (split "." body)
    /\ remove_char "." body = "1234567".
Proof.
  exact (FormatterProperties.manual_format_integer_groups digits_limit
           exceeds_limit (-1234567) [] eq_refl).
Defined.


(** The number 10^640 under the smallest digit limit *)
Lemma past_the_limit_example :
  manual_format_integer least_limit exceeds_limit (10 ^ 640) []
  = (["Error in manual_format_integer: "
      +++ "Exceeds the limit for integer string conversion"],
     Raise "Exceeds the limit for integer string conversion").
Proof.
  exact (proj1
    (FormatterProperties.past_the_limit_the_error_escapes least_limit
       exceeds_limit no_locale (10 ^ 640) [] eq_refl)).
Defined.

(** A platform that knows the locale "C" only *)
Lemma c_locale_example :
  exists name,
    only_c name = true
    /\ setup_locale only_c []
       = (["BrazilianFormatter.setup_locale(): Brazilian locale set to '"
           +++ name +++ "'"],
          Ok true).
Proof.
  exact (FormatterProperties.c_locale_is_always_found only_c [] eq_refl).
Defined.

(** Two measurements plotted on a fresh panel *)
Lemma series_aligned_example :
  aligned 2 100
    (gui (fst (update_gui_timer digits_limit exceeds_limit false no_locale
                 no_fixed wall_clock wall_text busy))).
Proof.
  refine (PanelProperties.timer_tick_keeps_the_series_aligned digits_limit
            exceeds_limit false no_locale no_fixed wall_clock wall_text
            0 100 busy _ _).
  - repeat constructor.
  - lia.
Defined.

(** The monitor tab after a tick on a queue of four events *)
Lemma monitor_example :
  readouts
    (display
       (fst (update_gui_timer digits_limit exceeds_limit false no_locale
               no_fixed wall_clock wall_text busy)))
  = ["72.000 rpm"; "70.800 rpm"; "1.200 Hz"; "1.180 Hz"; "123.456 rev";
     "833 " +++ micro +++ "s"].
Proof.
  exact (PanelProperties.monitor_shows_the_last_measurement digits_limit
           exceeds_limit false no_locale no_fixed wall_clock wall_text
           busy [DATA slow; RESPONSE "OK"] [SYSTEM "INIT_OK"] fast
           ["72.000 rpm"; "70.800 rpm"; "1.200 Hz"; "1.180 Hz";
            "123.456 rev"; "833 " +++ micro +++ "s"]
           eq_refl eq_refl eq_refl).
Defined.

(** The button pressed on a panel that is not connected *)
Lemma apply_config_changes_example :
  exists u',
    apply_config_changes digits_limit exceeds_limit (Panel.init (port []))
    = (u', Ok tt)
    /\ command_queue (gui u') = []
    /\ log_text (gui u')
       = [("Cannot send command: Not connected", "WARNING");
          ("Cannot send command: Not connected", "WARNING");
          ("Configuration changes applied", "SUCCESS")].
Proof.
  destruct (PanelProperties.apply_config_changes_reports_success digits_limit
              exceeds_limit (Panel.init (port [])) 100 1000
              eq_refl eq_refl eq_refl eq_refl)
    as (u' & Hrun & _ & Hq & Hl & _).
  exists u'. split; [exact Hrun|]. split; [exact Hq | exact Hl].
Defined.

(** The button pressed while the debounce box holds no integer *)
Lemma unreadable_spin_box_example :
  exists u',
    apply_config_changes digits_limit exceeds_limit mistyped = (u', Ok tt)
    /\ command_queue (gui u') = []
    /\ log_text (gui u')
       = [("Error applying changes: expected integer but got abc", "ERROR")].
Proof.
  destruct (proj1
    (PanelProperties.unreadable_spin_box_sends_nothing digits_limit
       exceeds_limit mistyped "expected integer but got abc"
       (or_introl eq_refl)))
    as (u' & Hrun & Hq & _ & Hl).
  exists u'. split; [exact Hrun|]. split; [exact Hq | exact Hl].
Defined.

End MoreExamples.
